(** * NationBuilder API wrapper and capital redemption: a shallow embedding

    The development follows the Python sources module by module:
    - [nationbuilder_api/helpers.py]            : [handle_filter], [filter_resource]
    - [nationbuilder_api/endpoints/decorators.py]: [handle_pagination], [handle_resp_proc]
    - [nationbuilder_api/endpoints/helpers.py]  : [handle_resp_proc_args], [proc_resp]
    - [nationbuilder_api/resp_procs.py]         : [payload_filter], [resp_bool]
    - [platforms/shopify/tasks.py]              : [create_discount]

    Python objects are a small universe of values, dictionaries keep their
    insertion order, raising is an error monad, and everything the code
    shares or mutates (the keyword-argument dictionary of a call, the
    decoration-time [resp_proc_args], the logger, the two remote services)
    is threaded explicitly. *)

From Stdlib Require Import ZArith List String Bool Lia PeanoNat.
From Stdlib Require Import Floats.PrimFloat Floats.SpecFloat Floats.FloatOps.
From Stdlib Require Import Numbers.Cyclic.Int63.Uint63.
Import ListNotations.
Open Scope string_scope.
Open Scope list_scope.
Set Warnings "-register-all".

(** ** Exceptions and the error monad *)

(** The instances of [Exception] the code meets. [UnboundLocalError] is a
    subclass of [NameError]; [HTTPError] is what [raise_for_status] raises. *)
Inductive exn : Type :=
| TypeError
| AttributeError
| KeyError
| ValueError
| NameError
| UnboundLocalError
| HTTPError (status_code : Z)
| OverflowError
| ConnectionError
| Timeout.

(** [isinstance(e, NameError)] *)
Definition is_NameError (e : exn) : bool :=
  match e with
  | NameError | UnboundLocalError => true
  | _ => false
  end.

Inductive result (A : Type) : Type :=
| Ok (a : A)
| Raise (e : exn).
Arguments Ok {A} a.
Arguments Raise {A} e.

Definition bind {A B : Type} (c : result A) (k : A -> result B) : result B :=
  match c with
  | Ok a => k a
  | Raise e => Raise e
  end.

Notation "x <- c ;; k" := (bind c (fun x => k))
  (at level 61, c at next level, right associativity).

(** ** Values *)

(** JSON data; [requests.Response] objects reduced to the two things the
    code reads from them, [status_code] and the decoded body of [.json()];
    and [VObject] for any other object (a generator, say), of which only the
    type name is kept. *)
Inductive value : Type :=
| VNone
| VBool (b : bool)
| VInt (z : Z)
| VStr (s : string)
| VList (l : list value)
| VFloat (x : float)
| VDict (d : list (string * value))
| VResp (status_code : Z) (body : value)
| VObject (type_name : string).

(** A [dict]: keys in insertion order. *)
Definition dict : Type := list (string * value).

Fixpoint dict_get (d : dict) (k : string) : option value :=
  match d with
  | [] => None
  | (k', v) :: rest => if String.eqb k' k then Some v else dict_get rest k
  end.

Definition dict_has (d : dict) (k : string) : bool :=
  match dict_get d k with Some _ => true | None => false end.

(** [d[k] = v]: an existing key keeps its place, a new one goes last. *)
Fixpoint dict_set (d : dict) (k : string) (v : value) : dict :=
  match d with
  | [] => [(k, v)]
  | (k', v') :: rest =>
      if String.eqb k' k then (k', v) :: rest else (k', v') :: dict_set rest k v
  end.

Fixpoint dict_remove (d : dict) (k : string) : dict :=
  match d with
  | [] => []
  | (k', v') :: rest =>
      if String.eqb k' k then rest else (k', v') :: dict_remove rest k
  end.

(** [d.update(e)] *)
Definition dict_update (d e : dict) : dict :=
  fold_left (fun acc kv => dict_set acc (fst kv) (snd kv)) e d.

(** [d.pop(k, dflt)]: the value and the dictionary without the key. *)
Definition dict_pop (d : dict) (k : string) (dflt : value) : value * dict :=
  match dict_get d k with
  | Some v => (v, dict_remove d k)
  | None => (dflt, d)
  end.

Definition dict_keys (d : dict) : list string := map fst d.

(** [bool(v)]. A [requests.Response] is truthy when [ok]: its status is not
    in the 4xx or 5xx range. *)
Definition truthy (v : value) : bool :=
  match v with
  | VNone => false
  | VBool b => b
  | VInt z => negb (z =? 0)%Z
  | VStr s => negb (String.eqb s "")
  | VList l => match l with [] => false | _ :: _ => true end
  | VFloat x => negb (PrimFloat.eqb x 0%float)
  | VDict d => match d with [] => false | _ :: _ => true end
  | VResp st _ => negb ((400 <=? st)%Z && (st <? 600)%Z)
  | VObject _ => true
  end.

(** [v.get(k)]: only a [dict] has the method; a missing key gives [None]. *)
Definition py_get (v : value) (k : string) : result value :=
  match v with
  | VDict d => Ok (match dict_get d k with Some x => x | None => VNone end)
  | _ => Raise AttributeError
  end.

(** [v.get(k, dflt)] *)
Definition py_get_default (v : value) (k : string) (dflt : value) : result value :=
  match v with
  | VDict d => Ok (match dict_get d k with Some x => x | None => dflt end)
  | _ => Raise AttributeError
  end.

(** [resp.json()] *)
Definition json (resp : value) : result value :=
  match resp with
  | VResp _ body => Ok body
  | _ => Raise AttributeError
  end.

(** ** nationbuilder_api/helpers.py: resource filters *)

(** A filter is an attribute name or a list of entries; an entry is an
    attribute name or a pair [(name, sub_filter)]. *)
Inductive rfilter : Type :=
| FAttr (name : string)
| FList (entries : list fentry)
with fentry : Type :=
| EAttr (name : string)
| ENested (name : string) (sub : rfilter).

(** The [for attr in filter] loop of [handle_filter], [filtered] being the
    dictionary built so far.

    The branch of a pair is
    [handle_filter(attr[1])(resource[attr[0]])]: its callee expression
    [handle_filter(attr[1])] is evaluated first and calls the two-parameter
    function [handle_filter(resource, filter)] with one positional argument,
    which raises [TypeError] before [resource[attr[0]]] is looked at. *)
Fixpoint handle_filter_loop (resource : value) (entries : list fentry)
    (filtered : dict) : result dict :=
  match entries with
  | [] => Ok filtered
  | EAttr attr :: rest =>
      v <- py_get resource attr ;;
      handle_filter_loop resource rest (dict_set filtered attr v)
  | ENested _ _ :: _ => Raise TypeError
  end.

Definition handle_filter (resource : value) (entries : list fentry) : result value :=
  filtered <- handle_filter_loop resource entries [] ;;
  Ok (VDict filtered).

Definition filter_resource (resource : value) (filter : rfilter) : result value :=
  match filter with
  | FAttr name => py_get resource name
  | FList entries => handle_filter resource entries
  end.

(** [bool(filter)]: a non-empty name or a non-empty list. *)
Definition filter_truthy (filter : rfilter) : bool :=
  match filter with
  | FAttr name => negb (String.eqb name "")
  | FList entries => match entries with [] => false | _ :: _ => true end
  end.

(** Every attribute the filter names is present on the resource, at every
    depth. *)
Fixpoint names_present (resource : value) (filter : rfilter) {struct filter} : bool :=
  match filter with
  | FAttr name =>
      match resource with VDict d => dict_has d name | _ => false end
  | FList entries =>
      (fix all_present (es : list fentry) : bool :=
         match es with
         | [] => true
         | e :: es' => entry_present resource e && all_present es'
         end) entries
  end
with entry_present (resource : value) (e : fentry) {struct e} : bool :=
  match e with
  | EAttr name =>
      match resource with VDict d => dict_has d name | _ => false end
  | ENested name sub =>
      match resource with
      | VDict d =>
          match dict_get d name with
          | Some r => names_present r sub
          | None => false
          end
      | _ => false
      end
  end.

Definition is_attr (e : fentry) : bool :=
  match e with EAttr _ => true | ENested _ _ => false end.

(** The filter is a list of plain attribute names. *)
Definition is_flat_list (filter : rfilter) : bool :=
  match filter with
  | FAttr _ => false
  | FList entries => forallb is_attr entries
  end.

Definition entry_name (e : fentry) : string :=
  match e with EAttr n => n | ENested n _ => n end.

(** ** Logging *)

Inductive log_level : Type := DEBUG | INFO | WARNING | ERROR | CRITICAL.

(** [logger.error(msg)] writes an [ERROR] record; [logger.exception(msg)]
    writes an [ERROR] record that carries the exception being handled. *)
Record log_record : Type := mk_log_record {
  level : log_level;
  message : string;
  exc_info : option exn
}.

Definition logger_error (msg : string) : log_record :=
  {| level := ERROR; message := msg; exc_info := None |}.

Definition logger_exception (msg : string) (e : exn) : log_record :=
  {| level := ERROR; message := msg; exc_info := Some e |}.

(** ** endpoints/decorators.py: handle_pagination *)

Definition MAX_RESPS_NAME : string := "max_resps".
Definition RESP_PROC_NAME : string := "resp_proc".
Definition RESOURCE_NAME : string := "resource_name".
Definition RESP_PROC_ARGS : list string := [RESOURCE_NAME].

(** What a run of the decorated method touches: the keyword arguments of
    every call of the wrapped method, earliest first, and the session's log. *)
Record pworld : Type := mk_pworld {
  requests : list dict;
  log : list log_record
}.

Definition pworld0 : pworld := {| requests := []; log := [] |}.

(** The wrapped single-page method: what its [i]-th call (from 0) does when
    given the keyword arguments [kwargs]. *)
Definition page_method : Type := nat -> dict -> result value.

(** [f(self, *args, **kwargs)] *)
Definition call_f (f : page_method) (kwargs : dict) (w : pworld) : result value * pworld :=
  (f (List.length (requests w)) kwargs,
   {| requests := requests w ++ [kwargs]; log := log w |}).

(** [parse_qs(urlparse(next_page).query)]: [parse_next] stands for the two
    urllib functions on a string, which raise [ValueError] on a link they
    cannot read (an unbalanced bracket in the host, say); on a truthy
    object that is not a string [urlparse] fails on the [decode] attribute
    it looks for. *)
Definition next_cursor (parse_next : string -> result dict) (next_page : value)
    : result dict :=
  match next_page with
  | VStr url => parse_next url
  | _ => Raise AttributeError
  end.

(** [n == x] for an integer [n] and a float [x]: Python compares the two
    exactly, so [x] must be the integer itself; [nan] and the infinities
    equal no integer. *)
Definition int_eq_float (n : Z) (x : float) : bool :=
  match Prim2SF x with
  | S754_zero _ => (n =? 0)%Z
  | S754_finite s m e =>
      let v := if s then Z.neg m else Z.pos m in
      if (0 <=? e)%Z then (n =? v * 2 ^ e)%Z else (n * 2 ^ (- e) =? v)%Z
  | S754_infinity _ | S754_nan => false
  end.

(** [len(resps) != max_resps], [bool] being a subclass of [int]; a length
    differs from anything that is no number. *)
Definition len_differs (resps : list value) (max_resps : value) : bool :=
  match max_resps with
  | VInt m => negb (Z.of_nat (List.length resps) =? m)%Z
  | VBool b => negb (Z.of_nat (List.length resps) =? (if b then 1 else 0))%Z
  | VFloat x => negb (int_eq_float (Z.of_nat (List.length resps)) x)
  | _ => true
  end.

(** [resp.json().get("next")] *)
Definition next_link (resp : value) : result value :=
  body <- json resp ;;
  py_get body "next".

(** How one resumption of a generator ends. [Returned v] is [StopIteration]
    with [v] the value of the [return] statement ([None] when the body falls
    off its end); [Diverges] is the loop still running when the fuel is
    spent. *)
Inductive gen_step : Type :=
| Yielded (v : value)
| Returned (v : value)
| Raised (e : exn)
| Diverges.

Definition PARTIAL_LIST : string :=
  "An error occured - a partial list of responses may be returned.".

(** The [except Exception] clause when not streaming: with pages collected
    the exception is logged and the body goes on to [return resps],
    otherwise it is raised again. *)
Definition on_exception (e : exn) (resps : list value) (w : pworld) : gen_step * pworld :=
  match resps with
  | [] => (Raised e, w)
  | _ :: _ =>
      (Returned (VList resps),
       {| requests := requests w;
          log := log w ++ [logger_exception PARTIAL_LIST e] |})
  end.

(** The [while] loop when [yield_resps] is falsy, from the test of its
    condition on. *)
Fixpoint collect (parse_next : string -> result dict) (f : page_method) (fuel : nat)
    (max_resps : value) (kwargs : dict) (resps : list value) (w : pworld)
    : gen_step * pworld :=
  match fuel with
  | O => (Diverges, w)
  | S fuel' =>
      if len_differs resps max_resps then
        let (r, w1) := call_f f kwargs w in
        match r with
        | Raise e => on_exception e resps w1
        | Ok resp =>
            let resps' := resps ++ [resp] in
            match next_link resp with
            | Raise e => on_exception e resps' w1
            | Ok next_page =>
                if truthy next_page then
                  match next_cursor parse_next next_page with
                  | Raise e => on_exception e resps' w1
                  | Ok q => collect parse_next f fuel' max_resps (dict_update kwargs q) resps' w1
                  end
                else (Returned (VList resps'), w1)
            end
        end
      else (Returned (VList resps), w)
  end.

(** A generator made by [dec_f]: not started, suspended at [yield resp]
    (line 43, reached only when streaming) or finished. *)
Inductive gen_state : Type :=
| GenCreated (kwargs : dict)
| GenSuspended (kwargs : dict) (resp : value)
| GenClosed.

(** The head of the loop when streaming: the condition is true, the page is
    fetched and yielded; an exception leaves through the [else: raise] of
    the handler. *)
Definition stream_fetch (f : page_method) (kwargs : dict) (w : pworld)
    : gen_step * gen_state * pworld :=
  let (r, w1) := call_f f kwargs w in
  match r with
  | Raise e => (Raised e, GenClosed, w1)
  | Ok resp => (Yielded resp, GenSuspended kwargs resp, w1)
  end.

(** [next(gen)] *)
Definition gen_next (parse_next : string -> result dict) (f : page_method) (fuel : nat)
    (g : gen_state) (w : pworld) : gen_step * gen_state * pworld :=
  match g with
  | GenCreated kwargs0 =>
      let (yield_resps, kwargs) := dict_pop kwargs0 "yield_resps" (VBool false) in
      if truthy yield_resps then stream_fetch f kwargs w
      else
        let (max_resps, kwargs') := dict_pop kwargs MAX_RESPS_NAME (VInt (-1)) in
        let (s, w') := collect parse_next f fuel max_resps kwargs' [] w in
        (s, GenClosed, w')
  | GenSuspended kwargs resp =>
      match next_link resp with
      | Raise e => (Raised e, GenClosed, w)
      | Ok next_page =>
          if truthy next_page then
            match next_cursor parse_next next_page with
            | Raise e => (Raised e, GenClosed, w)
            | Ok q => stream_fetch f (dict_update kwargs q) w
            end
          else (Returned VNone, GenClosed, w)
      end
  | GenClosed => (Returned VNone, GenClosed, w)
  end.

(** Iterating the generator to its end, as [list(gen)] or a [for] loop does:
    the values yielded so far, how it ended, and the world. *)
Fixpoint drain (parse_next : string -> result dict) (f : page_method) (fuel : nat)
    (g : gen_state) (w : pworld) (yielded : list value)
    : list value * gen_step * pworld :=
  match fuel with
  | O => (yielded, Diverges, w)
  | S fuel' =>
      match gen_next parse_next f fuel g w with
      | (Yielded v, g', w') => drain parse_next f fuel' g' w' (yielded ++ [v])
      | (s, _, w') => (yielded, s, w')
      end
  end.

(** What a call hands to its caller. *)
Inductive pyobj : Type :=
| ObjValue (v : value)
| ObjGenerator (g : gen_state).

(** A call [dec_f(self, *args, **kwargs)] of the method that
    [handle_pagination] returns. The body of [dec_f] contains [yield resp],
    so [dec_f] is a generator function: a call runs none of the body and
    returns a generator, whatever [yield_resps] is. *)
Definition handle_pagination (kwargs : dict) : pyobj :=
  ObjGenerator (GenCreated kwargs).

(** [isinstance(o, list)], with the elements. *)
Definition as_list (o : pyobj) : option (list value) :=
  match o with
  | ObjValue (VList l) => Some l
  | _ => None
  end.

(** The object as the next decorator sees it. *)
Definition obj_value (o : pyobj) : value :=
  match o with
  | ObjValue v => v
  | ObjGenerator _ => VObject "generator"
  end.

(** A page: a successful response whose body holds [results] and, when
    [next] is given, the [next] link. *)
Definition page (results : value) (next : option string) : value :=
  VResp 200
    (VDict (("results", results) ::
            match next with Some url => [("next", VStr url)] | None => [] end)).

Definition has_next_link (resp : value) : bool :=
  match next_link resp with
  | Ok (VStr url) => negb (String.eqb url "")
  | _ => false
  end.

Definition no_next_link (resp : value) : bool :=
  match next_link resp with
  | Ok v => negb (truthy v)
  | Raise _ => false
  end.

(** ** endpoints/helpers.py and endpoints/decorators.py: response processing *)

(** A response processor, as far as the chain inspects it: the parameters
    after the first that the underlying function takes
    ([__code__.co_varnames[1:co_argcount]], read through [.func] for a
    [functools.partial]), the keywords bound when it is a partial
    ([None] for a plain function, which has no [keywords] attribute), and
    the underlying function, called with keyword arguments and the response. *)
Record processor : Type := mk_processor {
  proc_params : list string;
  proc_keywords : option dict;
  proc_body : dict -> value -> result value
}.

Definition bound_keywords (p : processor) : dict :=
  match proc_keywords p with Some kw => kw | None => [] end.

(** [functools.partial(p, **kw)]: a partial of a partial is flattened, the
    new keywords overriding the bound ones. *)
Definition partial (p : processor) (kw : dict) : processor :=
  {| proc_params := proc_params p;
     proc_keywords := Some (dict_update (bound_keywords p) kw);
     proc_body := proc_body p |}.

(** [p(resp)] *)
Definition call_proc (p : processor) (resp : value) : result value :=
  proc_body p (bound_keywords p) resp.

Definition mem_string (k : string) (l : list string) : bool :=
  existsb (String.eqb k) l.

(** [{arg: args[arg] for arg in keys}] *)
Definition dict_restrict (args : dict) (keys : list string) : dict :=
  fold_left
    (fun acc arg =>
       dict_set acc arg (match dict_get args arg with Some v => v | None => VNone end))
    keys [].

(** What the name [resp_proc_arg_keys] is bound to: the [dict_keys] view
    that [resp_proc_args.keys()] gives, or a [set]. A view has no in-place
    difference, so [keys -= other] of line 24 rebinds the name to the set
    [keys - other]. *)
Inductive arg_keys : Type :=
| KeysView (keys : list string)
| KeysSet (keys : list string).

(** [keys & names], [names] being a tuple (lines 31 to 34): a view
    intersects with any iterable, a [set] only with a set, so that the
    intersection of a set with the tuple of parameter names raises
    [TypeError]. *)
Definition keys_and (keys : arg_keys) (names : list string) : result (list string) :=
  match keys with
  | KeysView ks => Ok (filter (fun k => mem_string k names) ks)
  | KeysSet _ => Raise TypeError
  end.

(** [handle_resp_proc_args(resp_proc, resp_proc_args)]. Only a
    [functools.partial] has the attribute [keywords]: for a partial and a
    non-empty [resp_proc_args] the keys become a set and the intersection
    raises. *)
Definition handle_resp_proc_args (resp_proc : processor) (resp_proc_args : dict)
    : result processor :=
  match resp_proc_args with
  | [] => Ok resp_proc
  | _ :: _ =>
      let resp_proc_arg_keys := KeysView (dict_keys resp_proc_args) in
      let resp_proc_arg_keys :=
        match proc_keywords resp_proc with
        | Some kw =>
            KeysSet (filter (fun k => negb (dict_has kw k)) (dict_keys resp_proc_args))
        | None => resp_proc_arg_keys
        end in
      args_to_freeze <- keys_and resp_proc_arg_keys (proc_params resp_proc) ;;
      Ok (partial resp_proc (dict_restrict resp_proc_args args_to_freeze))
  end.

(** [handle_resp_proc_args_partial(rp)(resp)] *)
Definition apply_proc (rp : processor) (resp_proc_args : dict) (resp : value)
    : result value :=
  p <- handle_resp_proc_args rp resp_proc_args ;;
  call_proc p resp.

(** The [resp_proc] argument: a falsy object, one callable, or a list of
    callables. *)
Inductive resp_proc_t : Type :=
| RPNone
| RPOne (p : processor)
| RPMany (ps : list processor).

Definition rp_truthy (rp : resp_proc_t) : bool :=
  match rp with
  | RPNone => false
  | RPOne _ => true
  | RPMany ps => match ps with [] => false | _ :: _ => true end
  end.

(** [proc_resp(resp, resp_proc, resp_proc_args)] *)
Definition proc_resp (resp : value) (resp_proc : resp_proc_t) (resp_proc_args : dict)
    : result value :=
  match resp_proc with
  | RPOne p => apply_proc p resp_proc_args resp
  | RPMany ps =>
      fold_left (fun acc rp => r <- acc ;; apply_proc rp resp_proc_args r) ps (Ok resp)
  | RPNone => Raise TypeError
  end.

(** [getattr(f, arg, getattr(self, arg))]: the default, an argument of the
    outer call, is evaluated first, so an endpoint without the attribute
    raises [AttributeError] whatever the method has. *)
Definition resolve_attr (f_attrs self_attrs : dict) (arg : string) : result value :=
  match dict_get self_attrs arg with
  | None => Raise AttributeError
  | Some dflt => Ok (match dict_get f_attrs arg with Some v => v | None => dflt end)
  end.

(** The loop [for arg in RESP_PROC_ARGS - resp_proc_args.keys()], which
    writes into [resp_proc_args] itself. *)
Definition resolve_missing (f_attrs self_attrs : dict) (resp_proc_args : dict) : dict :=
  fold_left
    (fun args arg =>
       match resolve_attr f_attrs self_attrs arg with
       | Ok v => dict_set args arg v
       | Raise _ => args
       end)
    (filter (fun arg => negb (dict_has resp_proc_args arg)) RESP_PROC_ARGS)
    resp_proc_args.

(** Iterating an object, as [resps += obj] does. A [requests.Response]
    iterates over chunks of its content and a generator over what it yields:
    [iter_object] stands for both. *)
Definition py_iter (iter_object : value -> result (list value)) (v : value)
    : result (list value) :=
  match v with
  | VList l => Ok l
  | VDict d => Ok (map (fun k => VStr k) (dict_keys d))
  | VStr s => Ok (map (fun c => VStr (String c EmptyString)) (list_ascii_of_string s))
  | VResp _ _ | VObject _ => iter_object v
  | VNone | VBool _ | VInt _ | VFloat _ => Raise TypeError
  end.

(** What the decorator of one method owns for all its invocations: the
    [resp_proc_args] dictionary made when the method is decorated, and the
    session's log. *)
Record rstate : Type := mk_rstate {
  resp_proc_args : dict;
  rlog : list log_record
}.

(** The message of lines 109 to 112: the literal runs over a backslash
    at the end of its first line, so the indentation of the second line, 24
    spaces, is part of it. *)
Definition NOT_ALL_SUCCESSFUL : string :=
  ("Not all requests were successful - unprocessed "
   ++ "                        "
   ++ "response(s) will be returned.")%string.

(** [dec_f(self, *args, **kwargs)] of [handle_resp_proc]. [resp_proc_kw] is
    the [resp_proc] keyword argument when the caller gave one, [kwargs] the
    other keyword arguments, [f] the wrapped method with its attributes
    [f_attrs], [self_attrs] the attributes of the endpoint object. *)
Definition handle_resp_proc (iter_object : value -> result (list value))
    (resp_proc_dflt : resp_proc_t) (f_attrs : dict) (f : dict -> result value)
    (self_attrs : dict) (resp_proc_kw : option resp_proc_t) (kwargs : dict)
    (st : rstate) : result value * rstate :=
  let resp_proc :=
    match resp_proc_kw with Some rp => rp | None => resp_proc_dflt end in
  match f kwargs with
  | Raise e => (Raise e, st)
  | Ok res =>
      if rp_truthy resp_proc && truthy res then
        let args := resolve_missing f_attrs self_attrs (resp_proc_args st) in
        let st1 := {| resp_proc_args := args; rlog := rlog st |} in
        match res with
        | VList items =>
            if forallb truthy items then
              (resps <- fold_left
                          (fun acc resp =>
                             resps <- acc ;;
                             r <- proc_resp resp resp_proc args ;;
                             more <- py_iter iter_object r ;;
                             Ok (resps ++ more))
                          items (Ok []) ;;
               Ok (VList resps),
               st1)
            else
              (Ok res,
               {| resp_proc_args := args;
                  rlog := rlog st ++ [logger_error NOT_ALL_SUCCESSFUL] |})
        | _ => (proc_resp res resp_proc args, st1)
        end
      else (Ok res, st)
  end.

(** The keyword argument [param] that the underlying function of [proc]
    receives in an invocation that finds [args] in [resp_proc_args];
    [None] when it receives none and falls back on its own default. *)
Definition resolved (proc : processor) (args f_attrs self_attrs : dict) (param : string)
    : result (option value) :=
  p <- handle_resp_proc_args proc (resolve_missing f_attrs self_attrs args) ;;
  Ok (dict_get (bound_keywords p) param).

(** The precedence in the words of the specification: the first present of
    the per-call value, the bound value, the method attribute and the
    endpoint attribute. *)
Definition spec_precedence (per_call bound meth endp : option value) : option value :=
  match per_call, bound, meth, endp with
  | Some v, _, _, _ => Some v
  | None, Some v, _, _ => Some v
  | None, None, Some v, _ => Some v
  | None, None, None, o => o
  end.

(** The precedence of the code for a processor that is a plain function,
    source by source. *)
Definition code_precedence (args f_attrs self_attrs : dict) (param : string)
    : option value :=
  match dict_get args param with
  | Some v => Some v
  | None =>
      if mem_string param RESP_PROC_ARGS then
        match dict_get f_attrs param with
        | Some v => Some v
        | None => dict_get self_attrs param
        end
      else None
  end.

(** ** resp_procs.py *)

(** The inner [f(resp, resource_name=None)] of [payload_filter(filter)].
    In [payload.get(resource_name, payload)] a key that is not a string
    matches no key of a decoded JSON object, and an unhashable one is a
    [TypeError]. *)
Definition payload_filter_body (filter : option rfilter) (kw : dict) (resp : value)
    : result value :=
  payload <- json resp ;;
  resource <-
    match dict_get kw RESOURCE_NAME with
    | Some (VStr name) => py_get_default payload name payload
    | Some (VList _) | Some (VDict _) =>
        match payload with VDict _ => Raise TypeError | _ => Raise AttributeError end
    | _ =>
        match payload with VDict _ => Ok payload | _ => Raise AttributeError end
    end ;;
  match filter with
  | Some flt =>
      if truthy resource && filter_truthy flt then
        match resource with
        | VList rsrcs =>
            filtered <- fold_left
                          (fun acc rsrc =>
                             l <- acc ;;
                             x <- filter_resource rsrc flt ;;
                             Ok (l ++ [x]))
                          rsrcs (Ok []) ;;
            Ok (VList filtered)
        | _ => filter_resource resource flt
        end
      else Ok resource
  | None => Ok resource
  end.

(** [payload_filter(filter, resource_name)] *)
Definition payload_filter (filter : option rfilter) (resource_name : option string)
    : processor :=
  {| proc_params := [RESOURCE_NAME];
     proc_keywords :=
       match resource_name with
       | Some name =>
           if String.eqb name "" then None else Some [(RESOURCE_NAME, VStr name)]
       | None => None
       end;
     proc_body := payload_filter_body filter |}.

(** [resp_bool]: [bool(resp) or resp] *)
Definition resp_bool : processor :=
  {| proc_params := [];
     proc_keywords := None;
     proc_body := fun _ resp => Ok (if truthy resp then VBool true else resp) |}.

(** ** platforms/shopify/tasks.py: create_discount *)

(** The calls that leave the process, in the order of the source, and the
    evaluation of the price rule's attributes ([BuildRule]: the title, the
    environment look-ups and the value). *)
Inductive step : Type :=
| GetPerson
| ClearPending
| BuildRule
| CreateRule
| AddDiscountCode
| AddCapital
| DestroyRule
| RestorePending.

Record price_rule : Type := mk_price_rule {
  rule_id : nat;
  rule_title : string;
  rule_value : float
}.

(** The two services, as far as the task reads and writes them. *)
Record world : Type := mk_world {
  nb_person : dict;
  nb_capitals : list Z;
  shop_rules : list price_rule;
  shop_codes : list (nat * string);
  next_rule_id : nat
}.

(** What the task takes from outside the repository: the environment
    variable, Python's number conversions ([float] and [/] of an integer
    raise [OverflowError] beyond the range of a float), the random title,
    the rounding of the amounts, and which of the calls fail
    ([faults s = Some e]: the step [s] raises [e] and has no effect; an
    amount that cannot be rounded is the fault of the step that rounds
    it). *)
Record environment : Type := mk_environment {
  SHOP_PENDING_FIELD : string;
  parse_float : string -> option float;
  float_of_int : Z -> result float;
  parse_int : string -> option Z;
  int_of_float : float -> result Z;
  int_truediv : Z -> Z -> result float;
  new_title : string;
  discount_value : float -> float;
  round_cents : float -> Z;
  faults : step -> option exn
}.

(** [float(v)] *)
Definition py_float (env : environment) (v : value) : result float :=
  match v with
  | VFloat x => Ok x
  | VInt z => float_of_int env z
  | VBool b => Ok (if b then 1%float else 0%float)
  | VStr s =>
      match parse_float env s with Some x => Ok x | None => Raise ValueError end
  | _ => Raise TypeError
  end.

(** [int(v)] *)
Definition py_int (env : environment) (v : value) : result Z :=
  match v with
  | VInt z => Ok z
  | VBool b => Ok (if b then 1%Z else 0%Z)
  | VFloat x => int_of_float env x
  | VStr s =>
      match parse_int env s with Some z => Ok z | None => Raise ValueError end
  | _ => Raise TypeError
  end.

(** [v[k]] for a string [k] *)
Definition py_getitem (v : value) (k : string) : result value :=
  match v with
  | VDict d => match dict_get d k with Some x => Ok x | None => Raise KeyError end
  | _ => Raise TypeError
  end.

Definition set_pending (env : environment) (v : value) (w : world) : world :=
  {| nb_person := dict_set (nb_person w) (SHOP_PENDING_FIELD env) v;
     nb_capitals := nb_capitals w;
     shop_rules := shop_rules w;
     shop_codes := shop_codes w;
     next_rule_id := next_rule_id w |}.

(** [nb.people.update({SHOP_PENDING_FIELD: v}, person_id)] *)
Definition update_pending (env : environment) (s : step) (v : value) (w : world)
    : result unit * world :=
  match faults env s with
  | Some e => (Raise e, w)
  | None => (Ok tt, set_pending env v w)
  end.

(** [shopify.PriceRule.create({...})] *)
Definition create_rule (env : environment) (redemption : float) (w : world)
    : result price_rule * world :=
  match faults env BuildRule with
  | Some e => (Raise e, w)
  | None =>
      match faults env CreateRule with
      | Some e => (Raise e, w)
      | None =>
          let rule := {| rule_id := next_rule_id w;
                         rule_title := new_title env;
                         rule_value := discount_value env redemption |} in
          (Ok rule,
           {| nb_person := nb_person w;
              nb_capitals := nb_capitals w;
              shop_rules := shop_rules w ++ [rule];
              shop_codes := shop_codes w;
              next_rule_id := S (next_rule_id w) |})
      end
  end.

(** [price_rule.add_discount_code(shopify.DiscountCode({"code": price_rule.title}))] *)
Definition add_discount_code (env : environment) (rule : price_rule) (w : world)
    : result unit * world :=
  match faults env AddDiscountCode with
  | Some e => (Raise e, w)
  | None =>
      (Ok tt,
       {| nb_person := nb_person w;
          nb_capitals := nb_capitals w;
          shop_rules := shop_rules w;
          shop_codes := shop_codes w ++ [(rule_id rule, rule_title rule)];
          next_rule_id := next_rule_id w |})
  end.

(** [nb.people.add_capital(person_id, {"amount_in_cents": -round(redemption * 100), ...})] *)
Definition add_capital (env : environment) (redemption : float) (w : world)
    : result unit * world :=
  match faults env AddCapital with
  | Some e => (Raise e, w)
  | None =>
      (Ok tt,
       {| nb_person := nb_person w;
          nb_capitals := nb_capitals w ++ [(- round_cents env redemption)%Z];
          shop_rules := shop_rules w;
          shop_codes := shop_codes w;
          next_rule_id := next_rule_id w |})
  end.

(** [price_rule.destroy()]: the rule goes, and its codes with it. *)
Definition destroy_rule (env : environment) (rule : price_rule) (w : world)
    : result unit * world :=
  match faults env DestroyRule with
  | Some e => (Raise e, w)
  | None =>
      (Ok tt,
       {| nb_person := nb_person w;
          nb_capitals := nb_capitals w;
          shop_rules := filter (fun r => negb (rule_id r =? rule_id rule)%nat) (shop_rules w);
          shop_codes := filter (fun c => negb (fst c =? rule_id rule)%nat) (shop_codes w);
          next_rule_id := next_rule_id w |})
  end.

(** The body of the [try]: besides the outcome, the local [price_rule] when
    the assignment of line 35 was reached. *)
Definition exchange (env : environment) (redemption : float) (w : world)
    : result unit * option price_rule * world :=
  match create_rule env redemption w with
  | (Raise e, w1) => (Raise e, None, w1)
  | (Ok rule, w1) =>
      match add_discount_code env rule w1 with
      | (Raise e, w2) => (Raise e, Some rule, w2)
      | (Ok _, w2) =>
          match add_capital env redemption w2 with
          | (Raise e, w3) => (Raise e, Some rule, w3)
          | (Ok _, w3) => (Ok tt, Some rule, w3)
          end
      end
  end.

(** The [except Exception] clause for the exception [e]: the inner [try]
    destroys the rule ([UnboundLocalError], a [NameError], when the local is
    not bound), [finally] writes the pending field back, and the bare
    [raise] raises [e] again unless one of the two raised something that is
    still propagating. *)
Definition rollback (env : environment) (e : exn) (redemption : float)
    (bound : option price_rule) (w : world) : result unit * world :=
  let (destroyed, w1) :=
    match bound with
    | Some rule => destroy_rule env rule w
    | None => (Raise UnboundLocalError, w)
    end in
  let (restored, w2) := update_pending env RestorePending (VFloat redemption) w1 in
  match restored with
  | Raise e' => (Raise e', w2)
  | Ok _ =>
      match destroyed with
      | Ok _ => (Raise e, w2)
      | Raise e' => if is_NameError e' then (Raise e, w2) else (Raise e', w2)
      end
  end.

(** [0 < redemption <= capital] *)
Definition redemption_guard (redemption capital : float) : bool :=
  PrimFloat.ltb 0%float redemption && PrimFloat.leb redemption capital.

Definition CAPITAL_FIELD : string := "capital_amount_in_cents".

(** [nb.people.get(person_id, resp_proc=payload_filter([...]))]: the
    response carries the person under [person], the endpoint's
    [resource_name]. *)
Definition get_person (env : environment) (w : world) : result value :=
  match faults env GetPerson with
  | Some e => Raise e
  | None =>
      proc_resp
        (VResp 200 (VDict [("person", VDict (nb_person w))]))
        (RPOne (payload_filter
                  (Some (FList [EAttr CAPITAL_FIELD; EAttr (SHOP_PENDING_FIELD env)]))
                  None))
        [(RESOURCE_NAME, VStr "person")]
  end.

(** The amounts of lines 30 and 31. *)
Definition amounts (env : environment) (person : value) : result (float * float) :=
  pending <- py_getitem person (SHOP_PENDING_FIELD env) ;;
  redemption <- py_float env pending ;;
  cents <- py_getitem person CAPITAL_FIELD ;;
  n <- py_int env cents ;;
  capital <- int_truediv env n 100 ;;
  Ok (redemption, capital).

(** [create_discount(person_id)] *)
Definition create_discount (env : environment) (w : world) : result unit * world :=
  match get_person env w with
  | Raise e => (Raise e, w)
  | Ok person =>
      match update_pending env ClearPending VNone w with
      | (Raise e, w1) => (Raise e, w1)
      | (Ok _, w1) =>
          match amounts env person with
          | Raise e => (Raise e, w1)
          | Ok (redemption, capital) =>
              if redemption_guard redemption capital then
                match exchange env redemption w1 with
                | (Ok _, _, w2) => (Ok tt, w2)
                | (Raise e, bound, w2) => rollback env e redemption bound w2
                end
              else (Ok tt, w1)
          end
      end
  end.

(** ** Vocabulary of the statements, and examples *)

(** [resource.get(attr)] on a dictionary. *)
Definition getv (d : dict) (k : string) : value :=
  match dict_get d k with Some x => x | None => VNone end.

Definition keep (d : dict) (filtered : dict) (e : fentry) : dict :=
  dict_set filtered (entry_name e) (getv d (entry_name e)).

(** The wrapped method answers its calls from the [i0]-th on with the pages
    [ps], whatever the keyword arguments. *)
Definition serves (f : page_method) (i0 : nat) (ps : list value) : Prop :=
  forall k kw resp, nth_error ps k = Some resp -> f (i0 + k) kw = Ok resp.

(** The link of a page, when it has one. *)
Definition next_url (resp : value) : string :=
  match next_link resp with
  | Ok (VStr url) => url
  | _ => ""
  end.

(** The page carries a [next] link that [urlparse] and [parse_qs] read:
    the loop goes on to another page, with the query [cursor_of]. *)
Definition has_cursor (parse_next : string -> result dict) (resp : value) : bool :=
  has_next_link resp &&
  match parse_next (next_url resp) with Ok _ => true | Raise _ => false end.

Definition cursor_of (parse_next : string -> result dict) (resp : value) : dict :=
  match parse_next (next_url resp) with Ok q => q | Raise _ => [] end.

(** Looking at the page for its cursor raises [e]: the body is no JSON
    object, the link is a truthy object that is no string, or it is a
    string that [urlparse] rejects. *)
Definition cursor_fails (parse_next : string -> result dict) (resp : value) (e : exn)
    : Prop :=
  next_link resp = Raise e \/
  exists v, next_link resp = Ok v /\ truthy v = true /\
            next_cursor parse_next v = Raise e.

(** Every page but the last carries a [next] link that can be read, the
    last carries none. *)
Fixpoint linked (parse_next : string -> result dict) (ps : list value) : bool :=
  match ps with
  | [] => false
  | p :: rest =>
      match rest with
      | [] => no_next_link p
      | _ :: _ => has_cursor parse_next p && linked parse_next rest
      end
  end.


(** Whether the call streams, and the [max_resps] it collects up to. *)
Definition streaming (kwargs : dict) : bool :=
  truthy (fst (dict_pop kwargs "yield_resps" (VBool false))).

Definition max_resps_of (kwargs : dict) : value :=
  fst (dict_pop (snd (dict_pop kwargs "yield_resps" (VBool false)))
         MAX_RESPS_NAME (VInt (-1))).

(** The keyword arguments of the page requests: the caller's without
    [yield_resps]. *)
Definition request_kwargs (kwargs : dict) : dict :=
  snd (dict_pop kwargs "yield_resps" (VBool false)).

(** Example pages and wrapped methods. [example_parse_next] reads the
    links of the examples as [parse_qs(urlparse(url).query)] does, rejects
    a link with an unbalanced bracket in the host, and takes any other link
    for one without a query. *)
Definition example_parse_next (url : string) : result dict :=
  if String.eqb url "https://slug.nationbuilder.com/api/v1/people?__token=a"
  then Ok [("__token", VList [VStr "a"])]
  else if String.eqb url "https://slug.nationbuilder.com/api/v1/people?__token=b"
  then Ok [("__token", VList [VStr "b"])]
  else if String.eqb url "https://slug.nationbuilder.com/api/v1/people?__token=t"
  then Ok [("__token", VList [VStr "t"])]
  else if String.eqb url "https://[slug.nationbuilder.com/api/v1/people?__token=b"
  then Raise ValueError
  else Ok [].

Definition page1 : value :=
  page (VList [VDict [("id", VInt 1)]])
    (Some "https://slug.nationbuilder.com/api/v1/people?__token=a").
Definition page2 : value :=
  page (VList [VDict [("id", VInt 2)]])
    (Some "https://slug.nationbuilder.com/api/v1/people?__token=b").
Definition page3 : value := page (VList [VDict [("id", VInt 3)]]) None.

Definition three_pages : page_method :=
  fun i _ =>
    match i with
    | 0 => Ok page1
    | 1 => Ok page2
    | 2 => Ok page3
    | _ => Raise ConnectionError
    end.

Definition fails_on_third : page_method :=
  fun i _ =>
    match i with
    | 0 => Ok page1
    | 1 => Ok page2
    | _ => Raise (HTTPError 500)
    end.






(** A processor with a parameter of its own choosing:
    [def has_key(resp, key=None): return key in resp.json()]. *)
Definition has_key : processor :=
  {| proc_params := ["key"];
     proc_keywords := None;
     proc_body := fun kw resp =>
       payload <- json resp ;;
       match payload, dict_get kw "key" with
       | VDict d, Some (VStr k) => Ok (VBool (dict_has d k))
       | VDict _, _ => Ok (VBool false)
       | _, _ => Raise TypeError
       end |}.

Definition person_response : value :=
  VResp 200 (VDict [("person", VDict [("id", VInt 1); ("first_name", VStr "A")])]).

Definition no_iter (v : value) : result (list value) := Raise TypeError.

Definition rstate0 : rstate := {| resp_proc_args := []; rlog := [] |}.

Definition failed_batch : list value :=
  [VResp 201 (VDict [("id", VInt 1)]); VResp 422 (VDict [("code", VStr "invalid")])].

(** One invocation of a decorated method: the attributes of the wrapped
    method and what it does at that moment, the endpoint object it is
    invoked on, and the arguments. *)
Record invocation : Type := mk_invocation {
  inv_f_attrs : dict;
  inv_f : dict -> result value;
  inv_self : dict;
  inv_resp_proc : option resp_proc_t;
  inv_kwargs : dict
}.

Definition invoke (iter_object : value -> result (list value))
    (resp_proc_dflt : resp_proc_t) (i : invocation) (st : rstate)
    : result value * rstate :=
  handle_resp_proc iter_object resp_proc_dflt (inv_f_attrs i) (inv_f i) (inv_self i)
    (inv_resp_proc i) (inv_kwargs i) st.

(** Invocations one after the other, on the state the decorator owns. *)
Definition invoke_all (iter_object : value -> result (list value))
    (resp_proc_dflt : resp_proc_t) (invs : list invocation) (st : rstate) : rstate :=
  fold_left (fun st i => snd (invoke iter_object resp_proc_dflt i st)) invs st.

(** The invocation reaches the processing branch. *)
Definition processed (resp_proc_dflt : resp_proc_t) (i : invocation) : bool :=
  match inv_f i (inv_kwargs i) with
  | Ok res =>
      rp_truthy (match inv_resp_proc i with Some rp => rp | None => resp_proc_dflt end)
      && truthy res
  | Raise _ => false
  end.

Definition people_get (body : value) (self_attrs : dict) : invocation :=
  {| inv_f_attrs := [];
     inv_f := fun _ => Ok (VResp 200 body);
     inv_self := self_attrs;
     inv_resp_proc := None;
     inv_kwargs := [] |}.

Definition person_body : value :=
  VDict [("person", VDict [("id", VInt 1)]); ("precinct", VDict [("id", VInt 7)])].

(** The shop once the rule bound to the local [price_rule], if any, has
    been destroyed. *)
Definition without_rule (bound : option price_rule) (w : world) : world :=
  match bound with
  | Some rule =>
      {| nb_person := nb_person w;
         nb_capitals := nb_capitals w;
         shop_rules := filter (fun r => negb (rule_id r =? rule_id rule)%nat) (shop_rules w);
         shop_codes := filter (fun c => negb (fst c =? rule_id rule)%nat) (shop_codes w);
         next_rule_id := next_rule_id w |}
  | None => w
  end.

(** Python's arithmetic for the examples. [m * 2 ^ e] as the nearest
    float, ties to even; a result beyond the range raises. *)
Definition nearest_float (m e : Z) : result float :=
  let x := SF2Prim (binary_normalize prec emax m e false) in
  if PrimFloat.is_infinity x then Raise OverflowError else Ok x.

(** [float(z)] *)
Definition float_of_Z (z : Z) : result float := nearest_float z 0.

(** [a / b] for integers and [b] not zero: the quotient to 56 bits and
    more, with one more bit for a remainder, rounded once. *)
Definition truediv (a b : Z) : result float :=
  let k := Z.max 0 (56 + Z.log2 (Z.abs b) - Z.log2 (Z.abs a)) in
  let q := (Z.abs a * 2 ^ k / Z.abs b)%Z in
  let r := (Z.abs a * 2 ^ k mod Z.abs b)%Z in
  let m := (2 * q + (if (r =? 0)%Z then 0 else 1))%Z in
  nearest_float (Z.sgn a * Z.sgn b * m) (- k - 1).

(** [int(x)]: towards zero. *)
Definition Z_of_float (x : float) : result Z :=
  match Prim2SF x with
  | S754_zero _ => Ok 0%Z
  | S754_finite s m e =>
      let v := if (0 <=? e)%Z then (Z.pos m * 2 ^ e)%Z else (Z.pos m / 2 ^ (- e))%Z in
      Ok (if s then (- v)%Z else v)
  | S754_infinity _ => Raise OverflowError
  | S754_nan => Raise ValueError
  end.

(** [math.floor(x)] and [round(x)], ties to even, of a finite [x]; the
    examples have no other. *)
Definition floor_float (x : float) : Z :=
  match Prim2SF x with
  | S754_finite s m e =>
      let v := if s then Z.neg m else Z.pos m in
      if (0 <=? e)%Z then (v * 2 ^ e)%Z else (v / 2 ^ (- e))%Z
  | _ => 0%Z
  end.

Definition round_float (x : float) : Z :=
  match Prim2SF x with
  | S754_finite s m e =>
      let v :=
        if (0 <=? e)%Z then (Z.pos m * 2 ^ e)%Z
        else
          let d := (2 ^ (- e))%Z in
          let q := (Z.pos m / d)%Z in
          let r := (Z.pos m mod d)%Z in
          if (2 * r <? d)%Z then q
          else if (d <? 2 * r)%Z then (q + 1)%Z
          else if Z.even q then q else (q + 1)%Z in
      if s then (- v)%Z else v
  | _ => 0%Z
  end.

(** An environment and a person for the examples: an exchange rate of 1
    and 10.00 of capital; the person's numbers are JSON numbers, so that no
    string is parsed. *)
Definition example_env (failing : step -> option exn) : environment :=
  {| SHOP_PENDING_FIELD := "capital_redemption";
     parse_float := fun _ => None;
     float_of_int := float_of_Z;
     parse_int := fun _ => None;
     int_of_float := Z_of_float;
     int_truediv := truediv;
     new_title := "NB_1_K3Q9ZT0AXB";
     discount_value := fun redemption =>
       match truediv (floor_float (redemption * 1 * 100)) 100 with
       | Ok x => (- x)%float
       | Raise _ => PrimFloat.nan
       end;
     round_cents := fun redemption => round_float (redemption * 100);
     faults := failing |}.

Definition example_world (pending : value) : world :=
  {| nb_person := [("id", VInt 1);
                   ("capital_amount_in_cents", VInt 1000);
                   ("capital_redemption", pending)];
     nb_capitals := [];
     shop_rules := [];
     shop_codes := [];
     next_rule_id := 0 |}.

Definition no_fault (s : step) : option exn := None.

Definition add_capital_fails (s : step) : option exn :=
  match s with AddCapital => Some (HTTPError 500) | _ => None end.

(** ** Further vocabulary: the requests of a paginated call *)

(** The keyword arguments of the successive page requests: the first
    request gets [kwargs], each later one the arguments of the request
    before it updated with the query of the link that the page before it
    carried. *)
Fixpoint cursor_chain (parse_next : string -> result dict) (kwargs : dict)
    (ps : list value) : list dict :=
  match ps with
  | [] => []
  | p :: rest =>
      kwargs :: cursor_chain parse_next (dict_update kwargs (cursor_of parse_next p)) rest
  end.

(** The keyword arguments a collecting call starts from: the caller's
    without [yield_resps] and [max_resps]. *)
Definition collect_kwargs (kwargs : dict) : dict :=
  snd (dict_pop (request_kwargs kwargs) MAX_RESPS_NAME (VInt (-1))).

(** A wrapped method that never runs out of pages. *)
Definition endless (i : nat) (kw : dict) : result value :=
  Ok (page (VList [VDict [("id", VInt (Z.of_nat i))]])
        (Some "https://slug.nationbuilder.com/api/v1/people?__token=t")).

(** ** resp_procs.py: resource_eq *)

(** [resource_eq(obj, filter, resource_name)]. The inner function hands its
    [resource_name] on to [payload_filter(filter)] and compares the outcome
    with [obj]; [py_eq] stands for Python's [==]. *)
Definition resource_eq (py_eq : value -> value -> bool) (obj : value)
    (filter : option rfilter) (resource_name : option string) : processor :=
  {| proc_params := [RESOURCE_NAME];
     proc_keywords :=
       match resource_name with
       | Some name =>
           if String.eqb name "" then None else Some [(RESOURCE_NAME, VStr name)]
       | None => None
       end;
     proc_body := fun kw resp =>
       r <- payload_filter_body filter
              [(RESOURCE_NAME,
                match dict_get kw RESOURCE_NAME with Some v => v | None => VNone end)]
              resp ;;
       Ok (VBool (py_eq r obj)) |}.

(** ** Further vocabulary: filters and processors *)

(** What a list of plain names keeps of a dictionary. *)
Definition flat_filtered (d : dict) (es : list fentry) : dict :=
  fold_left (keep d) es [].

Definition is_dict (v : value) : bool :=
  match v with VDict _ => true | _ => false end.

(** [body.get(name, body)] *)
Definition extracted (d : dict) (name : string) : value :=
  match dict_get d name with Some r => r | None => VDict d end.

(** Python's [==] against a string, as far as the examples need it. *)
Definition eq_string (v w : value) : bool :=
  match v, w with
  | VStr a, VStr b => String.eqb a b
  | _, _ => false
  end.

(** The default processor of [Imports.get]. *)
Definition imports_get_filter : rfilter := FList [ENested "status" (FList [EAttr "name"])].

(** The pages of a successful paginated call, as lists of resources. *)
Definition results_of (resp : value) : list value :=
  match payload_filter_body None [(RESOURCE_NAME, VStr "results")] resp with
  | Ok (VList l) => l
  | _ => []
  end.

Definition is_list (v : value) : bool :=
  match v with VList _ => true | _ => false end.

(** The processor in effect for an invocation. *)
Definition effective_proc (resp_proc_dflt : resp_proc_t) (resp_proc_kw : option resp_proc_t)
    : resp_proc_t :=
  match resp_proc_kw with Some rp => rp | None => resp_proc_dflt end.

(** ** nationbuilder_api/helpers.py: has_level_handler *)

(** A logging handler: the module's own [handler = logging.StreamHandler()],
    whose level stays [NOTSET], or another one with its level. *)
Inductive handler_t : Type :=
| ModuleHandler
| OtherHandler (level : Z).

Definition NOTSET : Z := 0.
Definition DEBUG_LEVEL : Z := 10.

Definition handler_level (h : handler_t) : Z :=
  match h with
  | ModuleHandler => NOTSET
  | OtherHandler level => level
  end.

(** A logger, without its parent: a logger is used together with the list
    of its ancestors, nearest first. *)
Record logger_t : Type := mk_logger {
  logger_level : Z;
  logger_handlers : list handler_t;
  logger_propagate : bool
}.

(** [logger.getEffectiveLevel()]: the first level that is set, from the
    logger up, else [NOTSET]. *)
Fixpoint effective_level (chain : list logger_t) : Z :=
  match chain with
  | [] => NOTSET
  | l :: parents =>
      if (logger_level l =? 0)%Z then effective_level parents else logger_level l
  end.

(** The [while current] loop of [has_level_handler]. *)
Fixpoint level_handler_from (level : Z) (chain : list logger_t) : bool :=
  match chain with
  | [] => false
  | current :: parents =>
      if existsb (fun h => (handler_level h <=? level)%Z) (logger_handlers current)
      then true
      else if logger_propagate current then level_handler_from level parents
      else false
  end.

(** [has_level_handler(logger)] *)
Definition has_level_handler (logger : logger_t) (parents : list logger_t) : bool :=
  level_handler_from (effective_level (logger :: parents)) (logger :: parents).

(** ** nationbuilder_api/__init__.py: NationBuilderClient *)

Definition is_module_handler (h : handler_t) : bool :=
  match h with ModuleHandler => true | OtherHandler _ => false end.

(** [logger.addHandler(hdlr)]: a handler is not added twice. *)
Definition add_handler (h : handler_t) (l : logger_t) : logger_t :=
  match h with
  | ModuleHandler =>
      if existsb is_module_handler (logger_handlers l) then l
      else {| logger_level := logger_level l;
              logger_handlers := logger_handlers l ++ [h];
              logger_propagate := logger_propagate l |}
  | OtherHandler _ =>
      {| logger_level := logger_level l;
         logger_handlers := logger_handlers l ++ [h];
         logger_propagate := logger_propagate l |}
  end.

(** The logging part of [__init__] (lines 126 to 131), for the logger the
    client ends up with. *)
Definition init_logger (debug : bool) (logger : logger_t) (parents : list logger_t)
    : logger_t :=
  let logger1 :=
    if debug && (logger_level logger =? 0)%Z
    then {| logger_level := DEBUG_LEVEL;
            logger_handlers := logger_handlers logger;
            logger_propagate := logger_propagate logger |}
    else logger in
  if has_level_handler logger1 parents then logger1
  else add_handler ModuleHandler logger1.

(** The session parameters that [__init__] leaves in [self.params], which
    [requests.Session] creates empty (lines 116 to 123). *)
Definition session_params (access_token : value) (params : dict) : dict :=
  let p0 := if truthy access_token then dict_set [] "access_token" access_token else [] in
  let p1 := dict_update p0 params in
  if dict_has params "limit" then p1 else dict_set p1 "limit" (VInt 100).

(** What a method of [requests.Session] is called with. *)
Record http_request : Type := mk_http_request {
  req_url : string;
  req_params : dict;
  req_headers : value;
  req_json : value;
  req_timeout : float
}.

(** The client as [make_request] uses it: [session_method name] is
    [getattr(self, name)], a method of [requests.Session] or nothing. *)
Record session_t : Type := mk_session {
  base_url : string;
  session_timeout : float;
  session_method : string -> option (http_request -> result value)
}.

(** [str.lower] on ASCII letters. *)
Definition lower_ascii (c : Ascii.ascii) : Ascii.ascii :=
  let n := Ascii.nat_of_ascii c in
  if (65 <=? n)%nat && (n <=? 90)%nat then Ascii.ascii_of_nat (n + 32) else c.

Fixpoint lower (s : string) : string :=
  match s with
  | EmptyString => EmptyString
  | String c rest => String (lower_ascii c) (lower rest)
  end.

(** [resp.raise_for_status()], handing the response on. *)
Definition raise_for_status (resp : value) : result value :=
  match resp with
  | VResp st _ =>
      if (400 <=? st)%Z && (st <? 600)%Z then Raise (HTTPError st) else Ok resp
  | _ => Raise AttributeError
  end.

(** [make_request(http_meth, url_path, payload, headers, timeout, **params)].
    The method is looked up before the arguments of its call are
    evaluated. *)
Definition make_request (env : environment) (s : session_t) (http_meth url_path : string)
    (payload headers timeout : value) (params : dict) : result value :=
  match session_method s (lower http_meth) with
  | None => Raise AttributeError
  | Some send =>
      t <- py_float env (if truthy timeout then timeout else VFloat (session_timeout s)) ;;
      resp <- send {| req_url := (base_url s ++ url_path)%string;
                      req_params := params;
                      req_headers := headers;
                      req_json := payload;
                      req_timeout := t |} ;;
      raise_for_status resp
  end.

(** [self.session.make_request(http_meth, url_path, **kwargs)], or with
    [payload] as third positional argument, as the endpoint methods call
    it: keyword arguments named like a parameter bind to it (a second
    value for a parameter already given is a [TypeError]), the others are
    the query parameters. *)
Definition call_make_request (env : environment) (s : session_t)
    (http_meth url_path : string) (payload : option value) (kwargs : dict)
    : result value :=
  if dict_has kwargs "self" || dict_has kwargs "http_meth" || dict_has kwargs "url_path"
     || (match payload with Some _ => dict_has kwargs "payload" | None => false end)
  then Raise TypeError
  else
    let (p, k1) :=
      match payload with
      | Some p => (p, kwargs)
      | None => dict_pop kwargs "payload" VNone
      end in
    let (h, k2) := dict_pop k1 "headers" VNone in
    let (t, k3) := dict_pop k2 "timeout" VNone in
    make_request env s http_meth url_path p h t k3.

(** ** endpoints/classes/people.py: People.get *)

(** The path of [People.get(id, email)]:
    [f"people/{id if id else 'match?email=' + email}"], [py_str] being the
    text an f-string gives for a value. *)
Definition people_get_path (py_str : value -> string) (id email : value) : result string :=
  if truthy id then Ok ("people/" ++ py_str id)%string
  else
    match email with
    | VStr e => Ok ("people/" ++ py_str (VStr ("match?email=" ++ e)))%string
    | _ => Raise TypeError
    end.

(** The wrapped [People.get(id, email, **kwargs)]. *)
Definition People_get (env : environment) (s : session_t) (py_str : value -> string)
    (id email : value) (kwargs : dict) : result value :=
  path <- people_get_path py_str id email ;;
  call_make_request env s "get" path None kwargs.

(** Examples. *)
Definition root_logger : logger_t :=
  {| logger_level := 30; logger_handlers := []; logger_propagate := true |}.

Definition fresh_logger : logger_t :=
  {| logger_level := 0; logger_handlers := []; logger_propagate := true |}.

Definition example_session (status : Z) : session_t :=
  {| base_url := "https://slug.nationbuilder.com/api/v1/";
     session_timeout := 10%float;
     session_method := fun name =>
       if String.eqb name "get"
       then Some (fun req => Ok (VResp status (VDict [("url", VStr (req_url req))])))
       else None |}.

Definition example_str (v : value) : string :=
  match v with
  | VStr s => s
  | VInt 42 => "42"
  | _ => "?"
  end.

Definition is_str (v : value) : bool :=
  match v with VStr _ => true | _ => false end.

(** The level that [__init__] leaves on the logger (line 127). *)
Definition with_debug_level (debug : bool) (logger : logger_t) : logger_t :=
  if debug && (logger_level logger =? 0)%Z
  then {| logger_level := DEBUG_LEVEL;
          logger_handlers := logger_handlers logger;
          logger_propagate := logger_propagate logger |}
  else logger.

(** ** Further vocabulary: the redemption task *)

(** The filter that [create_discount] hands to [people.get]. *)
Definition person_filter (env : environment) : list fentry :=
  [EAttr CAPITAL_FIELD; EAttr (SHOP_PENDING_FIELD env)].

(** The price rule that a run on [w] creates for [redemption]. *)
Definition new_rule (env : environment) (redemption : float) (w : world) : price_rule :=
  {| rule_id := next_rule_id w;
     rule_title := new_title env;
     rule_value := discount_value env redemption |}.

Definition destroy_fails (s : step) : option exn :=
  match s with
  | AddCapital => Some (HTTPError 500)
  | DestroyRule => Some (HTTPError 404)
  | _ => None
  end.

Definition restore_fails (s : step) : option exn :=
  match s with
  | AddCapital => Some (HTTPError 500)
  | RestorePending => Some (HTTPError 502)
  | _ => None
  end.

(** * Properties *)

(** ** Dictionaries *)

Lemma dict_get_set (d : dict) (k k' : string) (v : value) :
  dict_get (dict_set d k v) k' = if String.eqb k k' then Some v else dict_get d k'.
Proof.
  induction d as [|[k0 v0] d IH]; simpl.
  - reflexivity.
  - destruct (String.eqb_spec k0 k) as [->|Hne]; simpl.
    + destruct (String.eqb k k'); reflexivity.
    + rewrite IH.
      destruct (String.eqb_spec k0 k') as [->|Hne'].
      * destruct (String.eqb_spec k k') as [->|_]; [contradiction|reflexivity].
      * reflexivity.
Qed.

Lemma dict_has_set (d : dict) (k k' : string) (v : value) :
  dict_has (dict_set d k v) k' = String.eqb k k' || dict_has d k'.
Proof.
  unfold dict_has. rewrite dict_get_set.
  destruct (String.eqb k k'); reflexivity.
Qed.



Lemma dict_get_remove_other (d : dict) (k k' : string) :
  k <> k' -> dict_get (dict_remove d k) k' = dict_get d k'.
Proof.
  intros Hne. induction d as [|[k0 v0] d IH]; simpl.
  - reflexivity.
  - destruct (String.eqb_spec k0 k) as [->|Hk].
    + destruct (String.eqb_spec k k') as [->|_]; [contradiction|reflexivity].
    + simpl. rewrite IH. reflexivity.
Qed.

(** ** Resource filters *)

Lemma handle_filter_loop_flat (d : dict) (es : list fentry) (filtered : dict) :
  forallb is_attr es = true ->
  handle_filter_loop (VDict d) es filtered = Ok (fold_left (keep d) es filtered).
Proof.
  revert filtered.
  induction es as [|[a|a sub] es IH]; simpl; intros filtered H.
  - reflexivity.
  - apply IH. exact H.
  - discriminate.
Qed.

Lemma getv_fold_keep (d : dict) (es : list fentry) (filtered : dict) (k : string) :
  getv (fold_left (keep d) es filtered) k =
  if mem_string k (map entry_name es) then getv d k else getv filtered k.
Proof.
  unfold mem_string. revert filtered.
  induction es as [|e es IH]; intros filtered.
  - reflexivity.
  - cbn [fold_left map existsb]. rewrite IH.
    destruct (existsb (String.eqb k) (map entry_name es)).
    + rewrite orb_true_r. reflexivity.
    + rewrite orb_false_r. unfold keep, getv. rewrite dict_get_set.
      rewrite (String.eqb_sym k (entry_name e)).
      destruct (String.eqb_spec (entry_name e) k) as [->|_]; reflexivity.
Qed.

Lemma fold_keep_agree (d d' : dict) (es : list fentry) (filtered : dict) :
  (forall e, In e es -> getv d' (entry_name e) = getv d (entry_name e)) ->
  fold_left (keep d') es filtered = fold_left (keep d) es filtered.
Proof.
  revert filtered.
  induction es as [|e es IH]; simpl; intros filtered H.
  - reflexivity.
  - unfold keep at 2 4. rewrite (H e) by (left; reflexivity).
    apply IH. intros e' He'. apply H. right. exact He'.
Qed.

Lemma mem_string_In (k : string) (l : list string) :
  In k l -> mem_string k l = true.
Proof.
  intros H. unfold mem_string. apply existsb_exists.
  exists k. split; [exact H|apply String.eqb_refl].
Qed.

(** Filtering a dictionary by a list of plain names is idempotent, whether
    the names are present or not. *)
Lemma handle_filter_flat_twice (d : dict) (es : list fentry) :
  forallb is_attr es = true ->
  exists m,
    handle_filter (VDict d) es = Ok (VDict m) /\
    handle_filter (VDict m) es = Ok (VDict m).
Proof.
  intros Hflat. exists (fold_left (keep d) es []).
  unfold handle_filter.
  rewrite !handle_filter_loop_flat by exact Hflat. simpl.
  split; [reflexivity|].
  f_equal. f_equal. apply fold_keep_agree.
  intros e He. rewrite getv_fold_keep.
  rewrite mem_string_In; [reflexivity|].
  apply in_map. exact He.
Qed.

Lemma dict_has_fold_keep (d : dict) (es : list fentry) (filtered : dict) (k : string) :
  dict_has (fold_left (keep d) es filtered) k =
  mem_string k (map entry_name es) || dict_has filtered k.
Proof.
  unfold mem_string. revert filtered.
  induction es as [|e es IH]; intros filtered.
  - reflexivity.
  - cbn [fold_left map existsb]. rewrite IH.
    unfold keep. rewrite dict_has_set.
    rewrite (String.eqb_sym k (entry_name e)).
    destruct (String.eqb (entry_name e) k),
      (existsb (String.eqb k) (map entry_name es)); reflexivity.
Qed.

(** A plain name that the dictionary lacks comes out as [None]. *)
Lemma handle_filter_flat_absent (d : dict) (es : list fentry) (a : string) :
  forallb is_attr es = true ->
  In (EAttr a) es ->
  dict_get d a = None ->
  exists m,
    handle_filter (VDict d) es = Ok (VDict m) /\ dict_get m a = Some VNone.
Proof.
  intros Hflat Hin Habs. exists (fold_left (keep d) es []).
  unfold handle_filter. rewrite handle_filter_loop_flat by exact Hflat.
  split; [reflexivity|].
  assert (Hmem : mem_string a (map entry_name es) = true).
  { apply mem_string_In. apply (in_map entry_name _ _ Hin). }
  pose proof (getv_fold_keep d es [] a) as G.
  pose proof (dict_has_fold_keep d es [] a) as Hhas.
  rewrite Hmem in G, Hhas.
  unfold dict_has in Hhas. unfold getv in G. rewrite Habs in G.
  destruct (dict_get (fold_left (keep d) es []) a); [congruence|discriminate].
Qed.

Lemma filter_resource_attr_absent (d : dict) (a : string) :
  dict_get d a = None -> filter_resource (VDict d) (FAttr a) = Ok VNone.
Proof. intros H. simpl. rewrite H. reflexivity. Qed.

(** A list filter with a pair among its entries raises [TypeError] on every
    dictionary, whether the named attribute is there or not. *)
Lemma handle_filter_nested_raises (d : dict) (es : list fentry) :
  forallb is_attr es = false -> handle_filter (VDict d) es = Raise TypeError.
Proof.
  unfold handle_filter. generalize (@nil (string * value)).
  induction es as [|[a|a sub] es IH]; simpl; intros acc H.
  - discriminate.
  - rewrite IH by exact H. reflexivity.
  - reflexivity.
Qed.

(** C3 (the code at the failing input). The resource [{"a": 1}] lacks [b]:
    the plain entry ["b"] is filtered to [{"b": None}], while the nested
    entry [("b", ["c"])] raises [TypeError] instead of mapping [b] to
    [None], because [handle_filter] is called with its filter alone. *)
Theorem filter_nested_absent_raises :
  filter_resource (VDict [("a", VInt 1)]) (FList [EAttr "b"])
    = Ok (VDict [("b", VNone)]) /\
  filter_resource (VDict [("a", VInt 1)]) (FList [ENested "b" (FList [EAttr "c"])])
    = Raise TypeError.
Proof. split; reflexivity. Qed.

(** C6 (the claim fails): [{"a": 1}] has the attribute [a] that the filter
    ["a"] names; filtering once gives the attribute's value [1], which is no
    mapping, and filtering that value again raises [AttributeError]. *)
Lemma filter_twice_attr_name_differs :
  names_present (VDict [("a", VInt 1)]) (FAttr "a") = true /\
  filter_resource (VDict [("a", VInt 1)]) (FAttr "a") = Ok (VInt 1) /\
  filter_resource (VInt 1) (FAttr "a") = Raise AttributeError.
Proof. repeat split; reflexivity. Qed.

(** C6 (amended). For every resource and every filter that is a list of
    plain attribute names, all present on the resource, filtering gives a
    mapping, and filtering that mapping again with the same filter gives
    the same mapping. *)
Theorem filter_twice_flat_list (resource : value) (filter : rfilter) :
  is_flat_list filter = true ->
  names_present resource filter = true ->
  exists m,
    filter_resource resource filter = Ok (VDict m) /\
    filter_resource (VDict m) filter = Ok (VDict m).
Proof.
  destruct filter as [a|es]; simpl; [discriminate|].
  intros Hflat Hpres.
  destruct es as [|e es].
  - exists []. split; reflexivity.
  - destruct resource as [| | | | | |d| |];
      try (destruct e; simpl in Hpres; discriminate).
    apply handle_filter_flat_twice. exact Hflat.
Qed.

Lemma filter_twice_flat_list_witness :
  exists m,
    filter_resource
      (VDict [("id", VInt 1); ("first_name", VStr "A"); ("email", VNone)])
      (FList [EAttr "id"; EAttr "first_name"]) = Ok (VDict m) /\
    filter_resource (VDict m) (FList [EAttr "id"; EAttr "first_name"]) = Ok (VDict m).
Proof.
  apply (filter_twice_flat_list
           (VDict [("id", VInt 1); ("first_name", VStr "A"); ("email", VNone)])
           (FList [EAttr "id"; EAttr "first_name"])); reflexivity.
Defined.

(** ** Pagination *)

Lemma serves_head f i0 p ps : serves f i0 (p :: ps) -> forall kw, f i0 kw = Ok p.
Proof.
  intros H kw. specialize (H 0 kw p eq_refl).
  rewrite Nat.add_0_r in H. exact H.
Qed.

Lemma serves_tail f i0 p ps : serves f i0 (p :: ps) -> serves f (S i0) ps.
Proof.
  intros H k kw resp Hk. specialize (H (S k) kw resp Hk).
  rewrite Nat.add_succ_r in H. exact H.
Qed.

Lemma has_next_link_inv resp :
  has_next_link resp = true ->
  exists url, next_link resp = Ok (VStr url) /\ truthy (VStr url) = true.
Proof.
  unfold has_next_link. destruct (next_link resp) as [v|e]; [|discriminate].
  destruct v; try discriminate. intros H. exists s. split; [reflexivity|exact H].
Qed.

(** A page with a cursor: the link is a non-empty string and its query is
    read. *)
Lemma has_cursor_inv parse_next resp :
  has_cursor parse_next resp = true ->
  next_link resp = Ok (VStr (next_url resp)) /\
  truthy (VStr (next_url resp)) = true /\
  next_cursor parse_next (VStr (next_url resp)) = Ok (cursor_of parse_next resp).
Proof.
  unfold has_cursor, cursor_of. intros H. apply andb_prop in H. destruct H as [Hl Hp].
  unfold has_next_link, next_url in *.
  destruct (next_link resp) as [v|e]; [|discriminate].
  destruct v; try discriminate. cbn [next_cursor].
  destruct (parse_next s) as [q|e]; [|discriminate].
  repeat split. exact Hl.
Qed.

Lemma has_cursor_parses parse_next resp :
  has_cursor parse_next resp = true ->
  parse_next (next_url resp) = Ok (cursor_of parse_next resp).
Proof.
  intros H. destruct (has_cursor_inv _ _ H) as (_ & _ & Hq). exact Hq.
Qed.

Lemma no_next_link_inv resp :
  no_next_link resp = true ->
  exists v, next_link resp = Ok v /\ truthy v = false.
Proof.
  unfold no_next_link. destruct (next_link resp) as [v|e]; [|discriminate].
  intros H. exists v. split; [reflexivity|].
  destruct (truthy v); [discriminate|reflexivity].
Qed.

Lemma len_differs_default (resps : list value) : len_differs resps (VInt (-1)) = true.
Proof.
  simpl. destruct (Z.eqb_spec (Z.of_nat (List.length resps)) (-1)); [lia|reflexivity].
Qed.


Section Pagination.

Variable parse_next : string -> result dict.
Variable f : page_method.

(** An invariant of the keyword arguments that every cursor keeps. *)
Variable Inv : dict -> Prop.
Hypothesis Inv_update :
  forall kw url q, parse_next url = Ok q -> Inv kw -> Inv (dict_update kw q).

Lemma Inv_cursor (kw : dict) (p : value) :
  has_cursor parse_next p = true -> Inv kw -> Inv (dict_update kw (cursor_of parse_next p)).
Proof.
  intros Hp Hi. apply (Inv_update kw (next_url p)); [|exact Hi].
  apply has_cursor_parses. exact Hp.
Qed.


(** Collecting over linked pages: the body ends at [return resps] with
    every page, one request per page, nothing logged. *)
Lemma collect_linked (ps : list value) :
  forall fuel max_resps kwargs resps w,
    linked parse_next ps = true ->
    serves f (List.length (requests w)) ps ->
    (forall l, List.length l < List.length resps + List.length ps ->
               len_differs l max_resps = true) ->
    List.length ps <= fuel ->
    Inv kwargs ->
    exists reqs,
      collect parse_next f fuel max_resps kwargs resps w =
        (Returned (VList (resps ++ ps)),
         {| requests := requests w ++ reqs; log := log w |}) /\
      List.length reqs = List.length ps /\ Forall Inv reqs.
Proof.
  induction ps as [|p rest IH]; intros fuel m kwargs resps w Hl Hs Hm Hf Hi.
  - discriminate.
  - destruct fuel as [|fuel]; [simpl in Hf; lia|].
    cbn [collect]. rewrite Hm by (simpl; lia).
    unfold call_f. rewrite (serves_head _ _ _ _ Hs).
    destruct rest as [|q rest'].
    + apply no_next_link_inv in Hl. destruct Hl as (v & Hv & Ht).
      rewrite Hv, Ht. exists [kwargs]. repeat split. constructor; [exact Hi|constructor].
    + cbn [linked] in Hl. apply andb_prop in Hl. destruct Hl as [Hp Hl].
      destruct (has_cursor_inv _ _ Hp) as (Hv & Ht & Hq).
      rewrite Hv, Ht, Hq.
      destruct (IH fuel m (dict_update kwargs (cursor_of parse_next p)) (resps ++ [p])
                  {| requests := requests w ++ [kwargs]; log := log w |})
        as (reqs & Hc & Hn & Hall).
      * exact Hl.
      * cbn [requests]. rewrite length_app, Nat.add_comm. apply (serves_tail _ _ _ _ Hs).
      * intros l Hlen. apply Hm. rewrite length_app in Hlen. simpl in *. lia.
      * simpl in *. lia.
      * apply Inv_cursor; assumption.
      * rewrite Hc. cbn [requests log]. exists (kwargs :: reqs).
        rewrite <- !app_assoc. repeat split.
        -- simpl. rewrite Hn. reflexivity.
        -- constructor; assumption.
Qed.

(** Collecting when the pages [ps] all carry a link that can be read and
    the next fetch raises [e]: the handler is entered with the pages
    collected so far. *)
Lemma collect_raises (ps : list value) (e : exn) :
  forall fuel max_resps kwargs resps w,
    forallb (has_cursor parse_next) ps = true ->
    serves f (List.length (requests w)) ps ->
    (forall kw, f (List.length (requests w) + List.length ps) kw = Raise e) ->
    (forall l, List.length l <= List.length resps + List.length ps ->
               len_differs l max_resps = true) ->
    List.length ps < fuel ->
    exists reqs,
      collect parse_next f fuel max_resps kwargs resps w =
        on_exception e (resps ++ ps)
          {| requests := requests w ++ reqs; log := log w |} /\
      List.length reqs = S (List.length ps).
Proof.
  induction ps as [|p rest IH]; intros fuel m kwargs resps w Hl Hs He Hm Hf.
  - destruct fuel as [|fuel]; [lia|].
    cbn [collect]. rewrite Hm by (simpl; lia).
    unfold call_f. simpl in He. rewrite Nat.add_0_r in He. rewrite He.
    exists [kwargs]. rewrite app_nil_r. split; reflexivity.
  - destruct fuel as [|fuel]; [simpl in Hf; lia|].
    cbn [collect]. rewrite Hm by (simpl; lia).
    unfold call_f. rewrite (serves_head _ _ _ _ Hs).
    cbn [forallb] in Hl. apply andb_prop in Hl. destruct Hl as [Hp Hl].
    destruct (has_cursor_inv _ _ Hp) as (Hv & Ht & Hq).
    rewrite Hv, Ht, Hq.
    destruct (IH fuel m (dict_update kwargs (cursor_of parse_next p)) (resps ++ [p])
                {| requests := requests w ++ [kwargs]; log := log w |})
      as (reqs & Hc & Hn).
    + exact Hl.
    + cbn [requests]. rewrite length_app, Nat.add_comm. apply (serves_tail _ _ _ _ Hs).
    + intros kw. cbn [requests]. rewrite length_app. simpl.
      specialize (He kw). simpl in He.
      replace (List.length (requests w) + 1 + List.length rest)
        with (List.length (requests w) + S (List.length rest)) by lia.
      exact He.
    + intros l Hlen. apply Hm. rewrite length_app in Hlen. simpl in *. lia.
    + simpl in *. lia.
    + rewrite Hc. cbn [requests log]. exists (kwargs :: reqs).
      rewrite <- !app_assoc. split; [reflexivity|].
      simpl. rewrite Hn. reflexivity.
Qed.

(** One turn of a stream suspended on a page with a cursor: the next page
    is requested with the updated arguments. *)
Lemma gen_next_cursor (p : value) (fuel : nat) (kwargs : dict) (w : pworld) :
  has_cursor parse_next p = true ->
  gen_next parse_next f fuel (GenSuspended kwargs p) w =
  stream_fetch f (dict_update kwargs (cursor_of parse_next p)) w.
Proof.
  intros Hp. destruct (has_cursor_inv _ _ Hp) as (Hv & Ht & Hq).
  cbn [gen_next]. rewrite Hv, Ht, Hq. reflexivity.
Qed.

(** Draining a stream suspended on the page [p], with the pages [rest]
    still to come: they are yielded in order and the generator ends. *)
Lemma drain_linked (rest : list value) :
  forall p fuel kwargs w yielded,
    linked parse_next (p :: rest) = true ->
    serves f (List.length (requests w)) rest ->
    List.length rest < fuel ->
    Inv kwargs ->
    exists reqs,
      drain parse_next f fuel (GenSuspended kwargs p) w yielded =
        (yielded ++ rest, Returned VNone,
         {| requests := requests w ++ reqs; log := log w |}) /\
      List.length reqs = List.length rest /\ Forall Inv reqs.
Proof.
  induction rest as [|q rest IH]; intros p fuel kwargs w yielded Hl Hs Hf Hi.
  - destruct fuel as [|fuel]; [simpl in Hf; lia|].
    cbn [linked] in Hl. apply no_next_link_inv in Hl. destruct Hl as (v & Hv & Ht).
    cbn [drain gen_next]. rewrite Hv, Ht.
    exists []. rewrite !app_nil_r. destruct w. repeat split. constructor.
  - destruct fuel as [|fuel]; [simpl in Hf; lia|].
    cbn [linked] in Hl. apply andb_prop in Hl. destruct Hl as [Hp Hl].
    cbn [drain]. rewrite (gen_next_cursor _ _ _ _ Hp).
    unfold stream_fetch, call_f. rewrite (serves_head _ _ _ _ Hs).
    destruct (IH q fuel (dict_update kwargs (cursor_of parse_next p))
                {| requests := requests w ++ [dict_update kwargs (cursor_of parse_next p)];
                   log := log w |} (yielded ++ [q]))
      as (reqs & Hc & Hn & Hall).
    + exact Hl.
    + cbn [requests]. rewrite length_app, Nat.add_comm. apply (serves_tail _ _ _ _ Hs).
    + simpl in *. lia.
    + apply Inv_cursor; assumption.
    + rewrite Hc. cbn [requests log].
      exists (dict_update kwargs (cursor_of parse_next p) :: reqs).
      rewrite <- !app_assoc. repeat split.
      * simpl. rewrite Hn. reflexivity.
      * constructor; [apply Inv_cursor; assumption|exact Hall].
Qed.

(** Draining a stream suspended on [p] when [p] and the pages [rest] all
    carry a link that can be read and the fetch after them raises [e]. *)
Lemma drain_raises (rest : list value) (e : exn) :
  forall p fuel kwargs w yielded,
    forallb (has_cursor parse_next) (p :: rest) = true ->
    serves f (List.length (requests w)) rest ->
    (forall kw, f (List.length (requests w) + List.length rest) kw = Raise e) ->
    List.length rest < fuel ->
    Inv kwargs ->
    exists reqs,
      drain parse_next f fuel (GenSuspended kwargs p) w yielded =
        (yielded ++ rest, Raised e,
         {| requests := requests w ++ reqs; log := log w |}) /\
      List.length reqs = S (List.length rest) /\ Forall Inv reqs.
Proof.
  induction rest as [|q rest IH]; intros p fuel kwargs w yielded Hl Hs He Hf Hi;
    (destruct fuel as [|fuel]; [simpl in Hf; lia|]);
    cbn [forallb] in Hl; apply andb_prop in Hl; destruct Hl as [Hp Hl];
    cbn [drain]; rewrite (gen_next_cursor _ _ _ _ Hp);
    unfold stream_fetch, call_f.
  - simpl in He. rewrite Nat.add_0_r in He. rewrite He.
    exists [dict_update kwargs (cursor_of parse_next p)]. rewrite app_nil_r.
    repeat split. constructor; [apply Inv_cursor; assumption|constructor].
  - rewrite (serves_head _ _ _ _ Hs).
    destruct (IH q fuel (dict_update kwargs (cursor_of parse_next p))
                {| requests := requests w ++ [dict_update kwargs (cursor_of parse_next p)];
                   log := log w |} (yielded ++ [q]))
      as (reqs & Hc & Hn & Hall).
    + exact Hl.
    + cbn [requests]. rewrite length_app, Nat.add_comm. apply (serves_tail _ _ _ _ Hs).
    + intros kw. cbn [requests]. rewrite length_app. simpl.
      specialize (He kw). simpl in He.
      replace (List.length (requests w) + 1 + List.length rest)
        with (List.length (requests w) + S (List.length rest)) by lia.
      exact He.
    + simpl in *. lia.
    + apply Inv_cursor; assumption.
    + rewrite Hc. cbn [requests log].
      exists (dict_update kwargs (cursor_of parse_next p) :: reqs).
      rewrite <- !app_assoc. repeat split.
      * simpl. rewrite Hn. reflexivity.
      * constructor; [apply Inv_cursor; assumption|exact Hall].
Qed.


End Pagination.


(** The first resumption of a streaming generator fetches the first page. *)
Lemma drain_created_streaming parse_next f fuel kwargs w :
  streaming kwargs = true ->
  drain parse_next f (S fuel) (GenCreated kwargs) w [] =
  match f (List.length (requests w)) (request_kwargs kwargs) with
  | Ok p =>
      drain parse_next f fuel (GenSuspended (request_kwargs kwargs) p)
        {| requests := requests w ++ [request_kwargs kwargs]; log := log w |} [p]
  | Raise e =>
      ([], Raised e, {| requests := requests w ++ [request_kwargs kwargs]; log := log w |})
  end.
Proof.
  unfold streaming, request_kwargs. intros H.
  cbn [drain gen_next].
  destruct (dict_pop kwargs "yield_resps" (VBool false)) as [y kw1].
  cbn [fst snd] in *. rewrite H. unfold stream_fetch, call_f.
  destruct (f (List.length (requests w)) kw1); reflexivity.
Qed.

(** The only resumption of a collecting generator runs the whole loop. *)
Lemma gen_next_created_collecting parse_next f fuel kwargs w :
  streaming kwargs = false ->
  gen_next parse_next f fuel (GenCreated kwargs) w =
  (fst (collect parse_next f fuel (max_resps_of kwargs)
          (snd (dict_pop (request_kwargs kwargs) MAX_RESPS_NAME (VInt (-1)))) [] w),
   GenClosed,
   snd (collect parse_next f fuel (max_resps_of kwargs)
          (snd (dict_pop (request_kwargs kwargs) MAX_RESPS_NAME (VInt (-1)))) [] w)).
Proof.
  unfold streaming, max_resps_of, request_kwargs. intros H.
  cbn [gen_next].
  destruct (dict_pop kwargs "yield_resps" (VBool false)) as [y kw1].
  cbn [fst snd] in *. rewrite H.
  destruct (dict_pop kw1 MAX_RESPS_NAME (VInt (-1))) as [m kw2].
  cbn [fst snd].
  destruct (collect parse_next f fuel m kw2 [] w). reflexivity.
Qed.

(** The body of a collecting call over [N >= 1] linked pages, with the
    default [max_resps]: it ends at [return resps] with the [N] pages in
    request order, after [N] requests and without logging. *)
Lemma collecting_body_returns_pages parse_next f (ps : list value) kwargs fuel :
  streaming kwargs = false ->
  dict_get (request_kwargs kwargs) MAX_RESPS_NAME = None ->
  linked parse_next ps = true ->
  serves f 0 ps ->
  List.length ps <= fuel ->
  exists reqs,
    gen_next parse_next f fuel (GenCreated kwargs) pworld0 =
      (Returned (VList ps), GenClosed, {| requests := reqs; log := [] |}) /\
    List.length reqs = List.length ps.
Proof.
  intros Hs Hm Hl Hsv Hf.
  rewrite gen_next_created_collecting by exact Hs.
  assert (Hmax : max_resps_of kwargs = VInt (-1)).
  { unfold max_resps_of, dict_pop at 1. fold (request_kwargs kwargs).
    rewrite Hm. reflexivity. }
  rewrite Hmax.
  destruct (collect_linked parse_next f (fun _ => True) (fun _ _ _ _ _ => I) ps fuel
              (VInt (-1))
              (snd (dict_pop (request_kwargs kwargs) MAX_RESPS_NAME (VInt (-1))))
              [] pworld0 Hl Hsv (fun l _ => len_differs_default l) Hf I)
    as (reqs & Hc & Hn & _).
  rewrite Hc. exists reqs. split; [reflexivity|exact Hn].
Qed.

(** A streaming call over [N >= 1] linked pages yields the [N] pages in
    request order and then ends. *)
Lemma streaming_yields_pages parse_next f (ps : list value) kwargs fuel :
  streaming kwargs = true ->
  linked parse_next ps = true ->
  serves f 0 ps ->
  List.length ps < fuel ->
  exists reqs,
    drain parse_next f fuel (GenCreated kwargs) pworld0 [] =
      (ps, Returned VNone, {| requests := reqs; log := [] |}) /\
    List.length reqs = List.length ps.
Proof.
  intros Hs Hl Hsv Hf.
  destruct ps as [|p rest]; [discriminate|].
  destruct fuel as [|fuel]; [simpl in Hf; lia|].
  rewrite drain_created_streaming by exact Hs.
  cbn [pworld0 requests log List.length].
  rewrite (serves_head _ _ _ _ Hsv).
  destruct (drain_linked parse_next f (fun _ => True) (fun _ _ _ _ _ => I) rest p fuel
              (request_kwargs kwargs)
              {| requests := [] ++ [request_kwargs kwargs]; log := [] |} [p])
    as (reqs & Hc & Hn & _).
  - exact Hl.
  - apply (serves_tail _ _ _ _ Hsv).
  - simpl in Hf. lia.
  - exact I.
  - rewrite Hc. cbn [requests log]. eexists. split; [reflexivity|].
    rewrite length_app. simpl. rewrite Hn. reflexivity.
Qed.

(** C1 (the code at the failing input). Three linked pages, no
    [yield_resps], default [max_resps]: the call does not return the list
    of the three pages but a generator that has not started; resumed, it
    yields nothing and ends at [return resps], the list being the value
    carried by [StopIteration]. With [yield_resps=True] the three pages are
    yielded in request order, as claimed. Under [handle_resp_proc], as the
    endpoint classes stack the two decorators, the default processor is
    handed the generator and fails on its [json] attribute. *)
Theorem paginated_call_returns_generator :
  as_list (handle_pagination [("limit", VInt 10)]) = None /\
  handle_pagination [("limit", VInt 10)] = ObjGenerator (GenCreated [("limit", VInt 10)]) /\
  fst (gen_next example_parse_next three_pages 3
         (GenCreated [("limit", VInt 10)]) pworld0)
    = (Returned (VList [page1; page2; page3]), GenClosed) /\
  fst (drain example_parse_next three_pages 4
         (GenCreated [("limit", VInt 10); ("yield_resps", VBool true)]) pworld0 [])
    = ([page1; page2; page3], Returned VNone) /\
  fst (handle_resp_proc no_iter (RPOne (payload_filter None None))
         [("resource_name", VStr "results")]
         (fun kwargs => Ok (obj_value (handle_pagination kwargs)))
         [("resource_name", VStr "person")] None [("limit", VInt 10)] rstate0)
    = Raise AttributeError.
Proof. repeat split; reflexivity. Qed.

(** C2 (the claim fails): pages 1 and 2 are fetched and the third fetch
    raises; the body of the collecting call ends with the two pages, and
    the one record it logs, written by [logger.exception], has level
    [ERROR]: no warning is logged. *)
Lemma partial_result_logged_at_error_level :
  fst (gen_next example_parse_next fails_on_third 3 (GenCreated []) pworld0)
    = (Returned (VList [page1; page2]), GenClosed) /\
  log (snd (gen_next example_parse_next fails_on_third 3 (GenCreated []) pworld0))
    = [ {| level := ERROR; message := PARTIAL_LIST; exc_info := Some (HTTPError 500) |} ] /\
  existsb (fun r => match level r with WARNING => true | _ => false end)
    (log (snd (gen_next example_parse_next fails_on_third 3 (GenCreated []) pworld0)))
    = false.
Proof. repeat split; reflexivity. Qed.

(** C2 (amended). Pages [1..k] are fetched, each with a [next] link that
    [urlparse] reads, and the fetch of page [k+1] raises [e]. The body of a
    collecting call whose [max_resps] is not reached ends, for [k >= 1], at
    [return resps] with the [k] pages and has logged one [ERROR] record
    through [logger.exception]; for [k = 0] it raises [e] and logs nothing.
    A streaming call yields the [k] pages and then raises [e], logging
    nothing. *)
Theorem pagination_failure_policy parse_next f (ps : list value) (e : exn)
    (kwargs_collect kwargs_stream : dict) (fuel : nat) :
  forallb (has_cursor parse_next) ps = true ->
  serves f 0 ps ->
  (forall kw, f (List.length ps) kw = Raise e) ->
  List.length ps < fuel ->
  streaming kwargs_collect = false ->
  (forall l, List.length l <= List.length ps ->
             len_differs l (max_resps_of kwargs_collect) = true) ->
  streaming kwargs_stream = true ->
  (exists reqs,
     gen_next parse_next f fuel (GenCreated kwargs_collect) pworld0 =
       (match ps with [] => Raised e | _ :: _ => Returned (VList ps) end,
        GenClosed,
        {| requests := reqs;
           log := match ps with
                  | [] => []
                  | _ :: _ => [logger_exception PARTIAL_LIST e]
                  end |})) /\
  (exists reqs,
     drain parse_next f fuel (GenCreated kwargs_stream) pworld0 [] =
       (ps, Raised e, {| requests := reqs; log := [] |})).
Proof.
  intros Hl Hsv He Hf Hc Hm Hs. split.
  - rewrite gen_next_created_collecting by exact Hc.
    destruct (collect_raises parse_next f ps e fuel (max_resps_of kwargs_collect)
                (snd (dict_pop (request_kwargs kwargs_collect) MAX_RESPS_NAME (VInt (-1))))
                [] pworld0 Hl Hsv He Hm Hf) as (reqs & Hcol & _).
    rewrite Hcol. cbn [app]. exists reqs.
    destruct ps; reflexivity.
  - destruct fuel as [|fuel]; [lia|].
    rewrite drain_created_streaming by exact Hs.
    cbn [pworld0 requests log List.length].
    destruct ps as [|p rest].
    + simpl in He. rewrite He. eexists. reflexivity.
    + rewrite (serves_head _ _ _ _ Hsv).
      destruct (drain_raises parse_next f (fun _ => True) (fun _ _ _ _ _ => I) rest e p
                  fuel (request_kwargs kwargs_stream)
                  {| requests := [] ++ [request_kwargs kwargs_stream]; log := [] |} [p])
        as (reqs & Hd & _).
      * exact Hl.
      * apply (serves_tail _ _ _ _ Hsv).
      * intros kw. specialize (He kw). simpl in *. exact He.
      * simpl in Hf. lia.
      * exact I.
      * rewrite Hd. eexists. reflexivity.
Qed.

Lemma pagination_failure_policy_witness :
  (exists reqs,
     gen_next example_parse_next fails_on_third 3 (GenCreated [("limit", VInt 10)]) pworld0 =
       (Returned (VList [page1; page2]), GenClosed,
        {| requests := reqs; log := [logger_exception PARTIAL_LIST (HTTPError 500)] |})) /\
  (exists reqs,
     drain example_parse_next fails_on_third 3
       (GenCreated [("limit", VInt 10); ("yield_resps", VBool true)]) pworld0 [] =
       ([page1; page2], Raised (HTTPError 500), {| requests := reqs; log := [] |})).
Proof.
  apply (pagination_failure_policy example_parse_next fails_on_third [page1; page2]
           (HTTPError 500) [("limit", VInt 10)]
           [("limit", VInt 10); ("yield_resps", VBool true)] 3).
  - reflexivity.
  - intros [|[|[|k]]] kw resp H; simpl in H; try discriminate; inversion H; reflexivity.
  - intros kw. reflexivity.
  - simpl. lia.
  - reflexivity.
  - intros l _. apply len_differs_default.
  - reflexivity.
Defined.




(** ** Response processing *)

Lemma mem_string_filter (p : string -> bool) (k : string) (l : list string) :
  mem_string k (filter p l) = mem_string k l && p k.
Proof.
  unfold mem_string. induction l as [|x l IH]; simpl.
  - reflexivity.
  - destruct (p x) eqn:Hp; simpl; rewrite IH.
    + destruct (String.eqb_spec k x) as [->|_]; simpl; [rewrite Hp|]; reflexivity.
    + destruct (String.eqb_spec k x) as [->|_]; simpl; [rewrite Hp|reflexivity].
      rewrite andb_false_r. reflexivity.
Qed.

Lemma mem_string_keys (d : dict) (k : string) :
  mem_string k (dict_keys d) = dict_has d k.
Proof.
  unfold mem_string, dict_has, dict_keys.
  induction d as [|[k0 v0] d IH]; simpl.
  - reflexivity.
  - rewrite (String.eqb_sym k k0). destruct (String.eqb k0 k); [reflexivity|exact IH].
Qed.

Lemma dict_keys_set (d : dict) (k : string) (v : value) :
  dict_keys (dict_set d k v) =
  if dict_has d k then dict_keys d else dict_keys d ++ [k].
Proof.
  unfold dict_has, dict_keys.
  induction d as [|[k0 v0] d IH]; simpl.
  - reflexivity.
  - destruct (String.eqb k0 k); simpl; [reflexivity|].
    rewrite IH. destruct (dict_get d k); reflexivity.
Qed.

Lemma dict_has_In (d : dict) (k : string) :
  dict_has d k = false -> ~ In k (dict_keys d).
Proof.
  intros H Hin. apply mem_string_In in Hin.
  rewrite mem_string_keys in Hin. congruence.
Qed.

Lemma NoDup_keys_set (d : dict) (k : string) (v : value) :
  NoDup (dict_keys d) -> NoDup (dict_keys (dict_set d k v)).
Proof.
  intros H. rewrite dict_keys_set.
  destruct (dict_has d k) eqn:E; [exact H|].
  apply NoDup_app; [exact H|repeat constructor; intros []|].
  intros x Hx [Hk|[]]. subst x. exact (dict_has_In d k E Hx).
Qed.

Lemma dict_restrict_fold (args : dict) (keys : list string) (acc : dict) (k : string) :
  dict_get
    (fold_left
       (fun acc arg =>
          dict_set acc arg (match dict_get args arg with Some v => v | None => VNone end))
       keys acc) k =
  if mem_string k keys then Some (getv args k) else dict_get acc k.
Proof.
  unfold mem_string. revert acc.
  induction keys as [|x keys IH]; intros acc.
  - reflexivity.
  - cbn [fold_left existsb]. rewrite IH.
    destruct (existsb (String.eqb k) keys).
    + rewrite orb_true_r. reflexivity.
    + rewrite orb_false_r, dict_get_set, (String.eqb_sym k x).
      destruct (String.eqb_spec x k) as [->|_]; reflexivity.
Qed.

Lemma dict_get_restrict (args : dict) (keys : list string) (k : string) :
  dict_get (dict_restrict args keys) k =
  if mem_string k keys then Some (getv args k) else None.
Proof. unfold dict_restrict. apply dict_restrict_fold. Qed.

Lemma NoDup_keys_restrict (args : dict) (keys : list string) :
  NoDup (dict_keys (dict_restrict args keys)).
Proof.
  unfold dict_restrict.
  assert (H : NoDup (dict_keys [])) by constructor.
  revert H. generalize (@nil (string * value)).
  induction keys as [|x keys IH]; intros acc H.
  - exact H.
  - cbn [fold_left]. apply IH. apply NoDup_keys_set. exact H.
Qed.

Lemma dict_get_absent (d : dict) (k : string) :
  ~ In k (dict_keys d) -> dict_get d k = None.
Proof.
  induction d as [|[k0 v0] d IH]; simpl; intros H.
  - reflexivity.
  - destruct (String.eqb_spec k0 k) as [->|_].
    + exfalso. apply H. left. reflexivity.
    + apply IH. intros Hin. apply H. right. exact Hin.
Qed.

(** [d.update(e)], key by key, when [e] has no key twice. *)
Lemma dict_get_update (e d : dict) (k : string) :
  NoDup (dict_keys e) ->
  dict_get (dict_update d e) k =
  match dict_get e k with Some v => Some v | None => dict_get d k end.
Proof.
  unfold dict_update. revert d.
  induction e as [|[k0 v0] e IH]; intros d H.
  - reflexivity.
  - cbn [fold_left fst snd]. inversion H as [|? ? Hnot Hnd]; subst.
    rewrite IH by exact Hnd. cbn [dict_get].
    rewrite dict_get_set.
    destruct (String.eqb_spec k0 k) as [->|_].
    + rewrite (dict_get_absent e k Hnot). reflexivity.
    + reflexivity.
Qed.

(** [handle_resp_proc_args] on a plain function: a partial of it, with
    the entries of [resp_proc_args] that it accepts and nothing else. *)
Lemma handle_resp_proc_args_plain (proc : processor) (args : dict) :
  proc_keywords proc = None ->
  exists p,
    handle_resp_proc_args proc args = Ok p /\
    proc_body p = proc_body proc /\
    proc_params p = proc_params proc /\
    forall k, dict_get (bound_keywords p) k =
              if mem_string k (proc_params proc) then dict_get args k else None.
Proof.
  intros Hplain. destruct args as [|kv args'] eqn:Eargs.
  - exists proc. repeat split. intros k. unfold bound_keywords. rewrite Hplain.
    destruct (mem_string k (proc_params proc)); reflexivity.
  - rewrite <- Eargs.
    exists (partial proc
              (dict_restrict args
                 (filter (fun k => mem_string k (proc_params proc)) (dict_keys args)))).
    repeat split.
    + rewrite Eargs. cbn [handle_resp_proc_args]. rewrite Hplain. reflexivity.
    + intros k. unfold partial, bound_keywords at 1. cbn [proc_keywords].
      rewrite dict_get_update by apply NoDup_keys_restrict.
      rewrite dict_get_restrict, mem_string_filter, mem_string_keys.
      unfold bound_keywords. rewrite Hplain. cbn [dict_get].
      unfold dict_has, getv.
      destruct (dict_get args k); destruct (mem_string k (proc_params proc)); reflexivity.
Qed.

(** [handle_resp_proc_args] on a [functools.partial]: it is handed back
    when [resp_proc_args] is empty, and [TypeError] is raised otherwise. *)
Lemma handle_resp_proc_args_partial (proc : processor) (kw args : dict) :
  proc_keywords proc = Some kw ->
  handle_resp_proc_args proc args =
  match args with [] => Ok proc | _ :: _ => Raise TypeError end.
Proof.
  intros Hkw. destruct args as [|kv args']; [reflexivity|].
  cbn [handle_resp_proc_args]. rewrite Hkw. reflexivity.
Qed.

(** The loop over [RESP_PROC_ARGS], which holds [resource_name] alone. *)
Lemma resolve_missing_eq (f_attrs self_attrs args : dict) :
  resolve_missing f_attrs self_attrs args =
  if dict_has args RESOURCE_NAME then args
  else
    match resolve_attr f_attrs self_attrs RESOURCE_NAME with
    | Ok v => dict_set args RESOURCE_NAME v
    | Raise _ => args
    end.
Proof.
  unfold resolve_missing, RESP_PROC_ARGS. cbn [filter].
  destruct (dict_has args RESOURCE_NAME); reflexivity.
Qed.

(** C4 (the claim fails): the processor accepts the parameter [key]; no
    call and no partial application supplies it, the method has no such
    attribute and the endpoint object has [key = "person"]. By the stated
    precedence the endpoint attribute is the value; the code looks up
    attributes for the names of [RESP_PROC_ARGS] only, so the parameter is
    left out and the processor answers with its own default. *)
Lemma endpoint_attribute_not_consulted :
  spec_precedence
    (dict_get [] "key")
    (dict_get (bound_keywords has_key) "key")
    (dict_get [] "key")
    (dict_get [("resource_name", VStr "person"); ("key", VStr "person")] "key")
    = Some (VStr "person") /\
  resolved has_key [] []
    [("resource_name", VStr "person"); ("key", VStr "person")] "key" = Ok None /\
  fst (handle_resp_proc no_iter (RPOne has_key) [] (fun _ => Ok person_response)
         [("resource_name", VStr "person"); ("key", VStr "person")] None [] rstate0)
    = Ok (VBool false).
Proof. repeat split; reflexivity. Qed.

(** C4 (amended). The processor is a plain function, not a partial. For
    a parameter that it accepts, the value its function receives is the
    first present of: the entry of the decorator's [resp_proc_args]; and,
    for the names of [RESP_PROC_ARGS] (that is [resource_name]), the
    attribute of the wrapped method, then the attribute of the endpoint
    object, on an endpoint object that has the attribute whenever the
    method has it. With none present the parameter is left out, which is
    no error. *)
Theorem processor_argument_precedence (proc : processor)
    (args f_attrs self_attrs : dict) (param : string) :
  proc_keywords proc = None ->
  mem_string param (proc_params proc) = true ->
  (dict_has f_attrs param = true -> dict_has self_attrs param = true) ->
  resolved proc args f_attrs self_attrs param =
  Ok (code_precedence args f_attrs self_attrs param).
Proof.
  intros Hplain Hp Hslip. unfold resolved, code_precedence.
  destruct (handle_resp_proc_args_plain proc
              (resolve_missing f_attrs self_attrs args) Hplain)
    as (p & Hfreeze & _ & _ & Hget).
  rewrite Hfreeze. cbn [bind]. rewrite Hget, Hp. f_equal.
  rewrite resolve_missing_eq.
  unfold RESP_PROC_ARGS, mem_string. cbn [existsb]. rewrite orb_false_r.
  destruct (String.eqb_spec param RESOURCE_NAME) as [->|Hne].
  - unfold dict_has in *. unfold resolve_attr.
    destruct (dict_get args RESOURCE_NAME) as [v|] eqn:Ea; [exact Ea|].
    destruct (dict_get self_attrs RESOURCE_NAME) as [dflt|].
    + rewrite dict_get_set, String.eqb_refl.
      destruct (dict_get f_attrs RESOURCE_NAME); reflexivity.
    + rewrite Ea.
      destruct (dict_get f_attrs RESOURCE_NAME) as [m|]; [|reflexivity].
      specialize (Hslip eq_refl). discriminate.
  - assert (Hother : forall v,
              dict_get (dict_set args RESOURCE_NAME v) param = dict_get args param).
    { intros v. rewrite dict_get_set.
      destruct (String.eqb_spec RESOURCE_NAME param) as [E|_]; [congruence|reflexivity]. }
    destruct (dict_has args RESOURCE_NAME).
    + destruct (dict_get args param); reflexivity.
    + destruct (resolve_attr f_attrs self_attrs RESOURCE_NAME); [rewrite Hother|];
        destruct (dict_get args param); reflexivity.
Qed.

Lemma processor_argument_precedence_witness :
  resolved (payload_filter None None) [] [("resource_name", VStr "results")]
    [("resource_name", VStr "person")] RESOURCE_NAME =
  Ok (code_precedence [] [("resource_name", VStr "results")]
        [("resource_name", VStr "person")] RESOURCE_NAME).
Proof.
  apply (processor_argument_precedence (payload_filter None None) []
           [("resource_name", VStr "results")] [("resource_name", VStr "person")]
           RESOURCE_NAME); reflexivity.
Defined.

(** C5 (the claim fails): the caller turns processing off with
    [resp_proc=None] and the wrapped call gives a list with a falsy element;
    the raw list is returned and no error is logged. *)
Lemma unprocessed_batch_not_logged :
  forallb truthy failed_batch = false /\
  handle_resp_proc no_iter (RPOne resp_bool) [] (fun _ => Ok (VList failed_batch))
    [("resource_name", VStr "person")] (Some RPNone) [] rstate0
    = (Ok (VList failed_batch), rstate0) /\
  rlog rstate0 = [].
Proof. repeat split; reflexivity. Qed.

(** C5 (amended). With a response processor in effect, when the wrapped
    call gives a list with a falsy element, no processor is applied, one
    [ERROR] record is logged, and the list is returned as it is. *)
Theorem failed_batch_returned_raw (iter_object : value -> result (list value))
    (resp_proc_dflt : resp_proc_t) (f_attrs : dict) (f : dict -> result value)
    (self_attrs : dict) (resp_proc_kw : option resp_proc_t) (kwargs : dict)
    (st : rstate) (items : list value) :
  f kwargs = Ok (VList items) ->
  forallb truthy items = false ->
  rp_truthy (match resp_proc_kw with Some rp => rp | None => resp_proc_dflt end) = true ->
  fst (handle_resp_proc iter_object resp_proc_dflt f_attrs f self_attrs
         resp_proc_kw kwargs st) = Ok (VList items) /\
  rlog (snd (handle_resp_proc iter_object resp_proc_dflt f_attrs f self_attrs
               resp_proc_kw kwargs st))
    = rlog st ++ [logger_error NOT_ALL_SUCCESSFUL].
Proof.
  intros Hf Hall Hrp. unfold handle_resp_proc. rewrite Hf, Hrp.
  assert (Ht : truthy (VList items) = true).
  { destruct items; [discriminate|reflexivity]. }
  rewrite Ht. cbn [andb]. rewrite Hall. split; reflexivity.
Qed.

Lemma failed_batch_returned_raw_witness :
  fst (handle_resp_proc no_iter (RPOne resp_bool) [] (fun _ => Ok (VList failed_batch))
         [("resource_name", VStr "person")] None [] rstate0)
    = Ok (VList failed_batch) /\
  rlog (snd (handle_resp_proc no_iter (RPOne resp_bool) []
               (fun _ => Ok (VList failed_batch))
               [("resource_name", VStr "person")] None [] rstate0))
    = rlog rstate0 ++ [logger_error NOT_ALL_SUCCESSFUL].
Proof.
  apply (failed_batch_returned_raw no_iter (RPOne resp_bool) []
           (fun _ => Ok (VList failed_batch)) [("resource_name", VStr "person")]
           None [] rstate0 failed_batch); reflexivity.
Defined.

Lemma handle_resp_proc_args_state iter_object resp_proc_dflt (i : invocation) (st : rstate) :
  resp_proc_args (snd (invoke iter_object resp_proc_dflt i st)) =
  if processed resp_proc_dflt i
  then resolve_missing (inv_f_attrs i) (inv_self i) (resp_proc_args st)
  else resp_proc_args st.
Proof.
  unfold invoke, handle_resp_proc, processed.
  destruct (inv_f i (inv_kwargs i)) as [res|e]; [|reflexivity].
  destruct (rp_truthy _ && truthy res); [|reflexivity].
  destruct res; try reflexivity.
  destruct (forallb truthy l); reflexivity.
Qed.

Lemma resolve_missing_stored (f_attrs self_attrs args : dict) :
  dict_has args RESOURCE_NAME = true ->
  resolve_missing f_attrs self_attrs args = args.
Proof. intros H. rewrite resolve_missing_eq, H. reflexivity. Qed.

Lemma invoke_all_stored iter_object resp_proc_dflt (invs : list invocation) (st : rstate) :
  dict_has (resp_proc_args st) RESOURCE_NAME = true ->
  resp_proc_args (invoke_all iter_object resp_proc_dflt invs st) = resp_proc_args st.
Proof.
  unfold invoke_all. revert st.
  induction invs as [|i invs IH]; intros st H; cbn [fold_left].
  - reflexivity.
  - assert (E : resp_proc_args (snd (invoke iter_object resp_proc_dflt i st))
                = resp_proc_args st).
    { rewrite handle_resp_proc_args_state.
      destruct (processed resp_proc_dflt i); [|reflexivity].
      apply resolve_missing_stored. exact H. }
    rewrite IH; [exact E|]. rewrite E. exact H.
Qed.

(** C9 (the claim fails): the first processed invocation is on an endpoint
    object without [resource_name]; the lookup raises [AttributeError],
    nothing is stored and the processor gets the whole body. The second
    invocation, on an object that has [resource_name = "person"], runs the
    lookup again and uses that object's attribute. *)
Lemma failed_lookup_is_repeated :
  processed (RPOne (payload_filter None None)) (people_get person_body []) = true /\
  invoke no_iter (RPOne (payload_filter None None)) (people_get person_body []) rstate0
    = (Ok person_body, rstate0) /\
  invoke no_iter (RPOne (payload_filter None None))
    (people_get person_body [("resource_name", VStr "person")])
    (snd (invoke no_iter (RPOne (payload_filter None None))
            (people_get person_body []) rstate0))
    = (Ok (VDict [("id", VInt 1)]),
       {| resp_proc_args := [("resource_name", VStr "person")]; rlog := [] |}).
Proof. repeat split; reflexivity. Qed.

(** C9 (amended). The decorator was given no [resource_name]. Once a
    processed invocation has looked the attribute up with success, the
    value [v] it found is stored in the shared [resp_proc_args]; after any
    further invocations, on whatever endpoint objects and with whatever
    attributes, the dictionary is still that one, and an invocation does not
    look the attribute up again: a processor that is a plain function
    taking [resource_name] gets [v]. *)
Theorem resolved_resource_name_is_reused (iter_object : value -> result (list value))
    (resp_proc_dflt : resp_proc_t) (first : invocation) (st : rstate) (v : value)
    (later : list invocation) (i : invocation) :
  dict_has (resp_proc_args st) RESOURCE_NAME = false ->
  processed resp_proc_dflt first = true ->
  resolve_attr (inv_f_attrs first) (inv_self first) RESOURCE_NAME = Ok v ->
  resp_proc_args (snd (invoke iter_object resp_proc_dflt first st))
    = dict_set (resp_proc_args st) RESOURCE_NAME v /\
  resp_proc_args
    (invoke_all iter_object resp_proc_dflt later
       (snd (invoke iter_object resp_proc_dflt first st)))
    = dict_set (resp_proc_args st) RESOURCE_NAME v /\
  resolve_missing (inv_f_attrs i) (inv_self i)
    (resp_proc_args
       (invoke_all iter_object resp_proc_dflt later
          (snd (invoke iter_object resp_proc_dflt first st))))
    = dict_set (resp_proc_args st) RESOURCE_NAME v /\
  (forall proc,
     proc_keywords proc = None ->
     mem_string RESOURCE_NAME (proc_params proc) = true ->
     resolved proc
       (resp_proc_args
          (invoke_all iter_object resp_proc_dflt later
             (snd (invoke iter_object resp_proc_dflt first st))))
       (inv_f_attrs i) (inv_self i) RESOURCE_NAME = Ok (Some v)).
Proof.
  intros Hno Hproc Hv.
  assert (E1 : resp_proc_args (snd (invoke iter_object resp_proc_dflt first st))
               = dict_set (resp_proc_args st) RESOURCE_NAME v).
  { rewrite handle_resp_proc_args_state, Hproc, resolve_missing_eq, Hno, Hv.
    reflexivity. }
  assert (Hhas : dict_has (dict_set (resp_proc_args st) RESOURCE_NAME v) RESOURCE_NAME
                 = true).
  { rewrite dict_has_set, String.eqb_refl. reflexivity. }
  assert (E2 : resp_proc_args
                 (invoke_all iter_object resp_proc_dflt later
                    (snd (invoke iter_object resp_proc_dflt first st)))
               = dict_set (resp_proc_args st) RESOURCE_NAME v).
  { rewrite invoke_all_stored; [exact E1|]. rewrite E1. exact Hhas. }
  repeat split.
  - exact E1.
  - exact E2.
  - rewrite E2. apply resolve_missing_stored. exact Hhas.
  - intros proc Hplain Hp. unfold resolved.
    rewrite E2, resolve_missing_stored by exact Hhas.
    destruct (handle_resp_proc_args_plain proc
                (dict_set (resp_proc_args st) RESOURCE_NAME v) Hplain)
      as (p & Hfreeze & _ & _ & Hget).
    rewrite Hfreeze. cbn [bind].
    rewrite Hget, Hp, dict_get_set, String.eqb_refl. reflexivity.
Qed.

Lemma resolved_resource_name_is_reused_witness :
  resp_proc_args
    (snd (invoke no_iter (RPOne (payload_filter None None))
            (people_get person_body [("resource_name", VStr "person")]) rstate0))
    = dict_set (resp_proc_args rstate0) RESOURCE_NAME (VStr "person") /\
  resp_proc_args
    (invoke_all no_iter (RPOne (payload_filter None None))
       [people_get person_body [("resource_name", VStr "precinct")]]
       (snd (invoke no_iter (RPOne (payload_filter None None))
               (people_get person_body [("resource_name", VStr "person")]) rstate0)))
    = dict_set (resp_proc_args rstate0) RESOURCE_NAME (VStr "person") /\
  resolve_missing
    (inv_f_attrs (people_get person_body [("resource_name", VStr "precinct")]))
    (inv_self (people_get person_body [("resource_name", VStr "precinct")]))
    (resp_proc_args
       (invoke_all no_iter (RPOne (payload_filter None None))
          [people_get person_body [("resource_name", VStr "precinct")]]
          (snd (invoke no_iter (RPOne (payload_filter None None))
                  (people_get person_body [("resource_name", VStr "person")]) rstate0))))
    = dict_set (resp_proc_args rstate0) RESOURCE_NAME (VStr "person") /\
  (forall proc,
     proc_keywords proc = None ->
     mem_string RESOURCE_NAME (proc_params proc) = true ->
     resolved proc
       (resp_proc_args
          (invoke_all no_iter (RPOne (payload_filter None None))
             [people_get person_body [("resource_name", VStr "precinct")]]
             (snd (invoke no_iter (RPOne (payload_filter None None))
                     (people_get person_body [("resource_name", VStr "person")])
                     rstate0))))
       (inv_f_attrs (people_get person_body [("resource_name", VStr "precinct")]))
       (inv_self (people_get person_body [("resource_name", VStr "precinct")]))
       RESOURCE_NAME = Ok (Some (VStr "person"))).
Proof.
  apply (resolved_resource_name_is_reused no_iter (RPOne (payload_filter None None))
           (people_get person_body [("resource_name", VStr "person")]) rstate0
           (VStr "person")
           [people_get person_body [("resource_name", VStr "precinct")]]
           (people_get person_body [("resource_name", VStr "precinct")]));
    reflexivity.
Defined.

(** ** Capital redemption *)

Lemma dict_set_set (d : dict) (k : string) (v v' : value) :
  dict_set (dict_set d k v) k v' = dict_set d k v'.
Proof.
  induction d as [|[k0 v0] d IH]; simpl.
  - rewrite String.eqb_refl. reflexivity.
  - destruct (String.eqb k0 k) eqn:E; simpl; rewrite E; [reflexivity|].
    rewrite IH. reflexivity.
Qed.

Lemma filter_rules_below (n : nat) (rules : list price_rule) :
  Forall (fun x => rule_id x < n) rules ->
  filter (fun x => negb (rule_id x =? n)%nat) rules = rules.
Proof.
  induction 1 as [|x rules Hx _ IH]; simpl.
  - reflexivity.
  - destruct (Nat.eqb_spec (rule_id x) n); [lia|]. simpl. rewrite IH. reflexivity.
Qed.

Lemma filter_codes_below (n : nat) (codes : list (nat * string)) :
  Forall (fun c => fst c < n) codes ->
  filter (fun c => negb (fst c =? n)%nat) codes = codes.
Proof.
  induction 1 as [|x codes Hx _ IH]; simpl.
  - reflexivity.
  - destruct (Nat.eqb_spec (fst x) n); [lia|]. simpl. rewrite IH. reflexivity.
Qed.

(** Running the handler when its two calls succeed. *)
Ltac run_rollback Hd Hr :=
  unfold rollback, destroy_rule, update_pending; rewrite ?Hd, Hr;
  unfold without_rule, set_pending; cbn; rewrite dict_set_set.

(** The rule and the code of this run are dropped by [destroy]. *)
Ltac drop_new_rule :=
  rewrite ?filter_app; cbn; rewrite Nat.eqb_refl; cbn; rewrite ?app_nil_r.

(** The handler, entered from any failure of the exchange, when its own
    two calls succeed: the rule of this run is gone with its code, no
    capital entry was added, the pending field is written back, and the
    exception is raised again. *)
Lemma rollback_after_exchange (env : environment) (redemption : float) (w w2 : world)
    (e : exn) (bound : option price_rule) :
  exchange env redemption (set_pending env VNone w) = (Raise e, bound, w2) ->
  faults env DestroyRule = None ->
  faults env RestorePending = None ->
  exists n,
    rollback env e redemption bound w2 =
      (Raise e,
       {| nb_person := dict_set (nb_person w) (SHOP_PENDING_FIELD env) (VFloat redemption);
          nb_capitals := nb_capitals w;
          shop_rules := shop_rules (without_rule bound w);
          shop_codes := shop_codes (without_rule bound w);
          next_rule_id := n |}) /\
    forall rule, bound = Some rule -> rule_id rule = next_rule_id w.
Proof.
  intros Hex Hd Hr.
  unfold exchange, create_rule in Hex.
  destruct (faults env BuildRule) as [e0|] eqn:F0.
  { inversion Hex; subst. exists (next_rule_id w).
    run_rollback Hd Hr. split; [reflexivity|discriminate]. }
  destruct (faults env CreateRule) as [e1|] eqn:F1.
  { inversion Hex; subst. exists (next_rule_id w).
    run_rollback Hd Hr. split; [reflexivity|discriminate]. }
  unfold add_discount_code in Hex.
  destruct (faults env AddDiscountCode) as [e2|] eqn:F2.
  { inversion Hex; subst. exists (S (next_rule_id w)).
    run_rollback Hd Hr. drop_new_rule.
    split; [reflexivity|]. intros rule H. inversion H. reflexivity. }
  unfold add_capital in Hex.
  destruct (faults env AddCapital) as [e3|] eqn:F3.
  { inversion Hex; subst. exists (S (next_rule_id w)).
    run_rollback Hd Hr. drop_new_rule.
    split; [reflexivity|]. intros rule H. inversion H. reflexivity. }
  discriminate.
Qed.

(** In a shop whose rules and codes all have identifiers below the next
    one, destroying the rule of this run leaves the shop as it was. *)
Lemma without_rule_fresh (bound : option price_rule) (w : world) :
  (forall rule, bound = Some rule -> rule_id rule = next_rule_id w) ->
  Forall (fun x => rule_id x < next_rule_id w) (shop_rules w) ->
  Forall (fun c => fst c < next_rule_id w) (shop_codes w) ->
  shop_rules (without_rule bound w) = shop_rules w /\
  shop_codes (without_rule bound w) = shop_codes w.
Proof.
  intros Hid Hrules Hcodes. destruct bound as [rule|]; [|split; reflexivity].
  cbn. rewrite (Hid rule eq_refl).
  rewrite filter_rules_below by exact Hrules.
  rewrite filter_codes_below by exact Hcodes.
  split; reflexivity.
Qed.

(** C7 (the claim fails): the guard has passed, the rule and its code
    are created, and [add_capital] raises [HTTPError 500]; in the handler
    [price_rule.destroy()] raises [HTTPError 404]. The rule and its code
    stay in the shop, and the task raises the 404 of [destroy], not the
    exception of the exchange. *)
Lemma failed_destroy_is_not_rolled_back :
  fst (exchange (example_env destroy_fails) 5%float
         (set_pending (example_env destroy_fails) VNone (example_world (VInt 5))))
    = (Raise (HTTPError 500),
       Some {| rule_id := 0; rule_title := "NB_1_K3Q9ZT0AXB";
               rule_value := (-5)%float |}) /\
  fst (create_discount (example_env destroy_fails) (example_world (VInt 5)))
    = Raise (HTTPError 404) /\
  shop_rules (snd (create_discount (example_env destroy_fails) (example_world (VInt 5))))
    = [ {| rule_id := 0; rule_title := "NB_1_K3Q9ZT0AXB"; rule_value := (-5)%float |} ] /\
  shop_codes (snd (create_discount (example_env destroy_fails) (example_world (VInt 5))))
    = [(0, "NB_1_K3Q9ZT0AXB")].
Proof. repeat split; vm_compute; reflexivity. Qed.

(** C7 (amended). The guard has passed and the exchange raises [e]. With
    the two calls of the handler succeeding, [create_discount] raises [e]
    again, the price rule of this run, if one was created, is no longer in
    the shop, no capital has been deducted, and the pending field holds the
    redemption amount. *)
Theorem failed_exchange_is_rolled_back (env : environment) (w w2 : world)
    (person : value) (redemption capital : float) (e : exn)
    (bound : option price_rule) :
  get_person env w = Ok person ->
  faults env ClearPending = None ->
  amounts env person = Ok (redemption, capital) ->
  redemption_guard redemption capital = true ->
  exchange env redemption (set_pending env VNone w) = (Raise e, bound, w2) ->
  faults env DestroyRule = None ->
  faults env RestorePending = None ->
  fst (create_discount env w) = Raise e /\
  (forall rule, bound = Some rule -> ~ In rule (shop_rules (snd (create_discount env w)))) /\
  (bound = None -> shop_rules (snd (create_discount env w)) = shop_rules w) /\
  nb_capitals (snd (create_discount env w)) = nb_capitals w /\
  nb_person (snd (create_discount env w))
    = dict_set (nb_person w) (SHOP_PENDING_FIELD env) (VFloat redemption).
Proof.
  intros Hget Hclear Ham Hguard Hex Hd Hr.
  destruct (rollback_after_exchange env redemption w w2 e bound Hex Hd Hr)
    as (n & Hroll & Hid).
  unfold create_discount, update_pending.
  rewrite Hget, Hclear, Ham, Hguard, Hex, Hroll.
  cbn [fst snd shop_rules nb_capitals nb_person].
  repeat split.
  - intros rule Hb Hin. subst bound. cbn in Hin.
    apply filter_In in Hin. destruct Hin as [_ Hin].
    rewrite Nat.eqb_refl in Hin. discriminate.
  - intros ->. reflexivity.
Qed.

(** The same failure in a shop whose identifiers are all below the next
    one: rules and codes are exactly those from before the task. *)
Lemma failed_exchange_restores_shop (env : environment) (w w2 : world)
    (person : value) (redemption capital : float) (e : exn)
    (bound : option price_rule) :
  get_person env w = Ok person ->
  faults env ClearPending = None ->
  amounts env person = Ok (redemption, capital) ->
  redemption_guard redemption capital = true ->
  exchange env redemption (set_pending env VNone w) = (Raise e, bound, w2) ->
  faults env DestroyRule = None ->
  faults env RestorePending = None ->
  Forall (fun x => rule_id x < next_rule_id w) (shop_rules w) ->
  Forall (fun c => fst c < next_rule_id w) (shop_codes w) ->
  shop_rules (snd (create_discount env w)) = shop_rules w /\
  shop_codes (snd (create_discount env w)) = shop_codes w.
Proof.
  intros Hget Hclear Ham Hguard Hex Hd Hr Hrules Hcodes.
  destruct (rollback_after_exchange env redemption w w2 e bound Hex Hd Hr)
    as (n & Hroll & Hid).
  unfold create_discount, update_pending.
  rewrite Hget, Hclear, Ham, Hguard, Hex, Hroll.
  cbn [snd shop_rules shop_codes].
  apply without_rule_fresh; assumption.
Qed.

(** C8 (amended). The redemption is not above zero, or not within the
    capital: [create_discount] returns without raising; no price rule and no
    discount code is created and no capital entry is added; of the person,
    the pending field alone has changed: it was set to [None] before the
    guard and stays so. *)
Theorem rejected_redemption_only_clears_pending (env : environment) (w : world)
    (person : value) (redemption capital : float) :
  get_person env w = Ok person ->
  faults env ClearPending = None ->
  amounts env person = Ok (redemption, capital) ->
  PrimFloat.ltb 0%float redemption = false \/ PrimFloat.leb redemption capital = false ->
  fst (create_discount env w) = Ok tt /\
  shop_rules (snd (create_discount env w)) = shop_rules w /\
  shop_codes (snd (create_discount env w)) = shop_codes w /\
  nb_capitals (snd (create_discount env w)) = nb_capitals w /\
  nb_person (snd (create_discount env w))
    = dict_set (nb_person w) (SHOP_PENDING_FIELD env) VNone.
Proof.
  intros Hget Hclear Ham Hguard.
  assert (G : redemption_guard redemption capital = false).
  { unfold redemption_guard. destruct Hguard as [-> | ->];
      [reflexivity|apply andb_false_r]. }
  unfold create_discount, update_pending.
  rewrite Hget, Hclear, Ham, G. repeat split.
Qed.

(** C8 (the claim fails): a redemption of 50 against a capital of 10.00
    is rejected by the guard, and yet the person is not as before: the
    pending field, 50 at the start, is [None] at the end. *)
Lemma rejected_redemption_changes_person :
  fst (create_discount (example_env no_fault) (example_world (VInt 50))) = Ok tt /\
  dict_get (nb_person (example_world (VInt 50))) "capital_redemption" = Some (VInt 50) /\
  dict_get
    (nb_person (snd (create_discount (example_env no_fault) (example_world (VInt 50)))))
    "capital_redemption" = Some VNone.
Proof. repeat split; vm_compute; reflexivity. Qed.

Lemma rejected_redemption_only_clears_pending_witness :
  fst (create_discount (example_env no_fault) (example_world (VInt 50))) = Ok tt /\
  shop_rules (snd (create_discount (example_env no_fault) (example_world (VInt 50))))
    = shop_rules (example_world (VInt 50)) /\
  shop_codes (snd (create_discount (example_env no_fault) (example_world (VInt 50))))
    = shop_codes (example_world (VInt 50)) /\
  nb_capitals (snd (create_discount (example_env no_fault) (example_world (VInt 50))))
    = nb_capitals (example_world (VInt 50)) /\
  nb_person (snd (create_discount (example_env no_fault) (example_world (VInt 50))))
    = dict_set (nb_person (example_world (VInt 50)))
        (SHOP_PENDING_FIELD (example_env no_fault)) VNone.
Proof.
  apply (rejected_redemption_only_clears_pending (example_env no_fault)
           (example_world (VInt 50))
           (VDict [("capital_amount_in_cents", VInt 1000);
                   ("capital_redemption", VInt 50)])
           50%float 10%float).
  - reflexivity.
  - reflexivity.
  - vm_compute. reflexivity.
  - right. vm_compute. reflexivity.
Defined.

Lemma failed_exchange_is_rolled_back_witness :
  fst (create_discount (example_env add_capital_fails) (example_world (VInt 5)))
    = Raise (HTTPError 500) /\
  (forall rule,
     Some {| rule_id := 0; rule_title := "NB_1_K3Q9ZT0AXB";
             rule_value := PrimFloat.opp 5%float |} = Some rule ->
     ~ In rule
         (shop_rules
            (snd (create_discount (example_env add_capital_fails)
                    (example_world (VInt 5)))))) /\
  (Some {| rule_id := 0; rule_title := "NB_1_K3Q9ZT0AXB";
           rule_value := PrimFloat.opp 5%float |} = None ->
   shop_rules (snd (create_discount (example_env add_capital_fails) (example_world (VInt 5))))
     = shop_rules (example_world (VInt 5))) /\
  nb_capitals (snd (create_discount (example_env add_capital_fails) (example_world (VInt 5))))
    = nb_capitals (example_world (VInt 5)) /\
  nb_person (snd (create_discount (example_env add_capital_fails) (example_world (VInt 5))))
    = dict_set (nb_person (example_world (VInt 5)))
        (SHOP_PENDING_FIELD (example_env add_capital_fails)) (VFloat 5%float).
Proof.
  apply (failed_exchange_is_rolled_back (example_env add_capital_fails)
           (example_world (VInt 5))
           {| nb_person := [("id", VInt 1);
                            ("capital_amount_in_cents", VInt 1000);
                            ("capital_redemption", VNone)];
              nb_capitals := [];
              shop_rules := [ {| rule_id := 0; rule_title := "NB_1_K3Q9ZT0AXB";
                                 rule_value := PrimFloat.opp 5%float |} ];
              shop_codes := [(0, "NB_1_K3Q9ZT0AXB")];
              next_rule_id := 1 |}
           (VDict [("capital_amount_in_cents", VInt 1000);
                   ("capital_redemption", VInt 5)])
           5%float 10%float (HTTPError 500)).
  - reflexivity.
  - reflexivity.
  - vm_compute. reflexivity.
  - vm_compute. reflexivity.
  - vm_compute. reflexivity.
  - reflexivity.
  - reflexivity.
Defined.

(** ** More on pagination *)



Lemma dict_has_remove_other (d : dict) (k k' : string) :
  k <> k' -> dict_has (dict_remove d k) k' = dict_has d k'.
Proof. intros H. unfold dict_has. rewrite dict_get_remove_other by exact H. reflexivity. Qed.






(** Collecting, with the requests spelled out. The pages [ps] all carry a
    link and the loop stops after them because [max_resps] is reached. *)
Lemma collect_up_to_max parse_next f (ps : list value) :
  forall fuel kwargs resps w,
    forallb (has_cursor parse_next) ps = true ->
    serves f (List.length (requests w)) ps ->
    List.length ps < fuel ->
    collect parse_next f fuel (VInt (Z.of_nat (List.length resps + List.length ps)))
      kwargs resps w =
      (Returned (VList (resps ++ ps)),
       {| requests := requests w ++ cursor_chain parse_next kwargs ps; log := log w |}).
Proof.
  induction ps as [|p rest IH]; intros fuel kwargs resps w Hl Hs Hf.
  - destruct fuel as [|fuel]; [lia|]. cbn [collect len_differs List.length].
    rewrite Nat.add_0_r, Z.eqb_refl. cbn. rewrite !app_nil_r. destruct w; reflexivity.
  - destruct fuel as [|fuel]; [simpl in Hf; lia|].
    cbn [collect len_differs].
    destruct (Z.eqb_spec (Z.of_nat (List.length resps))
                (Z.of_nat (List.length resps + List.length (p :: rest)))) as [E|_];
      [simpl in E; lia|]. cbn [negb].
    unfold call_f. rewrite (serves_head _ _ _ _ Hs).
    cbn [forallb] in Hl. apply andb_prop in Hl. destruct Hl as [Hp Hl].
    destruct (has_cursor_inv _ _ Hp) as (Hv & Ht & Hq).
    rewrite Hv, Ht, Hq.
    specialize (IH fuel (dict_update kwargs (cursor_of parse_next p)) (resps ++ [p])
                  {| requests := requests w ++ [kwargs]; log := log w |} Hl).
    replace (List.length (resps ++ [p]) + List.length rest)
      with (List.length resps + List.length (p :: rest)) in IH
      by (rewrite length_app; simpl; lia).
    rewrite IH.
    + cbn [requests log cursor_chain]. rewrite <- !app_assoc. reflexivity.
    + cbn [requests]. rewrite length_app, Nat.add_comm. apply (serves_tail _ _ _ _ Hs).
    + simpl in Hf. lia.
Qed.




Lemma example_two_pages_served : serves three_pages 0 [page1; page2].
Proof.
  intros [|[|k]] kw resp H; simpl in H;
    try (destruct k; discriminate); inversion H; reflexivity.
Qed.





(** X3. [max_resps] counts page fetches: a collecting call with
    [max_resps = n] whose first [n] pages all carry a [next] link that
    [urlparse] reads makes exactly [n] requests and its body ends with
    exactly those [n] pages, nothing logged; with [max_resps = 0] no
    request is made and the list is empty. *)
Theorem collecting_stops_at_max_resps parse_next f (ps : list value)
    (kwargs : dict) (fuel : nat) :
  streaming kwargs = false ->
  max_resps_of kwargs = VInt (Z.of_nat (List.length ps)) ->
  forallb (has_cursor parse_next) ps = true ->
  serves f 0 ps ->
  List.length ps < fuel ->
  gen_next parse_next f fuel (GenCreated kwargs) pworld0 =
    (Returned (VList ps), GenClosed,
     {| requests := cursor_chain parse_next (collect_kwargs kwargs) ps; log := [] |}) /\
  List.length (cursor_chain parse_next (collect_kwargs kwargs) ps) = List.length ps.
Proof.
  intros Hs Hm Hl Hsv Hf. split.
  - rewrite gen_next_created_collecting by exact Hs.
    fold (collect_kwargs kwargs). rewrite Hm.
    pose proof (collect_up_to_max parse_next f ps fuel (collect_kwargs kwargs) []
                  pworld0 Hl Hsv Hf) as H.
    cbn [List.length Nat.add app] in H. rewrite H. reflexivity.
  - generalize (collect_kwargs kwargs). clear.
    induction ps as [|p rest IH]; intros kw; cbn; [reflexivity|].
    rewrite IH. reflexivity.
Qed.

Lemma collecting_stops_at_max_resps_witness :
  gen_next example_parse_next three_pages 3
    (GenCreated [("limit", VInt 10); ("max_resps", VInt 2)]) pworld0 =
    (Returned (VList [page1; page2]), GenClosed,
     {| requests :=
          cursor_chain example_parse_next
            (collect_kwargs [("limit", VInt 10); ("max_resps", VInt 2)]) [page1; page2];
        log := [] |}) /\
  List.length
    (cursor_chain example_parse_next
       (collect_kwargs [("limit", VInt 10); ("max_resps", VInt 2)]) [page1; page2])
    = List.length [page1; page2].
Proof.
  apply (collecting_stops_at_max_resps example_parse_next three_pages [page1; page2]
           [("limit", VInt 10); ("max_resps", VInt 2)] 3).
  - reflexivity.
  - reflexivity.
  - reflexivity.
  - exact example_two_pages_served.
  - simpl. lia.
Defined.



(** X5. A page whose cursor cannot be read ends a collecting call like a
    failed fetch, but after the page was appended: when the first page's
    body is no JSON object, or its [next] is a truthy object that is no
    string, or a string that [urlparse] rejects, the body ends with that
    one page and the exception is logged as an [ERROR] record; a streaming
    call yields the page and then raises. *)
Theorem unreadable_cursor_keeps_page parse_next f (resp : value) (e : exn)
    (kwargs_collect kwargs_stream : dict) (fuel : nat) :
  cursor_fails parse_next resp e ->
  (forall kw, f 0 kw = Ok resp) ->
  streaming kwargs_collect = false ->
  len_differs [] (max_resps_of kwargs_collect) = true ->
  streaming kwargs_stream = true ->
  gen_next parse_next f (S fuel) (GenCreated kwargs_collect) pworld0 =
    (Returned (VList [resp]), GenClosed,
     {| requests := [collect_kwargs kwargs_collect];
        log := [logger_exception PARTIAL_LIST e] |}) /\
  drain parse_next f (S (S fuel)) (GenCreated kwargs_stream) pworld0 [] =
    ([resp], Raised e, {| requests := [request_kwargs kwargs_stream]; log := [] |}).
Proof.
  intros Hc Hf Hsc Hm Hss. split.
  - rewrite gen_next_created_collecting by exact Hsc.
    fold (collect_kwargs kwargs_collect).
    cbn [collect]. rewrite Hm. unfold call_f. cbn [pworld0 requests List.length].
    rewrite Hf.
    destruct Hc as [Hn|(v & Hn & Ht & Hcur)]; rewrite Hn.
    + reflexivity.
    + rewrite Ht, Hcur. reflexivity.
  - rewrite drain_created_streaming by exact Hss.
    cbn [pworld0 requests List.length log]. rewrite Hf.
    cbn [drain gen_next].
    destruct Hc as [Hn|(v & Hn & Ht & Hcur)]; rewrite Hn.
    + reflexivity.
    + rewrite Ht, Hcur. reflexivity.
Qed.

Lemma unreadable_cursor_keeps_page_witness :
  gen_next example_parse_next (fun _ _ => Ok (VResp 200 (VList [VInt 1]))) 1
    (GenCreated []) pworld0 =
    (Returned (VList [VResp 200 (VList [VInt 1])]), GenClosed,
     {| requests := [collect_kwargs []];
        log := [logger_exception PARTIAL_LIST AttributeError] |}) /\
  drain example_parse_next (fun _ _ => Ok (VResp 200 (VList [VInt 1]))) 2
    (GenCreated [("yield_resps", VBool true)]) pworld0 [] =
    ([VResp 200 (VList [VInt 1])], Raised AttributeError,
     {| requests := [request_kwargs [("yield_resps", VBool true)]]; log := [] |}).
Proof.
  apply (unreadable_cursor_keeps_page example_parse_next
           (fun _ _ => Ok (VResp 200 (VList [VInt 1]))) (VResp 200 (VList [VInt 1]))
           AttributeError [] [("yield_resps", VBool true)] 0).
  - left. reflexivity.
  - intros kw. reflexivity.
  - reflexivity.
  - reflexivity.
  - reflexivity.
Defined.

Lemma collect_endless parse_next f (max_resps : value) :
  (forall i kw, exists p, f i kw = Ok p /\ has_cursor parse_next p = true) ->
  (forall l, len_differs l max_resps = true) ->
  forall fuel kwargs resps w,
    fst (collect parse_next f fuel max_resps kwargs resps w) = Diverges.
Proof.
  intros Hf Hm. induction fuel as [|fuel IH]; intros kwargs resps w.
  - reflexivity.
  - cbn [collect]. rewrite Hm. unfold call_f.
    destruct (Hf (List.length (requests w)) kwargs) as (p & Hp & Hn). rewrite Hp.
    destruct (has_cursor_inv _ _ Hn) as (Hv & Ht & Hq).
    rewrite Hv, Ht, Hq. apply IH.
Qed.

(** X6. Nothing but a page without [next] link, a reached [max_resps] or
    an exception ends the loop: against a wrapped method whose every call
    gives a page with a link that [urlparse] reads, a collecting call with
    the default [max_resps] is still running after any number of
    iterations. *)
Theorem endless_pages_never_return parse_next f (kwargs : dict) (fuel : nat) :
  (forall i kw, exists p, f i kw = Ok p /\ has_cursor parse_next p = true) ->
  streaming kwargs = false ->
  dict_get (request_kwargs kwargs) MAX_RESPS_NAME = None ->
  fst (fst (gen_next parse_next f fuel (GenCreated kwargs) pworld0)) = Diverges.
Proof.
  intros Hf Hs Hm.
  rewrite gen_next_created_collecting by exact Hs. cbn [fst].
  assert (Hmax : max_resps_of kwargs = VInt (-1)).
  { unfold max_resps_of, dict_pop at 1. fold (request_kwargs kwargs).
    rewrite Hm. reflexivity. }
  rewrite Hmax. apply collect_endless; [exact Hf|apply len_differs_default].
Qed.

Lemma endless_pages_never_return_witness :
  fst (fst (gen_next example_parse_next endless 50
              (GenCreated [("limit", VInt 10)]) pworld0)) = Diverges.
Proof.
  apply (endless_pages_never_return example_parse_next endless [("limit", VInt 10)] 50).
  - intros i kw. eexists. split; reflexivity.
  - reflexivity.
  - reflexivity.
Defined.

(** ** More on filters and processors *)

Lemma NoDup_keys_fold_keep (d : dict) (es : list fentry) (acc : dict) :
  NoDup (dict_keys acc) -> NoDup (dict_keys (fold_left (keep d) es acc)).
Proof.
  revert acc. induction es as [|e es IH]; intros acc H; cbn [fold_left].
  - exact H.
  - apply IH. apply NoDup_keys_set. exact H.
Qed.

Lemma dict_get_flat_filtered (d : dict) (es : list fentry) (k : string) :
  dict_get (flat_filtered d es) k =
  if mem_string k (map entry_name es) then Some (getv d k) else None.
Proof.
  unfold flat_filtered.
  pose proof (getv_fold_keep d es [] k) as G.
  pose proof (dict_has_fold_keep d es [] k) as H.
  unfold dict_has, getv in *. cbn [dict_get] in *. rewrite orb_false_r in H.
  destruct (mem_string k (map entry_name es));
    destruct (dict_get (fold_left (keep d) es []) k); try discriminate.
  - rewrite G. reflexivity.
  - reflexivity.
Qed.

(** X7. Filtering a mapping by a list of plain attribute names never
    raises and gives a fresh mapping that has exactly the named keys, each
    once: a present attribute with the resource's value, an absent one with
    [None]; no other attribute of the resource gets through. *)
Theorem handle_filter_flat_lookup (d : dict) (es : list fentry) :
  forallb is_attr es = true ->
  handle_filter (VDict d) es = Ok (VDict (flat_filtered d es)) /\
  NoDup (dict_keys (flat_filtered d es)) /\
  forall k,
    dict_get (flat_filtered d es) k =
    if mem_string k (map entry_name es)
    then Some (match dict_get d k with Some x => x | None => VNone end)
    else None.
Proof.
  intros Hflat. repeat split.
  - unfold handle_filter. rewrite handle_filter_loop_flat by exact Hflat. reflexivity.
  - apply NoDup_keys_fold_keep. constructor.
  - intros k. apply dict_get_flat_filtered.
Qed.

Lemma handle_filter_flat_lookup_witness :
  handle_filter (VDict [("id", VInt 1); ("email", VStr "a@b.c")])
    [EAttr "id"; EAttr "phone"; EAttr "id"]
    = Ok (VDict (flat_filtered [("id", VInt 1); ("email", VStr "a@b.c")]
                   [EAttr "id"; EAttr "phone"; EAttr "id"])) /\
  NoDup (dict_keys (flat_filtered [("id", VInt 1); ("email", VStr "a@b.c")]
                      [EAttr "id"; EAttr "phone"; EAttr "id"])) /\
  forall k,
    dict_get (flat_filtered [("id", VInt 1); ("email", VStr "a@b.c")]
                [EAttr "id"; EAttr "phone"; EAttr "id"]) k =
    if mem_string k (map entry_name [EAttr "id"; EAttr "phone"; EAttr "id"])
    then Some (match dict_get [("id", VInt 1); ("email", VStr "a@b.c")] k with
               | Some x => x
               | None => VNone
               end)
    else None.
Proof.
  apply (handle_filter_flat_lookup [("id", VInt 1); ("email", VStr "a@b.c")]
           [EAttr "id"; EAttr "phone"; EAttr "id"]).
  reflexivity.
Defined.

(** X8. A list filter with a nested [(name, sub_filter)] entry anywhere in
    it raises [TypeError] on every mapping, whether the named attribute is
    present or not and whatever the entries before it kept. *)
Theorem nested_entry_always_raises (d : dict) (es : list fentry) :
  existsb (fun e => negb (is_attr e)) es = true ->
  filter_resource (VDict d) (FList es) = Raise TypeError.
Proof.
  intros H. cbn [filter_resource]. unfold handle_filter.
  generalize (@nil (string * value)).
  induction es as [|[a|a sub] es IH]; intros acc.
  - discriminate.
  - cbn [handle_filter_loop py_get bind]. cbn in H.
    specialize (IH H (dict_set acc a (getv d a))). unfold getv in IH.
    destruct (handle_filter_loop (VDict d) es _); [discriminate IH|exact IH].
  - reflexivity.
Qed.

Lemma nested_entry_always_raises_witness :
  filter_resource
    (VDict [("id", VInt 7); ("status", VDict [("name", VStr "finished")])])
    (FList [EAttr "id"; ENested "status" (FList [EAttr "name"])])
    = Raise TypeError.
Proof.
  apply (nested_entry_always_raises
           [("id", VInt 7); ("status", VDict [("name", VStr "finished")])]
           [EAttr "id"; ENested "status" (FList [EAttr "name"])]).
  reflexivity.
Defined.

(** X9. A resource that is no mapping (a number, a string, a list, [None])
    cannot be filtered by a name: [filter_resource] raises
    [AttributeError], for a single attribute name and for a list that
    starts with one. *)
Theorem filter_resource_not_a_mapping (resource : value) (a : string) (es : list fentry) :
  is_dict resource = false ->
  filter_resource resource (FAttr a) = Raise AttributeError /\
  filter_resource resource (FList (EAttr a :: es)) = Raise AttributeError.
Proof.
  intros H. destruct resource; try discriminate; split; reflexivity.
Qed.

Lemma filter_resource_not_a_mapping_witness :
  filter_resource (VInt 42) (FAttr "id") = Raise AttributeError /\
  filter_resource (VInt 42) (FList [EAttr "id"; EAttr "email"]) = Raise AttributeError.
Proof.
  apply (filter_resource_not_a_mapping (VInt 42) "id" [EAttr "email"]). reflexivity.
Defined.

Lemma payload_filter_body_name (filter : option rfilter) (kw kw' : dict) (resp : value) :
  dict_get kw RESOURCE_NAME = dict_get kw' RESOURCE_NAME ->
  payload_filter_body filter kw resp = payload_filter_body filter kw' resp.
Proof. intros H. unfold payload_filter_body. rewrite H. reflexivity. Qed.

Lemma filter_all_false {A : Type} (p : A -> bool) (l : list A) :
  (forall x, In x l -> p x = false) -> filter p l = [].
Proof.
  induction l as [|x l IH]; cbn; intros H.
  - reflexivity.
  - rewrite (H x) by (left; reflexivity). apply IH. intros y Hy. apply H. right. exact Hy.
Qed.

(** Applying a plain function: it is called with the entries of
    [resp_proc_args] that it accepts. *)
Lemma apply_proc_plain (proc : processor) (args : dict) (resp : value) :
  proc_keywords proc = None ->
  exists kw,
    apply_proc proc args resp = proc_body proc kw resp /\
    forall k, dict_get kw k =
              if mem_string k (proc_params proc) then dict_get args k else None.
Proof.
  intros Hplain.
  destruct (handle_resp_proc_args_plain proc args Hplain) as (p & Hf & Hb & _ & Hg).
  exists (bound_keywords p). split; [|exact Hg].
  unfold apply_proc. rewrite Hf. cbn [bind]. unfold call_proc. rewrite Hb. reflexivity.
Qed.

(** Applying a partial: with its own keywords when [resp_proc_args] is
    empty; otherwise nothing is called. *)
Lemma apply_proc_partial (proc : processor) (kw args : dict) (resp : value) :
  proc_keywords proc = Some kw ->
  apply_proc proc args resp =
  match args with [] => proc_body proc kw resp | _ :: _ => Raise TypeError end.
Proof.
  intros Hkw. unfold apply_proc.
  rewrite (handle_resp_proc_args_partial proc kw args Hkw).
  destruct args; [|reflexivity].
  cbn [bind]. unfold call_proc, bound_keywords. rewrite Hkw. reflexivity.
Qed.

(** X10. How [payload_filter] gets its [resource_name]. Without a name
    of its own it is a plain function and uses the [resource_name] of
    [resp_proc_args], nothing else of which reaches it. Given a name of its
    own it is a partial: it uses that name only when [resp_proc_args] is
    empty, and whenever [resp_proc_args] holds a [resource_name] the chain
    raises [TypeError] before the processor is called, so that the name
    never overrides the one of the endpoint. *)
Theorem payload_filter_resource_name (filter : option rfilter) (name : string)
    (args : dict) (v : value) (resp : value) :
  name <> "" ->
  dict_get args RESOURCE_NAME = Some v ->
  proc_resp resp (RPOne (payload_filter filter None)) args
    = payload_filter_body filter [(RESOURCE_NAME, v)] resp /\
  proc_resp resp (RPOne (payload_filter filter (Some name))) []
    = payload_filter_body filter [(RESOURCE_NAME, VStr name)] resp /\
  proc_resp resp (RPOne (payload_filter filter (Some name))) args = Raise TypeError.
Proof.
  intros Hname Hv.
  assert (Hkw : proc_keywords (payload_filter filter (Some name))
                = Some [(RESOURCE_NAME, VStr name)]).
  { cbn [payload_filter proc_keywords].
    destruct (String.eqb_spec name "") as [E|_]; [contradiction|reflexivity]. }
  repeat split.
  - cbn [proc_resp].
    destruct (apply_proc_plain (payload_filter filter None) args resp eq_refl)
      as (kw & Happ & Hget).
    rewrite Happ. cbn [payload_filter proc_body].
    apply payload_filter_body_name. rewrite Hget. cbn. exact Hv.
  - cbn [proc_resp]. rewrite (apply_proc_partial _ _ [] resp Hkw). reflexivity.
  - cbn [proc_resp]. rewrite (apply_proc_partial _ _ args resp Hkw).
    destruct args; [discriminate|reflexivity].
Qed.

Lemma payload_filter_resource_name_witness :
  proc_resp person_response (RPOne (payload_filter None None))
    [(RESOURCE_NAME, VStr "results")]
    = payload_filter_body None [(RESOURCE_NAME, VStr "results")] person_response /\
  proc_resp person_response (RPOne (payload_filter None (Some "person"))) []
    = payload_filter_body None [(RESOURCE_NAME, VStr "person")] person_response /\
  proc_resp person_response (RPOne (payload_filter None (Some "person")))
    [(RESOURCE_NAME, VStr "results")] = Raise TypeError.
Proof.
  apply (payload_filter_resource_name None "person" [(RESOURCE_NAME, VStr "results")]
           (VStr "results") person_response).
  - discriminate.
  - reflexivity.
Defined.

(** X11. [payload_filter] filters only a truthy resource with a truthy
    filter: an empty resource ([{}], [[]], [None], 0) is returned as it is
    whatever the filter, and an empty list of attribute names returns the
    whole resource, not the empty mapping that [filter_resource] gives. *)
Theorem payload_filter_skips_empty (flt : rfilter) (d : dict) (name : string)
    (r : value) (status : Z) :
  dict_get d name = Some r ->
  truthy r = false \/ filter_truthy flt = false ->
  payload_filter_body (Some flt) [(RESOURCE_NAME, VStr name)] (VResp status (VDict d))
    = Ok r.
Proof.
  intros Hr Hempty. unfold payload_filter_body. cbn. rewrite Hr. cbn.
  destruct Hempty as [-> | ->]; [reflexivity|].
  rewrite andb_false_r. reflexivity.
Qed.

Lemma payload_filter_skips_empty_witness :
  payload_filter_body (Some (FList [])) [(RESOURCE_NAME, VStr "person")]
    (VResp 200 (VDict [("person", VDict [("id", VInt 1)])]))
    = Ok (VDict [("id", VInt 1)]).
Proof.
  apply (payload_filter_skips_empty (FList []) [("person", VDict [("id", VInt 1)])]
           "person" (VDict [("id", VInt 1)]) 200).
  - reflexivity.
  - right. reflexivity.
Defined.

Lemma filter_each_flat (es : list fentry) (ds : list dict) (acc : list value) :
  forallb is_attr es = true ->
  fold_left
    (fun acc rsrc => l <- acc ;; x <- filter_resource rsrc (FList es) ;; Ok (l ++ [x]))
    (map VDict ds) (Ok acc)
  = Ok (acc ++ map (fun d => VDict (flat_filtered d es)) ds).
Proof.
  intros Hflat. revert acc.
  induction ds as [|d ds IH]; intros acc; cbn [map fold_left].
  - rewrite app_nil_r. reflexivity.
  - cbn [bind filter_resource]. unfold handle_filter.
    rewrite handle_filter_loop_flat by exact Hflat. cbn [bind].
    rewrite IH. rewrite <- app_assoc. reflexivity.
Qed.

(** X12. When the extracted resource is a non-empty list of mappings,
    [payload_filter] with a list of plain attribute names filters every
    element by itself: the result is a list of the same length, element
    [i] being what the filter keeps of resource [i]. *)
Theorem payload_filter_maps_over_list (es : list fentry) (d : dict) (name : string)
    (ds : list dict) (status : Z) :
  forallb is_attr es = true ->
  es <> [] ->
  ds <> [] ->
  dict_get d name = Some (VList (map VDict ds)) ->
  payload_filter_body (Some (FList es)) [(RESOURCE_NAME, VStr name)]
    (VResp status (VDict d))
    = Ok (VList (map (fun r => VDict (flat_filtered r es)) ds)).
Proof.
  intros Hflat Hes Hds Hr. unfold payload_filter_body. cbn [json bind dict_get].
  rewrite String.eqb_refl. cbn [py_get_default]. rewrite Hr. cbn [bind].
  destruct ds as [|d0 ds]; [contradiction|].
  destruct es as [|e es]; [contradiction|].
  cbn [truthy map filter_truthy andb].
  change (VDict d0 :: map VDict ds) with (map VDict (d0 :: ds)).
  rewrite filter_each_flat by exact Hflat. reflexivity.
Qed.

Lemma payload_filter_maps_over_list_witness :
  payload_filter_body (Some (FList [EAttr "id"])) [(RESOURCE_NAME, VStr "results")]
    (VResp 200
       (VDict [("results",
                VList (map VDict [[("id", VInt 1); ("email", VStr "a@b.c")];
                                  [("id", VInt 2)]]))]))
    = Ok (VList (map (fun r => VDict (flat_filtered r [EAttr "id"]))
                   [[("id", VInt 1); ("email", VStr "a@b.c")]; [("id", VInt 2)]])).
Proof.
  apply (payload_filter_maps_over_list [EAttr "id"]
           [("results",
             VList (map VDict [[("id", VInt 1); ("email", VStr "a@b.c")];
                               [("id", VInt 2)]]))]
           "results"
           [[("id", VInt 1); ("email", VStr "a@b.c")]; [("id", VInt 2)]] 200).
  - reflexivity.
  - discriminate.
  - discriminate.
  - reflexivity.
Defined.

(** ** More on the processor chain *)

Lemma fold_processors_raise (ps : list processor) (args : dict) (e : exn) :
  fold_left (fun acc rp => r <- acc ;; apply_proc rp args r) ps (Raise e) = Raise e.
Proof. induction ps as [|p ps IH]; cbn; [reflexivity|exact IH]. Qed.

(** X13. A list of processors is applied left to right, each to the
    outcome of the one before: processing with [ps1 ++ ps2] is processing
    with [ps1] and then, unless that raised, with [ps2]; a list of one
    processor does what the processor alone does; an empty list hands the
    response back. *)
Theorem proc_resp_chain (resp : value) (ps1 ps2 : list processor) (p : processor)
    (args : dict) :
  proc_resp resp (RPMany (ps1 ++ ps2)) args
    = (r <- proc_resp resp (RPMany ps1) args ;; proc_resp r (RPMany ps2) args) /\
  proc_resp resp (RPMany [p]) args = proc_resp resp (RPOne p) args /\
  proc_resp resp (RPMany []) args = Ok resp.
Proof.
  repeat split. cbn [proc_resp]. rewrite fold_left_app.
  destruct (fold_left _ ps1 (Ok resp)) as [r|e]; cbn [bind].
  - reflexivity.
  - apply fold_processors_raise.
Qed.

(** X14. What [handle_resp_proc_args] gives. For a plain function: a
    processor with the same function and parameters, bound to the entries
    of [resp_proc_args] that the function accepts and to no other keyword,
    so that it is never handed an argument it does not take. For a
    [functools.partial]: the partial itself when [resp_proc_args] is empty,
    and [TypeError] whenever it is not. *)
Theorem handle_resp_proc_args_keywords (proc : processor) (args : dict) :
  match proc_keywords proc with
  | None =>
      exists p,
        handle_resp_proc_args proc args = Ok p /\
        proc_body p = proc_body proc /\
        proc_params p = proc_params proc /\
        forall k, dict_get (bound_keywords p) k =
                  if mem_string k (proc_params proc) then dict_get args k else None
  | Some _ =>
      handle_resp_proc_args proc args =
      match args with [] => Ok proc | _ :: _ => Raise TypeError end
  end.
Proof.
  destruct (proc_keywords proc) as [kw|] eqn:Hkw.
  - apply (handle_resp_proc_args_partial proc kw). exact Hkw.
  - apply handle_resp_proc_args_plain. exact Hkw.
Qed.

Lemma handle_resp_proc_single iter_object resp_proc_dflt f_attrs
    (f : dict -> result value) self_attrs resp_proc_kw kwargs st (res : value) :
  f kwargs = Ok res ->
  rp_truthy (effective_proc resp_proc_dflt resp_proc_kw) = true ->
  truthy res = true ->
  is_list res = false ->
  handle_resp_proc iter_object resp_proc_dflt f_attrs f self_attrs resp_proc_kw kwargs st =
    (proc_resp res (effective_proc resp_proc_dflt resp_proc_kw)
       (resolve_missing f_attrs self_attrs (resp_proc_args st)),
     {| resp_proc_args := resolve_missing f_attrs self_attrs (resp_proc_args st);
        rlog := rlog st |}).
Proof.
  unfold effective_proc. intros Hf Hrp Ht Hl.
  unfold handle_resp_proc. rewrite Hf, Hrp, Ht. cbn [andb].
  destruct res; try reflexivity. discriminate.
Qed.

Lemma proc_resp_payload_filter (flt : option rfilter) (args : dict) (v resp : value) :
  dict_get args RESOURCE_NAME = Some v ->
  proc_resp resp (RPOne (payload_filter flt None)) args
    = payload_filter_body flt [(RESOURCE_NAME, v)] resp.
Proof.
  intros Hv. cbn [proc_resp].
  destruct (apply_proc_plain (payload_filter flt None) args resp eq_refl)
    as (kw & Happ & Hget).
  rewrite Happ. cbn [payload_filter proc_body].
  apply payload_filter_body_name. rewrite Hget. cbn. exact Hv.
Qed.

Lemma resolve_missing_from_endpoint (f_attrs self_attrs args : dict) (v : value) :
  dict_has args RESOURCE_NAME = false ->
  dict_get f_attrs RESOURCE_NAME = None ->
  dict_get self_attrs RESOURCE_NAME = Some v ->
  resolve_missing f_attrs self_attrs args = dict_set args RESOURCE_NAME v.
Proof.
  intros Ha Hf Hs. rewrite resolve_missing_eq, Ha. unfold resolve_attr.
  rewrite Hs, Hf. reflexivity.
Qed.

(** X15. When the wrapped call raises, or no processor is in effect, or
    the result is falsy (an empty list, [None], a failed response),
    [handle_resp_proc] hands on exactly what the wrapped call gave: nothing
    is processed, nothing is logged and the shared [resp_proc_args] is not
    touched. *)
Theorem unprocessed_outcome_handed_on (iter_object : value -> result (list value))
    (resp_proc_dflt : resp_proc_t) (f_attrs : dict) (f : dict -> result value)
    (self_attrs : dict) (resp_proc_kw : option resp_proc_t) (kwargs : dict)
    (st : rstate) :
  match f kwargs with
  | Raise _ => True
  | Ok res =>
      rp_truthy (effective_proc resp_proc_dflt resp_proc_kw) = false \/
      truthy res = false
  end ->
  handle_resp_proc iter_object resp_proc_dflt f_attrs f self_attrs resp_proc_kw kwargs st
    = (f kwargs, st).
Proof.
  unfold handle_resp_proc, effective_proc.
  destruct (f kwargs) as [res|e]; [|reflexivity].
  intros [-> | ->]; [reflexivity|].
  rewrite andb_false_r. reflexivity.
Qed.

Lemma unprocessed_outcome_handed_on_witness :
  handle_resp_proc no_iter (RPOne (payload_filter None None)) []
    (fun _ => Ok (VList [])) [("resource_name", VStr "person")] None [] rstate0
    = ((fun _ : dict => Ok (VList [])) [], rstate0).
Proof.
  apply (unprocessed_outcome_handed_on no_iter (RPOne (payload_filter None None)) []
           (fun _ => Ok (VList [])) [("resource_name", VStr "person")] None [] rstate0).
  right. reflexivity.
Defined.

Lemma flatten_fold iter_object (rp : resp_proc_t) (args : dict)
    (g : value -> list value) (items : list value) (acc : list value) :
  (forall resp, In resp items -> proc_resp resp rp args = Ok (VList (g resp))) ->
  fold_left
    (fun acc resp =>
       resps <- acc ;;
       r <- proc_resp resp rp args ;;
       more <- py_iter iter_object r ;;
       Ok (resps ++ more))
    items (Ok acc)
  = Ok (acc ++ flat_map g items).
Proof.
  revert acc. induction items as [|x items IH]; intros acc H; cbn [fold_left flat_map].
  - rewrite app_nil_r. reflexivity.
  - cbn [bind]. rewrite (H x) by (left; reflexivity). cbn [bind py_iter].
    rewrite IH by (intros y Hy; apply H; right; exact Hy).
    rewrite app_assoc. reflexivity.
Qed.

(** X16. When the wrapped call gives a list of responses that are all
    truthy and the processor turns each response into a list, the result
    is one flat list: the processed lists of the responses, concatenated
    in the order of the responses; nothing is logged. *)
Theorem processed_lists_are_flattened (iter_object : value -> result (list value))
    (resp_proc_dflt : resp_proc_t) (f_attrs : dict) (f : dict -> result value)
    (self_attrs : dict) (resp_proc_kw : option resp_proc_t) (kwargs : dict)
    (st : rstate) (items : list value) (g : value -> list value) :
  f kwargs = Ok (VList items) ->
  items <> [] ->
  forallb truthy items = true ->
  rp_truthy (effective_proc resp_proc_dflt resp_proc_kw) = true ->
  (forall resp, In resp items ->
     proc_resp resp (effective_proc resp_proc_dflt resp_proc_kw)
       (resolve_missing f_attrs self_attrs (resp_proc_args st)) = Ok (VList (g resp))) ->
  fst (handle_resp_proc iter_object resp_proc_dflt f_attrs f self_attrs
         resp_proc_kw kwargs st) = Ok (VList (flat_map g items)) /\
  rlog (snd (handle_resp_proc iter_object resp_proc_dflt f_attrs f self_attrs
               resp_proc_kw kwargs st)) = rlog st.
Proof.
  unfold effective_proc. intros Hf Hne Hall Hrp Hg.
  unfold handle_resp_proc. rewrite Hf, Hrp.
  assert (Ht : truthy (VList items) = true) by (destruct items; [contradiction|reflexivity]).
  rewrite Ht. cbn [andb]. rewrite Hall. cbn [fst snd rlog].
  rewrite (flatten_fold iter_object _ _ g items [] Hg). split; reflexivity.
Qed.

Lemma processed_lists_are_flattened_witness :
  fst (handle_resp_proc no_iter (RPOne (payload_filter None None))
         [("resource_name", VStr "results")]
         (fun _ => Ok (VList [page1; page2; page3]))
         [("resource_name", VStr "person")] None [] rstate0)
    = Ok (VList (flat_map results_of [page1; page2; page3])) /\
  rlog (snd (handle_resp_proc no_iter (RPOne (payload_filter None None))
               [("resource_name", VStr "results")]
               (fun _ => Ok (VList [page1; page2; page3]))
               [("resource_name", VStr "person")] None [] rstate0))
    = rlog rstate0.
Proof.
  apply (processed_lists_are_flattened no_iter (RPOne (payload_filter None None))
           [("resource_name", VStr "results")]
           (fun _ => Ok (VList [page1; page2; page3]))
           [("resource_name", VStr "person")] None [] rstate0
           [page1; page2; page3] results_of).
  - reflexivity.
  - discriminate.
  - reflexivity.
  - reflexivity.
  - intros resp [<-|[<-|[<-|[]]]]; reflexivity.
Defined.

Lemma unprocessed_outcome_not_truthy iter_object resp_proc_dflt f_attrs
    (f : dict -> result value) self_attrs resp_proc_kw kwargs st :
  match f kwargs with Raise _ => True | Ok res => truthy res = false end ->
  handle_resp_proc iter_object resp_proc_dflt f_attrs f self_attrs resp_proc_kw kwargs st
    = (f kwargs, st).
Proof.
  unfold handle_resp_proc.
  destruct (f kwargs) as [res|e]; [|reflexivity].
  intros ->. rewrite andb_false_r. reflexivity.
Qed.

(** X17. A method decorated with [resp_bool] as its processor, on a
    result that is no list: a truthy response becomes [True], a falsy one
    is handed back as it is; whatever the decorator, the method and the
    endpoint say about [resource_name], nothing is raised or logged. *)
Theorem resp_bool_outcome (iter_object : value -> result (list value))
    (f_attrs : dict) (f : dict -> result value) (self_attrs : dict) (kwargs : dict)
    (st : rstate) (res : value) :
  f kwargs = Ok res ->
  is_list res = false ->
  fst (handle_resp_proc iter_object (RPOne resp_bool) f_attrs f self_attrs None kwargs st)
    = Ok (if truthy res then VBool true else res) /\
  rlog (snd (handle_resp_proc iter_object (RPOne resp_bool) f_attrs f self_attrs None
               kwargs st)) = rlog st.
Proof.
  intros Hf Hl. destruct (truthy res) eqn:Ht.
  - rewrite (handle_resp_proc_single iter_object (RPOne resp_bool) f_attrs f self_attrs
               None kwargs st res Hf eq_refl Ht Hl).
    cbn [fst snd rlog effective_proc proc_resp].
    destruct (apply_proc_plain resp_bool
                (resolve_missing f_attrs self_attrs (resp_proc_args st)) res eq_refl)
      as (kw & Happ & _).
    rewrite Happ. cbn [resp_bool proc_body].
    rewrite Ht. split; reflexivity.
  - rewrite unprocessed_outcome_not_truthy by (rewrite Hf; exact Ht).
    rewrite Hf. split; reflexivity.
Qed.

Lemma resp_bool_outcome_witness :
  fst (handle_resp_proc no_iter (RPOne resp_bool) []
         (fun _ => Ok (VResp 204 VNone)) [("resource_name", VStr "person")] None []
         rstate0)
    = Ok (if truthy (VResp 204 VNone) then VBool true else VResp 204 VNone) /\
  rlog (snd (handle_resp_proc no_iter (RPOne resp_bool) []
               (fun _ => Ok (VResp 204 VNone)) [("resource_name", VStr "person")] None []
               rstate0)) = rlog rstate0.
Proof.
  apply (resp_bool_outcome no_iter [] (fun _ => Ok (VResp 204 VNone))
           [("resource_name", VStr "person")] [] rstate0 (VResp 204 VNone));
    reflexivity.
Defined.

Lemma payload_filter_body_extracts (d : dict) (name : string) (status : Z) :
  payload_filter_body None [(RESOURCE_NAME, VStr name)] (VResp status (VDict d))
    = Ok (extracted d name).
Proof.
  unfold payload_filter_body, extracted. cbn [json bind dict_get].
  rewrite String.eqb_refl. cbn [py_get_default bind]. reflexivity.
Qed.

(** X18. The default of the single-resource getters: a method decorated
    with [payload_filter()] and no [resource_name] of its own, on an
    endpoint whose [resource_name] is [n], turns a successful response into
    the body's entry under [n], or into the whole body when the body has no
    such key; the name it resolved is left in the shared [resp_proc_args]. *)
Theorem default_processing_extracts_resource (iter_object : value -> result (list value))
    (f_attrs : dict) (f : dict -> result value) (self_attrs : dict) (kwargs : dict)
    (st : rstate) (status : Z) (d : dict) (n : string) :
  f kwargs = Ok (VResp status (VDict d)) ->
  truthy (VResp status (VDict d)) = true ->
  dict_has (resp_proc_args st) RESOURCE_NAME = false ->
  dict_get f_attrs RESOURCE_NAME = None ->
  dict_get self_attrs RESOURCE_NAME = Some (VStr n) ->
  handle_resp_proc iter_object (RPOne (payload_filter None None)) f_attrs f self_attrs
    None kwargs st
    = (Ok (match dict_get d n with Some r => r | None => VDict d end),
       {| resp_proc_args := dict_set (resp_proc_args st) RESOURCE_NAME (VStr n);
          rlog := rlog st |}).
Proof.
  intros Hf Ht Ha Hm Hs.
  rewrite (handle_resp_proc_single iter_object (RPOne (payload_filter None None)) f_attrs f
             self_attrs None kwargs st _ Hf eq_refl Ht eq_refl).
  rewrite (resolve_missing_from_endpoint f_attrs self_attrs _ (VStr n) Ha Hm Hs).
  cbn [effective_proc].
  rewrite (proc_resp_payload_filter None _ (VStr n))
    by (rewrite dict_get_set, String.eqb_refl; reflexivity).
  rewrite payload_filter_body_extracts. reflexivity.
Qed.

Lemma default_processing_extracts_resource_witness :
  handle_resp_proc no_iter (RPOne (payload_filter None None)) []
    (fun _ => Ok (VResp 200 (VDict [("person", VDict [("id", VInt 1);
                                                      ("first_name", VStr "A")])])))
    [("resource_name", VStr "person")] None [] rstate0
    = (Ok (match dict_get [("person", VDict [("id", VInt 1); ("first_name", VStr "A")])]
                   "person" with
           | Some r => r
           | None => VDict [("person", VDict [("id", VInt 1); ("first_name", VStr "A")])]
           end),
       {| resp_proc_args :=
            dict_set (resp_proc_args rstate0) RESOURCE_NAME (VStr "person");
          rlog := rlog rstate0 |}).
Proof.
  apply (default_processing_extracts_resource no_iter []
           (fun _ => Ok (VResp 200 (VDict [("person", VDict [("id", VInt 1);
                                                             ("first_name", VStr "A")])])))
           [("resource_name", VStr "person")] [] rstate0 200
           [("person", VDict [("id", VInt 1); ("first_name", VStr "A")])] "person");
    reflexivity.
Defined.

(** X19. A default processor whose filter has a nested entry cannot
    succeed on a resource: [Imports.get], decorated with
    [payload_filter([("status", ["name"])])], raises [TypeError] on every
    successful response whose body carries a non-empty mapping under the
    endpoint's [resource_name]. *)
Theorem nested_default_filter_raises (iter_object : value -> result (list value))
    (es : list fentry) (f_attrs : dict) (f : dict -> result value) (self_attrs : dict)
    (kwargs : dict) (st : rstate) (status : Z) (d r : dict) (n : string) :
  forallb is_attr es = false ->
  f kwargs = Ok (VResp status (VDict d)) ->
  truthy (VResp status (VDict d)) = true ->
  dict_has (resp_proc_args st) RESOURCE_NAME = false ->
  dict_get f_attrs RESOURCE_NAME = None ->
  dict_get self_attrs RESOURCE_NAME = Some (VStr n) ->
  dict_get d n = Some (VDict r) ->
  r <> [] ->
  fst (handle_resp_proc iter_object (RPOne (payload_filter (Some (FList es)) None))
         f_attrs f self_attrs None kwargs st) = Raise TypeError.
Proof.
  intros Hes Hf Ht Ha Hm Hs Hd Hr.
  rewrite (handle_resp_proc_single iter_object
             (RPOne (payload_filter (Some (FList es)) None)) f_attrs f self_attrs None
             kwargs st _ Hf eq_refl Ht eq_refl).
  rewrite (resolve_missing_from_endpoint f_attrs self_attrs _ (VStr n) Ha Hm Hs).
  cbn [fst effective_proc].
  rewrite (proc_resp_payload_filter _ _ (VStr n))
    by (rewrite dict_get_set, String.eqb_refl; reflexivity).
  unfold payload_filter_body. cbn [json bind dict_get].
  rewrite String.eqb_refl. cbn [py_get_default]. rewrite Hd. cbn [bind].
  destruct r as [|kv r]; [contradiction|].
  destruct es as [|e es]; [discriminate|].
  cbn [truthy filter_truthy andb filter_resource].
  apply handle_filter_nested_raises. exact Hes.
Qed.

Lemma nested_default_filter_raises_witness :
  fst (handle_resp_proc no_iter
         (RPOne (payload_filter (Some imports_get_filter) None)) []
         (fun _ => Ok (VResp 200
                         (VDict [("import",
                                  VDict [("id", VInt 5);
                                         ("status", VDict [("name", VStr "finished")])])])))
         [("resource_name", VStr "import")] None [] rstate0) = Raise TypeError.
Proof.
  apply (nested_default_filter_raises no_iter
           [ENested "status" (FList [EAttr "name"])] []
           (fun _ => Ok (VResp 200
                           (VDict [("import",
                                    VDict [("id", VInt 5);
                                           ("status", VDict [("name", VStr "finished")])])])))
           [("resource_name", VStr "import")] [] rstate0 200
           [("import",
             VDict [("id", VInt 5); ("status", VDict [("name", VStr "finished")])])]
           [("id", VInt 5); ("status", VDict [("name", VStr "finished")])] "import");
    try reflexivity.
  discriminate.
Defined.

(** X20. [People.register], decorated with [resource_eq("success")] and
    [resource_name="status"]: on a successful response the outcome is a
    boolean, [True] exactly when the body has [status] equal to
    ["success"]; a body without [status] is compared as a whole and gives
    [False]. [py_eq] is Python's [==], of which only this is used: a value
    equals the string ["success"] when it is that string. *)
Theorem register_outcome (py_eq : value -> value -> bool)
    (iter_object : value -> result (list value)) (f_attrs : dict)
    (f : dict -> result value) (self_attrs : dict) (kwargs : dict) (st : rstate)
    (status : Z) (d : dict) :
  (forall v, py_eq v (VStr "success") = true <-> v = VStr "success") ->
  resp_proc_args st = [(RESOURCE_NAME, VStr "status")] ->
  f kwargs = Ok (VResp status (VDict d)) ->
  truthy (VResp status (VDict d)) = true ->
  fst (handle_resp_proc iter_object
         (RPOne (resource_eq py_eq (VStr "success") None None))
         f_attrs f self_attrs None kwargs st)
    = Ok (VBool (py_eq (extracted d "status") (VStr "success"))) /\
  (py_eq (extracted d "status") (VStr "success") = true <->
   dict_get d "status" = Some (VStr "success")).
Proof.
  intros Hpy Ha Hf Ht. split.
  - rewrite (handle_resp_proc_single iter_object
               (RPOne (resource_eq py_eq (VStr "success") None None)) f_attrs f self_attrs
               None kwargs st _ Hf eq_refl Ht eq_refl).
    rewrite resolve_missing_stored by (rewrite Ha; reflexivity).
    cbn [fst effective_proc proc_resp].
    destruct (apply_proc_plain (resource_eq py_eq (VStr "success") None None)
                (resp_proc_args st) (VResp status (VDict d)) eq_refl)
      as (kw & Happ & Hget).
    rewrite Happ. cbn [resource_eq proc_body].
    rewrite Hget, Ha.
    change (mem_string RESOURCE_NAME
              (proc_params (resource_eq py_eq (VStr "success") None None)))
      with true.
    cbn [dict_get]. rewrite String.eqb_refl.
    rewrite payload_filter_body_extracts. reflexivity.
  - rewrite Hpy. unfold extracted.
    destruct (dict_get d "status") as [r|]; split; intros H;
      try congruence; discriminate.
Qed.

Lemma register_outcome_witness :
  fst (handle_resp_proc no_iter
         (RPOne (resource_eq eq_string (VStr "success") None None)) []
         (fun _ => Ok (VResp 200 (VDict [("status", VStr "success")])))
         [("resource_name", VStr "person")] None []
         {| resp_proc_args := [(RESOURCE_NAME, VStr "status")]; rlog := [] |})
    = Ok (VBool (eq_string (extracted [("status", VStr "success")] "status")
                   (VStr "success"))) /\
  (eq_string (extracted [("status", VStr "success")] "status") (VStr "success") = true <->
   dict_get [("status", VStr "success")] "status" = Some (VStr "success")).
Proof.
  apply (register_outcome eq_string no_iter []
           (fun _ => Ok (VResp 200 (VDict [("status", VStr "success")])))
           [("resource_name", VStr "person")] []
           {| resp_proc_args := [(RESOURCE_NAME, VStr "status")]; rlog := [] |} 200
           [("status", VStr "success")]).
  - intros v. destruct v; cbn; split; intros H; try discriminate.
    + apply String.eqb_eq in H. subst. reflexivity.
    + inversion H. reflexivity.
  - reflexivity.
  - reflexivity.
  - reflexivity.
Defined.

(** ** The client *)

Lemma effective_level_nonneg (chain : list logger_t) :
  Forall (fun l => (0 <= logger_level l)%Z) chain -> (0 <= effective_level chain)%Z.
Proof.
  induction 1 as [|l chain Hl _ IH]; cbn.
  - unfold NOTSET. lia.
  - destruct (logger_level l =? 0)%Z; assumption.
Qed.

Lemma with_debug_level_twice (debug : bool) (logger : logger_t) :
  with_debug_level debug (with_debug_level debug logger) = with_debug_level debug logger.
Proof.
  unfold with_debug_level.
  destruct debug; cbn [andb]; [|reflexivity].
  destruct (logger_level logger =? 0)%Z eqn:E; cbn; [reflexivity|].
  rewrite E. reflexivity.
Qed.

Lemma with_debug_level_nonneg (debug : bool) (logger : logger_t) :
  (0 <= logger_level logger)%Z -> (0 <= logger_level (with_debug_level debug logger))%Z.
Proof.
  unfold with_debug_level. intros H.
  destruct (debug && (logger_level logger =? 0)%Z); cbn; [unfold DEBUG_LEVEL; lia|exact H].
Qed.

Lemma init_logger_eq (debug : bool) (logger : logger_t) (parents : list logger_t) :
  init_logger debug logger parents =
  if has_level_handler (with_debug_level debug logger) parents
  then with_debug_level debug logger
  else add_handler ModuleHandler (with_debug_level debug logger).
Proof. reflexivity. Qed.

Lemma module_handler_counts (l : logger_t) (parents : list logger_t) :
  (0 <= logger_level l)%Z ->
  Forall (fun p => (0 <= logger_level p)%Z) parents ->
  existsb is_module_handler (logger_handlers l) = true ->
  has_level_handler l parents = true.
Proof.
  intros Hl Hp Hex. unfold has_level_handler. cbn [level_handler_from].
  assert (Hlev : (0 <= effective_level (l :: parents))%Z)
    by (apply effective_level_nonneg; constructor; assumption).
  assert (E : existsb (fun h => (handler_level h <=? effective_level (l :: parents))%Z)
                (logger_handlers l) = true).
  { apply existsb_exists. apply existsb_exists in Hex. destruct Hex as (h & Hin & Hm).
    exists h. split; [exact Hin|]. destruct h; [|discriminate].
    cbn. unfold NOTSET. apply Z.leb_le. exact Hlev. }
  rewrite E. reflexivity.
Qed.

(** X21. Initialising the client's logging is effective and idempotent
    (no level in the chain being negative): after [__init__] the logger has
    a handler for its effective level, and a second client made on the same
    logger with the same [debug] changes nothing: the module's handler is
    not added again. *)
Theorem init_logger_idempotent (debug : bool) (logger : logger_t)
    (parents : list logger_t) :
  (0 <= logger_level logger)%Z ->
  Forall (fun p => (0 <= logger_level p)%Z) parents ->
  has_level_handler (init_logger debug logger parents) parents = true /\
  init_logger debug (init_logger debug logger parents) parents
    = init_logger debug logger parents.
Proof.
  intros Hl Hp.
  pose proof (with_debug_level_nonneg debug logger Hl) as Hl1.
  assert (Hhas : has_level_handler (init_logger debug logger parents) parents = true).
  { rewrite init_logger_eq.
    destruct (has_level_handler (with_debug_level debug logger) parents) eqn:E;
      [exact E|].
    apply module_handler_counts; [|exact Hp|].
    - cbn [add_handler]. destruct (existsb _ _); exact Hl1.
    - cbn [add_handler].
      destruct (existsb is_module_handler
                  (logger_handlers (with_debug_level debug logger))) eqn:Ex;
        [exact Ex|].
      cbn [logger_handlers]. rewrite existsb_app. cbn. apply orb_true_r. }
  split; [exact Hhas|].
  assert (Hlev : with_debug_level debug (init_logger debug logger parents)
                 = init_logger debug logger parents).
  { rewrite init_logger_eq.
    destruct (has_level_handler (with_debug_level debug logger) parents).
    - apply with_debug_level_twice.
    - pose proof (with_debug_level_twice debug logger) as T.
      unfold with_debug_level in *. cbn [add_handler].
      destruct (existsb is_module_handler _); [exact T|].
      cbn [logger_level].
      destruct (debug && (logger_level logger =? 0)%Z) eqn:D; cbn [logger_level] in *.
      + rewrite andb_false_r. reflexivity.
      + rewrite D. reflexivity. }
  rewrite (init_logger_eq debug (init_logger debug logger parents)).
  rewrite Hlev, Hhas. reflexivity.
Qed.

Lemma init_logger_idempotent_witness :
  has_level_handler (init_logger true fresh_logger [root_logger]) [root_logger] = true /\
  init_logger true (init_logger true fresh_logger [root_logger]) [root_logger]
    = init_logger true fresh_logger [root_logger].
Proof.
  apply (init_logger_idempotent true fresh_logger [root_logger]).
  - simpl. lia.
  - repeat constructor. simpl. lia.
Defined.

(** X22. The session parameters after [__init__] (the caller's [params]
    naming no key twice): [limit] is always there, the caller's when given
    and 100 otherwise; every parameter of the caller is kept, also an
    [access_token] that replaces the argument; a truthy [access_token]
    argument is there when the caller's [params] name none. *)
Theorem session_params_lookup (access_token : value) (params : dict) :
  NoDup (dict_keys params) ->
  dict_get (session_params access_token params) "limit"
    = Some (match dict_get params "limit" with Some v => v | None => VInt 100 end) /\
  (forall k v, dict_get params k = Some v ->
               dict_get (session_params access_token params) k = Some v) /\
  (dict_get params "access_token" = None ->
   dict_get (session_params access_token params) "access_token"
     = if truthy access_token then Some access_token else None).
Proof.
  intros Hnd. unfold session_params, dict_has. repeat split.
  - destruct (dict_get params "limit") as [v|] eqn:E.
    + rewrite dict_get_update by exact Hnd. rewrite E. reflexivity.
    + rewrite dict_get_set, String.eqb_refl. reflexivity.
  - intros k v Hk.
    assert (Hu : forall p0, dict_get (dict_update p0 params) k = Some v).
    { intros p0. rewrite dict_get_update by exact Hnd. rewrite Hk. reflexivity. }
    destruct (dict_get params "limit") as [l|] eqn:E; [apply Hu|].
    rewrite dict_get_set.
    destruct (String.eqb_spec "limit" k) as [<-|_]; [congruence|apply Hu].
  - intros Ht.
    assert (Hu : dict_get
                   (dict_update
                      (if truthy access_token
                       then dict_set [] "access_token" access_token else []) params)
                   "access_token"
                 = if truthy access_token then Some access_token else None).
    { rewrite dict_get_update by exact Hnd. rewrite Ht.
      destruct (truthy access_token); reflexivity. }
    destruct (dict_get params "limit"); [exact Hu|].
    rewrite dict_get_set. cbn [String.eqb Ascii.eqb Bool.eqb]. exact Hu.
Qed.

Lemma session_params_lookup_witness :
  dict_get (session_params (VStr "key") [("limit", VInt 25)]) "limit"
    = Some (match dict_get [("limit", VInt 25)] "limit" with
            | Some v => v
            | None => VInt 100
            end) /\
  (forall k v, dict_get [("limit", VInt 25)] k = Some v ->
               dict_get (session_params (VStr "key") [("limit", VInt 25)]) k = Some v) /\
  (dict_get [("limit", VInt 25)] "access_token" = None ->
   dict_get (session_params (VStr "key") [("limit", VInt 25)]) "access_token"
     = if truthy (VStr "key") then Some (VStr "key") else None).
Proof.
  apply (session_params_lookup (VStr "key") [("limit", VInt 25)]).
  repeat constructor. simpl. intuition.
Defined.

(** A per-call timeout that is falsy ([None], but also [0] or
    [0.0]) is replaced by the session's: the request goes out with the
    session timeout. *)
Theorem make_request_default_timeout (env : environment) (s : session_t)
    (http_meth url_path : string) (payload headers timeout : value) (params : dict)
    (send : http_request -> result value) :
  session_method s (lower http_meth) = Some send ->
  truthy timeout = false ->
  make_request env s http_meth url_path payload headers timeout params =
    (resp <- send {| req_url := (base_url s ++ url_path)%string;
                     req_params := params;
                     req_headers := headers;
                     req_json := payload;
                     req_timeout := session_timeout s |} ;;
     raise_for_status resp).
Proof.
  intros Hm Ht. unfold make_request. rewrite Hm, Ht. reflexivity.
Qed.

Lemma make_request_default_timeout_witness :
  make_request (example_env no_fault) (example_session 200) "GET" "people/42"
    VNone VNone (VInt 0) [("limit", VInt 10)] =
    (resp <- (fun req => Ok (VResp 200 (VDict [("url", VStr (req_url req))])))
               {| req_url := (base_url (example_session 200) ++ "people/42")%string;
                  req_params := [("limit", VInt 10)];
                  req_headers := VNone;
                  req_json := VNone;
                  req_timeout := session_timeout (example_session 200) |} ;;
     raise_for_status resp).
Proof.
  apply (make_request_default_timeout (example_env no_fault) (example_session 200)
           "GET" "people/42" VNone VNone (VInt 0) [("limit", VInt 10)]
           (fun req => Ok (VResp 200 (VDict [("url", VStr (req_url req))]))));
    reflexivity.
Defined.

(** X23. Whatever [make_request] returns is a response whose status is
    outside the 4xx and 5xx range, hence a truthy one: a failed response is
    never returned to the endpoint method and its processors. *)
Theorem make_request_returns_truthy (env : environment) (s : session_t)
    (http_meth url_path : string) (payload headers timeout : value) (params : dict)
    (resp : value) :
  make_request env s http_meth url_path payload headers timeout params = Ok resp ->
  truthy resp = true /\
  exists status body,
    resp = VResp status body /\ ((400 <=? status)%Z && (status <? 600)%Z = false).
Proof.
  unfold make_request.
  destruct (session_method s (lower http_meth)) as [send|]; [|discriminate].
  destruct (py_float env _) as [t|e]; [|discriminate]. cbn [bind].
  destruct (send _) as [r|e]; [|discriminate]. cbn [bind].
  unfold raise_for_status. destruct r; try discriminate.
  destruct ((400 <=? status_code)%Z && (status_code <? 600)%Z) eqn:E; [discriminate|].
  intros H. inversion H; subst. split.
  - cbn. rewrite E. reflexivity.
  - exists status_code, r. split; [reflexivity|exact E].
Qed.

Lemma make_request_returns_truthy_witness :
  truthy (VResp 200 (VDict [("url",
            VStr "https://slug.nationbuilder.com/api/v1/people/42")])) = true /\
  exists status body,
    VResp 200 (VDict [("url", VStr "https://slug.nationbuilder.com/api/v1/people/42")])
      = VResp status body /\ ((400 <=? status)%Z && (status <? 600)%Z = false).
Proof.
  apply (make_request_returns_truthy (example_env no_fault) (example_session 200)
           "get" "people/42" VNone VNone VNone []).
  vm_compute. reflexivity.
Defined.

Lemma lower_ascii_twice (c : Ascii.ascii) : lower_ascii (lower_ascii c) = lower_ascii c.
Proof. destruct c as [[] [] [] [] [] [] [] []]; reflexivity. Qed.

Lemma lower_twice (s : string) : lower (lower s) = lower s.
Proof.
  induction s as [|c s IH]; cbn; [reflexivity|].
  rewrite lower_ascii_twice, IH. reflexivity.
Qed.

(** The HTTP method of [make_request] is case insensitive: the
    method name as given and its lower-case form give the same outcome. *)
Theorem make_request_method_case (env : environment) (s : session_t)
    (http_meth url_path : string) (payload headers timeout : value) (params : dict) :
  make_request env s http_meth url_path payload headers timeout params =
  make_request env s (lower http_meth) url_path payload headers timeout params.
Proof. unfold make_request. rewrite lower_twice. reflexivity. Qed.

(** X24. [People.get]: with a truthy [id] the [email] argument plays no
    part ("if both are provided, ID is used"); with a falsy [id] ([None],
    but also [0] or an empty string) and an [email] that is no string
    nothing is requested and [TypeError] is raised. *)
Theorem people_get_id_wins (env : environment) (s : session_t) (py_str : value -> string)
    (id email email' falsy_id not_str : value) (kwargs : dict) :
  truthy id = true ->
  truthy falsy_id = false ->
  is_str not_str = false ->
  People_get env s py_str id email kwargs = People_get env s py_str id email' kwargs /\
  People_get env s py_str id email kwargs
    = call_make_request env s "get" ("people/" ++ py_str id)%string None kwargs /\
  People_get env s py_str falsy_id not_str kwargs = Raise TypeError.
Proof.
  intros Hid Hf Hs. unfold People_get, people_get_path. rewrite Hid, Hf.
  repeat split. destruct not_str; try reflexivity. discriminate.
Qed.

Lemma people_get_id_wins_witness :
  People_get (example_env no_fault) (example_session 200) example_str
    (VInt 42) (VStr "a@b.c") []
    = People_get (example_env no_fault) (example_session 200) example_str
        (VInt 42) VNone [] /\
  People_get (example_env no_fault) (example_session 200) example_str
    (VInt 42) (VStr "a@b.c") []
    = call_make_request (example_env no_fault) (example_session 200) "get"
        ("people/" ++ example_str (VInt 42))%string None [] /\
  People_get (example_env no_fault) (example_session 200) example_str
    (VInt 0) VNone [] = Raise TypeError.
Proof.
  apply (people_get_id_wins (example_env no_fault) (example_session 200) example_str
           (VInt 42) (VStr "a@b.c") VNone (VInt 0) VNone []); reflexivity.
Defined.

(** ** More on the redemption task *)

Lemma get_person_filtered (env : environment) (w : world) :
  faults env GetPerson = None ->
  nb_person w <> [] ->
  get_person env w = Ok (VDict (flat_filtered (nb_person w) (person_filter env))).
Proof.
  intros Hf Hne. unfold get_person. rewrite Hf.
  rewrite (proc_resp_payload_filter _ _ (VStr "person")) by reflexivity.
  destruct (nb_person w) as [|kv d] eqn:E; [contradiction|].
  reflexivity.
Qed.

Lemma get_person_empty (env : environment) (w : world) :
  faults env GetPerson = None ->
  nb_person w = [] ->
  get_person env w = Ok (VDict []).
Proof.
  intros Hf He. unfold get_person. rewrite Hf, He. reflexivity.
Qed.

Lemma amounts_filtered (env : environment) (d : dict) :
  amounts env (VDict (flat_filtered d (person_filter env))) =
    (redemption <- py_float env (getv d (SHOP_PENDING_FIELD env)) ;;
     n <- py_int env (getv d CAPITAL_FIELD) ;;
     capital <- int_truediv env n 100 ;;
     Ok (redemption, capital)).
Proof.
  unfold amounts, py_getitem.
  rewrite !dict_get_flat_filtered.
  unfold person_filter, mem_string. cbn [map entry_name existsb].
  rewrite !String.eqb_refl, orb_true_r. cbn [orb bind].
  destruct (py_float env (getv d (SHOP_PENDING_FIELD env))); reflexivity.
Qed.

Lemma exchange_person (env : environment) (redemption : float) (w w' : world)
    (res : result unit) (bound : option price_rule) :
  exchange env redemption w = (res, bound, w') ->
  nb_person w' = nb_person w /\
  forall rule, bound = Some rule -> rule = new_rule env redemption w /\ In rule (shop_rules w').
Proof.
  unfold exchange, create_rule, add_discount_code, add_capital.
  destruct (faults env BuildRule); [intros H; inversion H; split; [reflexivity|discriminate]|].
  destruct (faults env CreateRule); [intros H; inversion H; split; [reflexivity|discriminate]|].
  destruct (faults env AddDiscountCode);
    [|destruct (faults env AddCapital)];
    intros H; inversion H; subst; cbn; (split; [reflexivity|]);
    intros rule Hr; inversion Hr; subst; (split; [reflexivity|]);
    apply in_or_app; right; left; reflexivity.
Qed.

Lemma set_pending_twice (env : environment) (v v' : value) (w : world) :
  set_pending env v' (set_pending env v w) = set_pending env v' w.
Proof. unfold set_pending. cbn. rewrite dict_set_set. reflexivity. Qed.

Lemma dict_set_not_empty (d : dict) (k : string) (v : value) : dict_set d k v <> [].
Proof.
  destruct d as [|[k0 v0] d]; cbn; [discriminate|].
  destruct (String.eqb k0 k); discriminate.
Qed.

(** X25. A redemption that goes through (no call failing, the guard
    passed): [create_discount] returns, and the world has exactly one more
    price rule, for this redemption, one more discount code, that rule's,
    whose code is the rule's title, one more capital entry, minus the
    rounded cents of the redemption, and the pending field at [None]. *)
Theorem redemption_effects (env : environment) (w : world) (person : value)
    (redemption capital : float) :
  get_person env w = Ok person ->
  (forall s, faults env s = None) ->
  amounts env person = Ok (redemption, capital) ->
  redemption_guard redemption capital = true ->
  create_discount env w =
    (Ok tt,
     {| nb_person := dict_set (nb_person w) (SHOP_PENDING_FIELD env) VNone;
        nb_capitals := nb_capitals w ++ [(- round_cents env redemption)%Z];
        shop_rules := shop_rules w ++ [new_rule env redemption w];
        shop_codes := shop_codes w ++ [(next_rule_id w, new_title env)];
        next_rule_id := S (next_rule_id w) |}).
Proof.
  intros Hget Hf Ham Hg.
  unfold create_discount, update_pending. rewrite Hget, Hf, Ham, Hg.
  unfold exchange, create_rule, add_discount_code, add_capital.
  rewrite !Hf. reflexivity.
Qed.

Lemma redemption_effects_witness :
  create_discount (example_env no_fault) (example_world (VInt 5)) =
    (Ok tt,
     {| nb_person := dict_set (nb_person (example_world (VInt 5)))
                       (SHOP_PENDING_FIELD (example_env no_fault)) VNone;
        nb_capitals := nb_capitals (example_world (VInt 5))
                       ++ [(- round_cents (example_env no_fault) 5%float)%Z];
        shop_rules := shop_rules (example_world (VInt 5))
                      ++ [new_rule (example_env no_fault) 5%float (example_world (VInt 5))];
        shop_codes := shop_codes (example_world (VInt 5))
                      ++ [(next_rule_id (example_world (VInt 5)),
                           new_title (example_env no_fault))];
        next_rule_id := S (next_rule_id (example_world (VInt 5))) |}).
Proof.
  apply (redemption_effects (example_env no_fault) (example_world (VInt 5))
           (VDict [("capital_amount_in_cents", VInt 1000);
                   ("capital_redemption", VInt 5)])
           5%float 10%float).
  - reflexivity.
  - intros s. reflexivity.
  - vm_compute. reflexivity.
  - vm_compute. reflexivity.
Defined.

(** X26. The amounts are read after the pending field has been cleared
    and outside the [try]: for a person with at least one field, when the
    pending value is no number for [float] (it is [None] when the field is
    empty or absent), or the capital none for [int], the task raises that
    error with the pending field left at [None] and nothing else changed;
    no handler writes the amount back. *)
Theorem unreadable_amounts_lose_pending (env : environment) (w : world) (e : exn) :
  faults env GetPerson = None ->
  faults env ClearPending = None ->
  nb_person w <> [] ->
  py_float env (getv (nb_person w) (SHOP_PENDING_FIELD env)) = Raise e \/
  (exists r, py_float env (getv (nb_person w) (SHOP_PENDING_FIELD env)) = Ok r /\
             py_int env (getv (nb_person w) CAPITAL_FIELD) = Raise e) ->
  create_discount env w = (Raise e, set_pending env VNone w).
Proof.
  intros Hg Hc Hne Hbad.
  unfold create_discount, update_pending.
  rewrite (get_person_filtered env w Hg Hne), Hc, amounts_filtered.
  destruct Hbad as [-> | (r & -> & ->)]; reflexivity.
Qed.

Lemma unreadable_amounts_lose_pending_witness :
  create_discount (example_env no_fault) (example_world VNone)
    = (Raise TypeError, set_pending (example_env no_fault) VNone (example_world VNone)).
Proof.
  apply (unreadable_amounts_lose_pending (example_env no_fault) (example_world VNone)
           TypeError).
  - reflexivity.
  - reflexivity.
  - discriminate.
  - left. reflexivity.
Defined.

(** X27. Nothing is redeemed twice: once a run has returned (the
    redemption made, or rejected by the guard), the same task run again on
    the world it left raises [TypeError] at [float(None)] and leaves that
    world exactly as it is. *)
Theorem completed_run_is_not_repeated (env : environment) (w w1 : world) :
  create_discount env w = (Ok tt, w1) ->
  create_discount env w1 = (Raise TypeError, w1).
Proof.
  intros Hrun.
  assert (Hfacts : faults env GetPerson = None /\ faults env ClearPending = None /\
                   exists w0, nb_person w1 = nb_person (set_pending env VNone w0) /\
                              set_pending env VNone w1 = w1).
  { unfold create_discount, update_pending, get_person in Hrun.
    destruct (faults env GetPerson); [discriminate|].
    destruct (proc_resp _ _ _) as [person|]; [|discriminate].
    destruct (faults env ClearPending); [discriminate|].
    destruct (amounts env person) as [[redemption capital]|]; [|discriminate].
    repeat split.
    destruct (redemption_guard redemption capital).
    - destruct (exchange env redemption (set_pending env VNone w))
        as [[[u|e] bound] w2] eqn:Hex.
      + inversion Hrun; subst. exists w.
        destruct (exchange_person _ _ _ _ _ _ Hex) as [Hp _].
        split; [exact Hp|].
        destruct w1 as [p c r k n]. unfold set_pending in *. cbn in *.
        rewrite Hp, dict_set_set. reflexivity.
      + unfold rollback in Hrun.
        destruct bound as [rule|];
          [destruct (destroy_rule env rule w2) as [[|e1] w3]|];
          unfold update_pending in Hrun;
          destruct (faults env RestorePending); try discriminate;
          try (destruct (is_NameError e1)); discriminate.
    - inversion Hrun; subst. exists w. split; [reflexivity|].
      apply set_pending_twice. }
  destruct Hfacts as (Hg & Hc & w0 & Hp & Hset).
  assert (Hne : nb_person w1 <> []).
  { rewrite Hp. apply dict_set_not_empty. }
  unfold create_discount, update_pending.
  rewrite (get_person_filtered env w1 Hg Hne), Hc, amounts_filtered, Hset.
  rewrite Hp. unfold set_pending, getv. cbn [nb_person].
  rewrite dict_get_set, String.eqb_refl. reflexivity.
Qed.

Lemma completed_run_is_not_repeated_witness :
  create_discount (example_env no_fault)
    (snd (create_discount (example_env no_fault) (example_world (VInt 5))))
    = (Raise TypeError,
       snd (create_discount (example_env no_fault) (example_world (VInt 5)))).
Proof.
  apply (completed_run_is_not_repeated (example_env no_fault) (example_world (VInt 5))).
  vm_compute. reflexivity.
Defined.

(** X28. A rolled-back run can be retried: after a failed exchange
    whose handler succeeded (the case of C7), with the pending field and
    the capital field being different fields,
    the person read from the world that the run left gives the same
    redemption and the same capital as before, so the guard passes again. *)
Theorem rolled_back_run_is_retryable (env : environment) (w w2 : world)
    (person : value) (redemption capital : float) (e : exn)
    (bound : option price_rule) :
  get_person env w = Ok person ->
  faults env ClearPending = None ->
  amounts env person = Ok (redemption, capital) ->
  redemption_guard redemption capital = true ->
  exchange env redemption (set_pending env VNone w) = (Raise e, bound, w2) ->
  faults env DestroyRule = None ->
  faults env RestorePending = None ->
  SHOP_PENDING_FIELD env <> CAPITAL_FIELD ->
  exists person',
    get_person env (snd (create_discount env w)) = Ok person' /\
    amounts env person' = Ok (redemption, capital).
Proof.
  intros Hget Hclear Ham Hguard Hex Hd Hr Hne.
  destruct (rollback_after_exchange env redemption w w2 e bound Hex Hd Hr)
    as (n & Hroll & _).
  assert (Hg : faults env GetPerson = None).
  { unfold get_person in Hget. destruct (faults env GetPerson); [discriminate|reflexivity]. }
  assert (Hd0 : nb_person w <> []).
  { intros He. rewrite (get_person_empty env w Hg He) in Hget.
    inversion Hget; subst. discriminate. }
  rewrite (get_person_filtered env w Hg Hd0) in Hget. inversion Hget; subst person.
  rewrite amounts_filtered in Ham.
  unfold create_discount, update_pending.
  rewrite (get_person_filtered env w Hg Hd0), Hclear, amounts_filtered.
  destruct (py_float env (getv (nb_person w) (SHOP_PENDING_FIELD env)))
    as [r|] eqn:Ef; [|discriminate].
  cbn [bind] in Ham |- *.
  destruct (py_int env (getv (nb_person w) CAPITAL_FIELD)) as [c|] eqn:Ei; [|discriminate].
  cbn [bind] in Ham |- *.
  destruct (int_truediv env c 100) as [q|] eqn:Ed; [|discriminate].
  cbn [bind] in Ham |- *. inversion Ham; subst r q.
  rewrite Hguard, Hex, Hroll. cbn [snd].
  eexists. split.
  - apply get_person_filtered; [exact Hg|]. cbn [nb_person]. apply dict_set_not_empty.
  - rewrite amounts_filtered. cbn [nb_person]. unfold getv.
    rewrite !dict_get_set, String.eqb_refl.
    destruct (String.eqb_spec (SHOP_PENDING_FIELD env) CAPITAL_FIELD) as [Heq|_];
      [contradiction|].
    cbn [py_float bind]. unfold getv in Ei. rewrite Ei. cbn [bind].
    rewrite Ed. reflexivity.
Qed.

Lemma rolled_back_run_is_retryable_witness :
  exists person',
    get_person (example_env add_capital_fails)
      (snd (create_discount (example_env add_capital_fails) (example_world (VInt 5))))
      = Ok person' /\
    amounts (example_env add_capital_fails) person' = Ok (5%float, 10%float).
Proof.
  apply (rolled_back_run_is_retryable (example_env add_capital_fails)
           (example_world (VInt 5))
           {| nb_person := [("id", VInt 1);
                            ("capital_amount_in_cents", VInt 1000);
                            ("capital_redemption", VNone)];
              nb_capitals := [];
              shop_rules := [ {| rule_id := 0; rule_title := "NB_1_K3Q9ZT0AXB";
                                 rule_value := PrimFloat.opp 5%float |} ];
              shop_codes := [(0, "NB_1_K3Q9ZT0AXB")];
              next_rule_id := 1 |}
           (VDict [("capital_amount_in_cents", VInt 1000);
                   ("capital_redemption", VInt 5)])
           5%float 10%float (HTTPError 500)
           (Some {| rule_id := 0; rule_title := "NB_1_K3Q9ZT0AXB";
                    rule_value := PrimFloat.opp 5%float |})).
  - reflexivity.
  - reflexivity.
  - vm_compute. reflexivity.
  - vm_compute. reflexivity.
  - vm_compute. reflexivity.
  - reflexivity.
  - reflexivity.
  - discriminate.
Defined.

(** X29. When [destroy] itself fails in the handler, the pending field
    is still written back ([finally]), but the price rule of this run stays
    in the shop, and what the task raises is the error of [destroy], not the
    one that started the handler, unless that error is a [NameError], which
    the handler swallows. *)
Theorem failed_destroy_leaves_rule (env : environment) (w w2 : world)
    (person : value) (redemption capital : float) (e e' : exn) (rule : price_rule) :
  get_person env w = Ok person ->
  faults env ClearPending = None ->
  amounts env person = Ok (redemption, capital) ->
  redemption_guard redemption capital = true ->
  exchange env redemption (set_pending env VNone w) = (Raise e, Some rule, w2) ->
  faults env DestroyRule = Some e' ->
  faults env RestorePending = None ->
  fst (create_discount env w) = Raise (if is_NameError e' then e else e') /\
  In rule (shop_rules (snd (create_discount env w))) /\
  nb_person (snd (create_discount env w))
    = dict_set (nb_person w) (SHOP_PENDING_FIELD env) (VFloat redemption).
Proof.
  intros Hget Hclear Ham Hguard Hex Hd Hr.
  destruct (exchange_person _ _ _ _ _ _ Hex) as [Hp Hb].
  destruct (Hb rule eq_refl) as [_ Hin].
  unfold create_discount, update_pending.
  rewrite Hget, Hclear, Ham, Hguard, Hex.
  unfold rollback, destroy_rule, update_pending. rewrite Hd, Hr.
  destruct (is_NameError e'); cbn [fst snd set_pending shop_rules nb_person];
    (repeat split; [exact Hin|]);
    rewrite Hp; unfold set_pending; cbn [nb_person]; apply dict_set_set.
Qed.

Lemma failed_destroy_leaves_rule_witness :
  fst (create_discount (example_env destroy_fails) (example_world (VInt 5)))
    = Raise (if is_NameError (HTTPError 404) then HTTPError 500 else HTTPError 404) /\
  In {| rule_id := 0; rule_title := "NB_1_K3Q9ZT0AXB";
        rule_value := PrimFloat.opp 5%float |}
     (shop_rules (snd (create_discount (example_env destroy_fails)
                         (example_world (VInt 5))))) /\
  nb_person (snd (create_discount (example_env destroy_fails) (example_world (VInt 5))))
    = dict_set (nb_person (example_world (VInt 5)))
        (SHOP_PENDING_FIELD (example_env destroy_fails)) (VFloat 5%float).
Proof.
  apply (failed_destroy_leaves_rule (example_env destroy_fails)
           (example_world (VInt 5))
           {| nb_person := [("id", VInt 1);
                            ("capital_amount_in_cents", VInt 1000);
                            ("capital_redemption", VNone)];
              nb_capitals := [];
              shop_rules := [ {| rule_id := 0; rule_title := "NB_1_K3Q9ZT0AXB";
                                 rule_value := PrimFloat.opp 5%float |} ];
              shop_codes := [(0, "NB_1_K3Q9ZT0AXB")];
              next_rule_id := 1 |}
           (VDict [("capital_amount_in_cents", VInt 1000);
                   ("capital_redemption", VInt 5)])
           5%float 10%float (HTTPError 500) (HTTPError 404)).
  - reflexivity.
  - reflexivity.
  - vm_compute. reflexivity.
  - vm_compute. reflexivity.
  - vm_compute. reflexivity.
  - reflexivity.
  - reflexivity.
Defined.

(** X30. When writing the pending field back fails in the handler, the
    task raises that error, whatever [destroy] did and whatever started the
    handler, and the pending field stays at [None]: the amount is not
    restored, and no capital has been deducted. *)
Theorem failed_restore_loses_pending (env : environment) (w w2 : world)
    (person : value) (redemption capital : float) (e e' : exn)
    (bound : option price_rule) :
  get_person env w = Ok person ->
  faults env ClearPending = None ->
  amounts env person = Ok (redemption, capital) ->
  redemption_guard redemption capital = true ->
  exchange env redemption (set_pending env VNone w) = (Raise e, bound, w2) ->
  faults env RestorePending = Some e' ->
  fst (create_discount env w) = Raise e' /\
  nb_person (snd (create_discount env w))
    = dict_set (nb_person w) (SHOP_PENDING_FIELD env) VNone /\
  nb_capitals (snd (create_discount env w)) = nb_capitals w.
Proof.
  intros Hget Hclear Ham Hguard Hex Hr.
  destruct (exchange_person _ _ _ _ _ _ Hex) as [Hp _].
  assert (Hc : nb_capitals w2 = nb_capitals w).
  { unfold exchange, create_rule, add_discount_code, add_capital in Hex.
    destruct (faults env BuildRule); [inversion Hex; reflexivity|].
    destruct (faults env CreateRule); [inversion Hex; reflexivity|].
    destruct (faults env AddDiscountCode); [inversion Hex; reflexivity|].
    destruct (faults env AddCapital); [inversion Hex; reflexivity|discriminate]. }
  unfold create_discount, update_pending.
  rewrite Hget, Hclear, Ham, Hguard, Hex.
  unfold rollback, destroy_rule, update_pending. rewrite Hr.
  destruct bound as [rule|]; [destruct (faults env DestroyRule)|];
    cbn [fst snd nb_person nb_capitals]; rewrite Hp, Hc; repeat split.
Qed.

Lemma failed_restore_loses_pending_witness :
  fst (create_discount (example_env restore_fails) (example_world (VInt 5)))
    = Raise (HTTPError 502) /\
  nb_person (snd (create_discount (example_env restore_fails) (example_world (VInt 5))))
    = dict_set (nb_person (example_world (VInt 5)))
        (SHOP_PENDING_FIELD (example_env restore_fails)) VNone /\
  nb_capitals (snd (create_discount (example_env restore_fails) (example_world (VInt 5))))
    = nb_capitals (example_world (VInt 5)).
Proof.
  apply (failed_restore_loses_pending (example_env restore_fails)
           (example_world (VInt 5))
           {| nb_person := [("id", VInt 1);
                            ("capital_amount_in_cents", VInt 1000);
                            ("capital_redemption", VNone)];
              nb_capitals := [];
              shop_rules := [ {| rule_id := 0; rule_title := "NB_1_K3Q9ZT0AXB";
                                 rule_value := PrimFloat.opp 5%float |} ];
              shop_codes := [(0, "NB_1_K3Q9ZT0AXB")];
              next_rule_id := 1 |}
           (VDict [("capital_amount_in_cents", VInt 1000);
                   ("capital_redemption", VInt 5)])
           5%float 10%float (HTTPError 500) (HTTPError 502)
           (Some {| rule_id := 0; rule_title := "NB_1_K3Q9ZT0AXB";
                    rule_value := PrimFloat.opp 5%float |})).
  - reflexivity.
  - reflexivity.
  - vm_compute. reflexivity.
  - vm_compute. reflexivity.
  - vm_compute. reflexivity.
  - reflexivity.
Defined.
